(* ===== verification/_CoqProject ===== *)
-Q . S2P
Prelude.v
PyStr.v
FileSystem.v
Yaml.v
YamlFlat.v
Engine.v
JinjaLexer.v
Jinja.v
JinjaLines.v
Generator.v
Validator.v
Cli.v
Pipeline.v
Tests.v
Setup.v
Composed.v
