(* ===== verification/Prelude.v ===== *)
(** * A verification development of AirflowDAGGenerator

    The program (src/airflowdaggenerator/airflowdaggenerator.py) turns a
    YAML configuration file and a Jinja2 template into an Airflow DAG
    Python file ([generate_dag], lines 10-43), then loads the output folder
    through Airflow's [DagBag] and fails with an [AssertionError] listing
    every import error ([validate_dag], lines 46-59).  [__get_args__]
    (lines 62-76) declares six required command-line options and [main]
    (lines 79-99) runs generation and validation in sequence, printing a
    progress line before, between and after them.  The tests
    (src/tests/conftest.py, src/tests/test_dag_generator.py) drive these
    functions on fixture paths.

    ** How the development is laid out

    - [Prelude] (this file): the shared vocabulary.  Python exceptions
      as the inductive [py_exc]; a [result] type with a bind notation in
      [dag_scope] for code that raises; the string lemmas every component
      uses; the hint database [dag], the rewrite base [dag_rw] and the tactics [inv_result] and
      [dag_simpl].
    - [PyStr]: the Python string operations the source calls:
      [str.endswith] (line 30), path building with [os.path.sep]
      (lines 33, 42), the [in] test of the tests, [str.strip], [repr] of a
      [str], and the [str.format] of a dict of strings (line 59).
    - [FileSystem]: the file system as a record of a [gmap] from paths to
      contents and a [gset] of directories; [open(p)] for reading,
      [open(p, "w")] (create or truncate) and [write].
    - [Yaml]: the values PyYAML's [FullLoader] produces ([yvalue]), the
      loader as a typeclass [YamlLoader] (line 33), Python's [dict()]
      conversion that Jinja2's [Template.render] applies to its argument.
    - [Engine]: Jinja2's [Environment(loader=FileSystemLoader(..),
      trim_blocks=True, lstrip_blocks=True)] as the typeclass
      [TemplateEngine]: [get_template] (line 39) and [render] (line 43),
      which builds the render context with [dict(config)] and Jinja2's
      [new_context] (keyword arguments: string keys only) before
      rendering.
    - [YamlFlat] (Module [FlatYaml]): a concrete [YamlLoader] for flat
      [key: value] documents, resolving scalars as PyYAML's YAML 1.1
      resolver does and refusing every form outside that subset.
    - [JinjaLexer] (Module [JinjaLexer]): Jinja2 2.10's lexer with the
      options of line 38: newline preprocessing, the scan of the source
      into data and [{{ }}], [{% %}] and [{# #}] tags with their [-] and
      [+] markers, and the whitespace control of [trim_blocks] and
      [lstrip_blocks] ([control]).
    - [Jinja] (Module [Jinja]): a concrete [TemplateEngine] on that
      lexer: the parser of [{{ name }}], [if]/[else]/[endif] and
      [for]/[endfor] with its stack of open blocks ([build]), and
      rendering with loop variables, Python truthiness and iteration.
      Module [JinjaScenario] renders an indented template.
    - [JinjaLines] (Module [JinjaLines]): templates written with every
      block tag on a line of its own, as a tree of text, [{{ x }}] and
      [if]/[else] and [for] blocks nested to any depth ([item]), printed
      to their source ([template_source]) through the [piece]s the lexer
      sees; [item_list_ind] is the induction principle of the nested
      tree.  Module [JinjaLinesScenario] compiles a DAG template with a
      loop inside a conditional.
    - [Generator]: [generate_dag] itself, by explicit state passing over
      the file system, proved against the two interfaces; the inductive
      [gen_outcome] names its seven exits.  Module [GeneratorScenario]
      runs it with [FlatYaml] and [Jinja] on the test fixtures.
    - [Validator]: Airflow's [DagBag] as the interface [DagBagLoader]
      with its laws, the Airflow 1.10 collection rule (the [.py] files of
      the folder whose text mentions both [DAG] and [airflow]) as the
      instance [AirflowDagBag] (with [DagBag]'s replacement of an empty
      folder by the configured [dags_folder]), and [validate_dag], which
      returns the lines it prints with its result.
    - [Cli]: [__get_args__] (lines 62-76), that is [argparse]'s
      [parse_args] in Python 3.8 on the parser of the six required
      options and [-h]: classification of each argument
      ([_parse_optional], abbreviations, ambiguity, [--], [--opt=value]),
      the consume loop ([consume]), the required and unrecognized errors.
      An exit of argparse is [SystemExit] with its status and message.
    - [Pipeline]: [main] (lines 79-99) over a [world] made of the file
      system and the lines printed to standard output.  [main] composes
      [Cli.get_args], [Generator.generate_dag] and [Validator.validate_dag]
      as the source does; [step] cuts the same run at each call that can
      raise ([mstate]).  [PipelineScenario] runs it on the fixtures.
    - [Tests]: conftest.py and test_dag_generator.py.  The fixtures are
      the registry pytest builds from conftest.py, [output_dag_path] is
      the yield fixture with its [os.mkdir] and [shutil.rmtree], and each
      test function is a definition over the file system giving pytest's
      verdict ([test_result]).
    - [Setup]: src/setup.py.  The [setup()] keyword arguments as a
      record read from the checkout ([setup_py] reads README.rst), the
      version specifiers of [install_requires] and [python_requires] with
      PEP 440 release comparison ([cmp_release], zero padding), and the
      [console_scripts] wrapper pip installs, [sys.exit(main())], with the
      exit status it gives ([run_installed], [exit_status]).
    - [Composed]: [generate_dag] with the concrete instances
      [FlatYaml.flat_loader] and [Jinja.jinja_engine] on a template with
      an [if] block ([IfTemplate]) and on any template written as a
      [JinjaLines] tree ([LineTemplate]), tying the Generator's theorems
      to the Jinja ones.

    ** What is proved (see PROJECT.json for the list of claims)

    - Generator: the order of the checks of [generate_dag] (extension,
      configuration file, [None] configuration, template, output file,
      rendering) and the exact exception of each failing branch; that
      only the output file changes, and only after the template is
      found; that a failed rendering leaves the output file truncated to
      the empty string, and that a configuration key YAML reads as a
      non-string ([1], [yes], [~]) is such a failure, with [TypeError]
      ([generate_dag_nonstring_key]); the content written on success;
      re-running on the same inputs gives the same file system unless the
      output path aliases an input.
    - Validator: [validate_dag] succeeds exactly when the loader reports
      no import error, and the message of its [AssertionError] contains
      the text of every error that [repr] leaves unescaped; under the
      Airflow collection rule, files without the two marker words, a
      missing output folder and files outside the folder are never
      reported, and the empty output path validates Airflow's configured
      DAGs folder instead ([airflow_validate_empty_path]).
    - Cli: for every command line made of options with values and stray
      arguments, [get_args] is characterised exactly
      ([get_args_command_line]): the namespace of the last value of each
      option, else the missing options in declaration order, else the
      stray arguments.
    - Pipeline: each exit of [main] (parse error, generation error,
      validation error, success) with its printed lines and file system;
      end to end, a normal return means the output file holds the
      rendering and the output folder has no import error.  An invariant
      of the states of the step machine reachable from the start
      ([reachable_inv], by rule induction) says what has been read and
      written at each point.
    - Tests: the test of a
      non-YAML configuration name fails when [test.txt] is absent; the
      valid-DAG test passes exactly when generation and validation
      succeed.
    - Composition: with PyYAML's loader on a configuration whose keys
      are strings and Jinja2 as line 38 builds it, [generate_dag] on a
      template with blocks nested to any depth, each tag on a line of its
      own, writes exactly the rendering of the template's tree
      ([generate_dag_line_template]); for an [if] block, the branch the
      configuration selects ([generate_dag_if_template]).
    - Jinja: with [trim_blocks] and [lstrip_blocks], an [if] block (with
      or without [else]) and a [for] block whose tags stand alone on
      indented lines render as if the tag lines were absent: the branch
      the condition selects, the body once per item for a loop
      ([if_block_lines], [for_block_lines]); [{{ x }}] prints [str] of
      the value of [x] and nothing when the configuration lacks [x]
      ([var_substitution]); each is stated for [template.render(config)]
      of line 43, whose context errors come first.  A final newline of the
      template is dropped ([keep_trailing_newline] is left [False]), so
      the output never ends with it ([compile_drops_final_newline]).
      The lexer lemmas behind them: scanning is independent of the data
      already read ([scan_data_cur]), data and tags alternate
      ([scan_data_shape]), a block tag alone on its line splits the
      template in two ([tokenize_block_line]).
    - Template round trip: every such tree, however deeply its blocks
      nest, compiles back to exactly its nodes ([template_roundtrip]),
      from two lemmas: any laid-out sequence of pieces lexes piece by
      piece ([tokenize_pieces]) and the parser builds each item's nodes
      on the open block ([build_items], by induction on the tree).
      [if_block_lines] and [for_block_lines] are its one-block cases with
      their rendering.
    - Setup: the releases the two version specifiers admit, for every
      release ([admitted_releases]: Jinja2 2.10.x with x >= 1, Python
      3.x with x >= 6); the installed command is [main] under
      [sys.exit], and exits with status 0 on success, 0 or 2 on a
      command-line error and 1 when validation fails
      ([installed_command_status]).

    Loops are structural recursions on the input (strings, argument
    lists, lines), so every definition is total and no fuel is needed;
    the step machine is run with a step count ([run]), and the invariant
    holds of every state any count reaches.

    ** What is not modelled

    The YAML grammar and the Jinja2 and Airflow internals are interfaces
    first: the development proves what [generate_dag] and [validate_dag]
    do for every loader and engine that meets the stated laws, and the
    concrete instances cover the subsets the fixtures use.  The import
    of a DAG file (running Python) is a parameter of [AirflowDagBag]:
    the templates the tests render ([sample_dag_template.py.j2] and the
    four invalid ones named in conftest.py) are not in the repository,
    so no concrete [load_file] could be checked against the files they
    produce; the test theorems are stated for every outcome of that
    import instead.
    argparse's usage and help texts are not modelled, only the exit
    status and the error message.  Opening a path whose directory is a
    regular file raises [FileNotFoundError] in the model where Python
    raises [NotADirectoryError]; both are [OSError]s and no test tells
    them apart.  Paths are compared as strings (no
    normalisation of [..] or repeated separators).  The Jinja model
    refuses filters, expressions other than names, macros, includes and
    inheritance with [TemplateSyntaxError]; the fixtures use none of
    them.  It also refuses the names Jinja2 binds itself ([self], bound
    to the template reference at the root, [loop] inside a loop, and the
    globals [range], [dict], [lipsum], [cycler], [joiner], [namespace]),
    which it does not model; the render context is the configuration's
    dict without the environment's globals for the same reason.  In [setup.py], [find_packages] and the classifiers are data
    without behaviour, and version specifiers are compared on their
    release numbers only (no pre-, post- or dev-releases, which the two
    specifiers do not mention). *)

From stdpp Require Export base gmap strings list.
From Stdlib Require Export String Ascii ZArith Lia DecimalString.

Declare Scope dag_scope.
Delimit Scope dag_scope with dag.

(** ** Python exceptions

    The exceptions that the modelled code raises or lets propagate.
    Each carries the text Python shows for it. *)

Inductive py_exc : Type :=
  | ValueError (msg : string)
  | TypeError (msg : string)
  | FileNotFoundError (path : string)
  | IsADirectoryError (path : string)
  | YAMLError (msg : string)
  | TemplateNotFound (name : string)
  | TemplateSyntaxError (msg : string)
  | UndefinedError (msg : string)
  | AssertionError (msg : string)
  | SystemExit (code : nat) (msg : string).

(** ** Results of code that may raise *)

Inductive result (A : Type) : Type :=
  | Ok (a : A)
  | Err (e : py_exc).
Arguments Ok {A} a.
Arguments Err {A} e.

Definition result_bind {A B} (r : result A) (k : A -> result B) : result B :=
  match r with
  | Ok a => k a
  | Err e => Err e
  end.

Notation "x <- r ;; k" := (result_bind r (fun x => k))
  (at level 60, r at next level, right associativity) : dag_scope.

Definition is_ok {A} (r : result A) : bool :=
  match r with Ok _ => true | Err _ => false end.

Lemma result_bind_ok {A B} (a : A) (k : A -> result B) :
  result_bind (Ok a) k = k a.
Proof. reflexivity. Qed.

Lemma result_bind_err {A B} (e : py_exc) (k : A -> result B) :
  result_bind (Err e) k = Err e.
Proof. reflexivity. Qed.

Lemma Err_inj {A} (a b : py_exc) : @Err A a = Err b -> a = b.
Proof. now intros [=]. Qed.

Lemma result_bind_Ok_inv {A B} (r : result A) (k : A -> result B) (b : B) :
  result_bind r k = Ok b -> exists a, r = Ok a /\ k a = Ok b.
Proof. destruct r; simpl; [eauto | discriminate]. Qed.

Lemma result_bind_Err_inv {A B} (r : result A) (k : A -> result B) (e : py_exc) :
  result_bind r k = Err e -> r = Err e \/ exists a, r = Ok a /\ k a = Err e.
Proof. destruct r; simpl; [eauto | intros H; left; congruence]. Qed.

(** ** Strings *)

Local Open Scope string_scope.

(** stdpp declares [String.app] [simpl never]; its two defining
    equations are used by rewriting instead. *)
Lemma string_app_nil_l (s : string) : "" ++ s = s.
Proof. reflexivity. Qed.

Lemma string_app_cons (c : ascii) (a b : string) :
  String c a ++ b = String c (a ++ b).
Proof. reflexivity. Qed.

Lemma string_app_nil_r (s : string) : s ++ "" = s.
Proof. induction s as [|c s IH]; [reflexivity | now rewrite string_app_cons, IH]. Qed.

Lemma string_app_assoc (a b c : string) : a ++ (b ++ c) = (a ++ b) ++ c.
Proof.
  induction a as [|x a IH]; [reflexivity | now rewrite !string_app_cons, IH].
Qed.

Lemma string_length_app (a b : string) :
  String.length (a ++ b) = String.length a + String.length b.
Proof.
  induction a as [|x a IH]; [reflexivity | rewrite string_app_cons; simpl; lia].
Qed.

Lemma string_app_inv_l (a b c : string) : a ++ b = a ++ c -> b = c.
Proof.
  induction a as [|x a IH]; [easy | rewrite !string_app_cons; intros H; injection H; auto].
Qed.

(** [String.prefix] as an equation on [++]. *)
Lemma string_prefix_spec (p s : string) :
  String.prefix p s = true <-> exists t, s = p ++ t.
Proof.
  revert s; induction p as [|c p IH]; intros s; simpl.
  - destruct s; split; eauto.
  - destruct s as [|d s].
    + split; [discriminate | intros [t Ht]; discriminate].
    + simpl; destruct (ascii_dec c d) as [->|Hne].
      * rewrite IH. split; intros [t Ht]; exists t;
          [now rewrite Ht | rewrite string_app_cons in Ht; now injection Ht].
      * split; [discriminate | intros [t Ht]; rewrite string_app_cons in Ht;
          injection Ht; congruence].
Qed.

(** ** Automation shared by the components *)

Create HintDb dag discriminated.
Create Rewrite HintDb dag_rw.

#[export] Hint Rewrite @result_bind_ok @result_bind_err string_app_nil_l
  string_app_cons string_app_nil_r : dag_rw.
#[export] Hint Resolve string_app_inv_l : dag.

(** Split an equation [result_bind r k = Ok b] or [... = Err e] into the
    cases of [r]. *)
Ltac inv_result :=
  repeat match goal with
  | H : result_bind ?r _ = Ok _ |- _ =>
      let a := fresh "a" in let Hr := fresh "Hr" in
      apply result_bind_Ok_inv in H as (a & Hr & H)
  | H : Ok _ = Ok _ |- _ => injection H as H; subst
  | H : Err _ = Err _ |- _ => injection H as H; subst
  | H : Ok _ = Err _ |- _ => discriminate H
  | H : Err _ = Ok _ |- _ => discriminate H
  end.

(** Unfold, rewrite with the [dag] base and the hypotheses, and simplify. *)
Ltac dag_simpl :=
  repeat (progress (simpl in *; autorewrite with dag_rw in *; subst)).

(** ** Association lists

    [NoDup] and [∈] are stdpp's, the forms [map_to_list] lemmas use. *)

Lemma in_map_fst_filter {A B} (P : A * B -> bool) (l : list (A * B)) (k : A) :
  k ∈ map fst (List.filter P l) -> k ∈ map fst l.
Proof.
  induction l as [|[a b] l IH]; simpl; [easy|].
  destruct (P (a, b)); simpl; rewrite ?elem_of_cons;
    [intros [->|Hin]; [now left | right; auto] | intros Hin; right; auto].
Qed.

Lemma NoDup_map_fst_filter {A B} (P : A * B -> bool) (l : list (A * B)) :
  NoDup (map fst l) -> NoDup (map fst (List.filter P l)).
Proof.
  induction l as [|[a b] l IH]; simpl; [easy|].
  intros Hnd. apply NoDup_cons in Hnd as [Hnin Hnd'].
  destruct (P (a, b)); simpl; [|auto].
  apply NoDup_cons. split; [|auto]. intros Hin. apply Hnin, (in_map_fst_filter P), Hin.
Qed.

(** A partial map over an association list that keeps each key. *)
Lemma in_map_fst_omap {A B C} (f : A * B -> option (A * C)) (l : list (A * B)) (k : A) :
  (forall x y, f x = Some y -> fst y = fst x) ->
  k ∈ map fst (omap f l) -> k ∈ map fst l.
Proof.
  intros Hf. induction l as [|x l IH]; simpl; [easy|].
  destruct (f x) as [y|] eqn:E; simpl; rewrite ?elem_of_cons; [|naive_solver].
  intros [->|Hin]; [left; apply (Hf _ _ E) | right; auto].
Qed.

Lemma NoDup_map_fst_omap {A B C} (f : A * B -> option (A * C)) (l : list (A * B)) :
  (forall x y, f x = Some y -> fst y = fst x) ->
  NoDup (map fst l) -> NoDup (map fst (omap f l)).
Proof.
  intros Hf. induction l as [|x l IH]; simpl; [constructor|].
  intros Hnd. apply NoDup_cons in Hnd as [Hnin Hnd'].
  destruct (f x) as [y|] eqn:E; simpl; [|auto].
  apply NoDup_cons. split; [|auto].
  rewrite (Hf _ _ E). intros Hin. apply Hnin, (in_map_fst_omap f l _ Hf), Hin.
Qed.

Lemma in_omap_inv {A B} (f : A -> option B) (l : list A) (y : B) :
  In y (omap f l) -> exists x, In x l /\ f x = Some y.
Proof.
  induction l as [|x l IH]; simpl; [easy|].
  destruct (f x) as [z|] eqn:E; simpl.
  - intros [<-|Hin]; [eauto | destruct (IH Hin) as (x' & ? & ?); eauto].
  - intros Hin. destruct (IH Hin) as (x' & ? & ?); eauto.
Qed.
