(* ===== verification/PyStr.v ===== *)
(** * Python string operations used by the generator and the validator

    [endswith] is CPython's [str.endswith] for one suffix (a tail
    comparison of [len(suffix)] characters, false when the suffix is
    longer), used at line 30.  [sep_join] is the path built by
    [a + os.path.sep + b] at lines 33 and 42.  [contains] is the [in]
    test of the test suite.  [repr_str] is CPython's [repr] of a [str]
    (quote choice and escapes), and [format_errors] the text of
    ['DAG import failures. Errors: {}'.format(d)] for a dict [d] of
    strings (lines 58-59).

    Characters are the 256 values of [ascii], read as the code points
    U+0000 to U+00FF, the Latin-1 range of Python's [str]. *)

From S2P Require Import Prelude.
Local Open Scope string_scope.

(** ** [str.endswith] *)

Definition endswith (s suffix : string) : bool :=
  let n := String.length s in
  let m := String.length suffix in
  (m <=? n)%nat && String.eqb (String.substring (n - m) m s) suffix.

(** ** [a + os.path.sep + b] *)

Definition os_sep : string := "/".

Definition sep_join (dir name : string) : string := dir ++ os_sep ++ name.

(** ** [str(n)] of an integer *)

Definition str_of_Z (z : Z) : string := DecimalString.NilEmpty.string_of_int (Z.to_int z).
Definition str_of_nat (n : nat) : string := DecimalString.NilEmpty.string_of_uint (Nat.to_uint n).

(** ** [needle in hay] *)

Fixpoint contains (needle hay : string) : bool :=
  String.prefix needle hay ||
  match hay with
  | EmptyString => false
  | String _ hay' => contains needle hay'
  end.

(** ** [str.strip()] *)

(** [str.isspace] on one character of Latin-1. *)
Definition is_ws (c : ascii) : bool :=
  let n := nat_of_ascii c in
  (n =? 32)%nat || (n =? 9)%nat || ((10 <=? n)%nat && (n <=? 13)%nat) || ((28 <=? n)%nat && (n <=? 31)%nat)
  || (n =? 133)%nat || (n =? 160)%nat.

Fixpoint lstrip_ws (s : string) : string :=
  match s with
  | String c rest => if is_ws c then lstrip_ws rest else s
  | EmptyString => EmptyString
  end.

Definition rev_str (s : string) : string := string_of_list_ascii (rev (list_ascii_of_string s)).

Definition rstrip_ws (s : string) : string := rev_str (lstrip_ws (rev_str s)).

Definition strip_ws (s : string) : string := rstrip_ws (lstrip_ws s).

(** ** [repr] of a [str] *)

Definition squote : ascii := "'"%char.
Definition dquote : ascii := "034"%char.
Definition backslash : ascii := "\"%char.

Definition hex_digit (n : nat) : ascii :=
  if (n <? 10)%nat then ascii_of_nat (48 + n) else ascii_of_nat (87 + n).

(** A character is printed as itself unless it is the quote, a
    backslash, a control character, DEL, or one of the Latin-1 code
    points Python does not consider printable (U+0080 to U+00A0 and the
    soft hyphen U+00AD). *)
Definition unprintable (n : nat) : bool :=
  (n <? 32)%nat || (n =? 127)%nat || ((128 <=? n)%nat && (n <=? 160)%nat) || (n =? 173)%nat.

Definition repr_char (quote c : ascii) : string :=
  let n := nat_of_ascii c in
  if Ascii.eqb c quote || Ascii.eqb c backslash then String backslash (String c EmptyString)
  else if (n =? 9)%nat then "\t"
  else if (n =? 10)%nat then "\n"
  else if (n =? 13)%nat then "\r"
  else if unprintable n then
    String backslash (String "x" (String (hex_digit (n / 16)) (String (hex_digit (n mod 16)) EmptyString)))
  else String c EmptyString.

Fixpoint contains_char (c : ascii) (s : string) : bool :=
  match s with
  | EmptyString => false
  | String d s' => Ascii.eqb c d || contains_char c s'
  end.

(** Single quotes, unless the text has a single quote and no double quote. *)
Definition repr_quote (s : string) : ascii :=
  if contains_char squote s && negb (contains_char dquote s) then dquote else squote.

Fixpoint repr_body (quote : ascii) (s : string) : string :=
  match s with
  | EmptyString => EmptyString
  | String c s' => repr_char quote c ++ repr_body quote s'
  end.

Definition repr_str (s : string) : string :=
  let q := repr_quote s in
  String q (repr_body q s ++ String q EmptyString).

(** ** [str(d)] of a dict of strings, and the message of line 59 *)

Fixpoint join (sep : string) (items : list string) : string :=
  match items with
  | [] => EmptyString
  | [x] => x
  | x :: rest => x ++ sep ++ join sep rest
  end.

Definition dict_repr (d : list (string * string)) : string :=
  "{" ++ join ", " (map (fun '(k, v) => repr_str k ++ ": " ++ repr_str v) d) ++ "}".

Definition format_errors (d : list (string * string)) : string :=
  "DAG import failures. Errors: " ++ dict_repr d.

(** ** Lemmas *)

Lemma substring_app_r (a b : string) (k m : nat) :
  String.substring (String.length a + k) m (a ++ b) = String.substring k m b.
Proof. induction a as [|c a IH]; [reflexivity | exact IH]. Qed.

Lemma substring_full (s : string) : String.substring 0 (String.length s) s = s.
Proof. induction s as [|c s IH]; simpl; [reflexivity | now rewrite IH]. Qed.

Lemma substring_split (s : string) (k : nat) :
  (k <= String.length s)%nat ->
  String.substring 0 k s ++ String.substring k (String.length s - k) s = s.
Proof.
  revert k; induction s as [|c s IH]; intros k Hk; simpl in *.
  - destruct k; [reflexivity | lia].
  - destruct k as [|k]; simpl.
    + now rewrite substring_full.
    + rewrite string_app_cons, IH; [reflexivity | lia].
Qed.

(** The guard of line 30 is a true suffix test: [endswith s suffix]
    holds exactly when [s] is some text followed by [suffix]. *)
Lemma endswith_spec (s suffix : string) :
  endswith s suffix = true <-> exists p, s = p ++ suffix.
Proof.
  unfold endswith; rewrite andb_true_iff, Nat.leb_le, String.eqb_eq.
  split.
  - intros [Hle Hsub]. exists (String.substring 0 (String.length s - String.length suffix) s).
    pose proof (substring_split s (String.length s - String.length suffix) ltac:(lia)) as Hs.
    replace (String.length s - (String.length s - String.length suffix))%nat
      with (String.length suffix) in Hs by lia.
    rewrite Hsub in Hs. now symmetry.
  - intros [p ->]. rewrite string_length_app.
    replace (String.length p + String.length suffix - String.length suffix)%nat
      with (String.length p + 0)%nat by lia.
    rewrite substring_app_r. split; [lia | apply substring_full].
Qed.

Lemma contains_unfold (needle hay : string) :
  contains needle hay =
  String.prefix needle hay ||
  match hay with EmptyString => false | String _ hay' => contains needle hay' end.
Proof. destruct hay; reflexivity. Qed.

Lemma contains_spec (needle hay : string) :
  contains needle hay = true <-> exists a b, hay = a ++ needle ++ b.
Proof.
  induction hay as [|c hay IH]; rewrite contains_unfold, orb_true_iff, string_prefix_spec.
  - split.
    + intros [[t Ht] | H]; [exists EmptyString, t; exact Ht | discriminate].
    + intros (a & b & H). left. exists b. destruct a; [exact H | discriminate].
  - rewrite IH. split.
    + intros [[t Ht] | (a & b & H)].
      * exists EmptyString, t. exact Ht.
      * exists (String c a), b. now rewrite H.
    + intros (a & b & H). destruct a as [|d a].
      * left. now exists b.
      * right. rewrite string_app_cons in H. injection H as -> ->. eauto.
Qed.

Lemma contains_app_middle (a needle b : string) : contains needle (a ++ needle ++ b) = true.
Proof. apply contains_spec. eauto. Qed.

Lemma contains_trans (a b c : string) :
  contains a b = true -> contains b c = true -> contains a c = true.
Proof.
  rewrite !contains_spec. intros (x & y & ->) (u & v & ->).
  exists (u ++ x), (y ++ v). now rewrite <- !string_app_assoc.
Qed.

Lemma contains_join (sep x : string) (l : list string) :
  In x l -> contains x (join sep l) = true.
Proof.
  induction l as [|y l IH]; simpl; [easy|].
  intros [->|Hin].
  - destruct l; apply contains_spec; [exists EmptyString, EmptyString | exists EmptyString, (sep ++ join sep (s :: l))];
      now rewrite ?string_app_nil_r.
  - destruct l as [|z l]; [easy|].
    apply (contains_trans _ _ _ (IH Hin)). apply contains_spec. exists (y ++ sep), EmptyString.
    now rewrite string_app_nil_r, <- string_app_assoc.
Qed.

(** Each entry of the dict appears in the message as [repr(k): repr(v)]. *)
Lemma format_errors_entry (d : list (string * string)) (k v : string) :
  In (k, v) d -> contains (repr_str k ++ ": " ++ repr_str v) (format_errors d) = true.
Proof.
  intros Hin. unfold format_errors, dict_repr.
  eapply contains_trans; [apply contains_join, (in_map (fun '(k, v) => repr_str k ++ ": " ++ repr_str v) _ _ Hin)|].
  apply contains_spec. eexists ("DAG import failures. Errors: " ++ "{"), "}".
  now rewrite <- !string_app_assoc.
Qed.

#[export] Hint Resolve contains_app_middle : dag.

(** ** When [repr] keeps a string verbatim *)

(** The characters [repr_char q] prints as themselves. *)
Definition plain_char (quote c : ascii) : bool :=
  negb (Ascii.eqb c quote || Ascii.eqb c backslash) && negb (unprintable (nat_of_ascii c)).

Fixpoint all_plain (quote : ascii) (s : string) : bool :=
  match s with
  | EmptyString => true
  | String c s' => plain_char quote c && all_plain quote s'
  end.

Lemma repr_char_plain (q c : ascii) :
  plain_char q c = true -> repr_char q c = String c EmptyString.
Proof.
  unfold plain_char, repr_char. intros H.
  apply andb_true_iff in H as [H1 H2]. apply negb_true_iff in H1, H2.
  rewrite H1, H2.
  destruct (Nat.eqb_spec (nat_of_ascii c) 9); [unfold unprintable in H2; rewrite e in H2; discriminate|].
  destruct (Nat.eqb_spec (nat_of_ascii c) 10); [unfold unprintable in H2; rewrite e in H2; discriminate|].
  destruct (Nat.eqb_spec (nat_of_ascii c) 13); [unfold unprintable in H2; rewrite e in H2; discriminate|].
  reflexivity.
Qed.

(** Every other character is printed as an escape of two or four characters. *)
Lemma repr_char_escaped (q c : ascii) :
  plain_char q c = false -> (2 <= String.length (repr_char q c))%nat.
Proof.
  unfold plain_char, repr_char. intros H.
  destruct (Ascii.eqb c q || Ascii.eqb c backslash); simpl in *; [lia|].
  apply negb_false_iff in H. rewrite H.
  repeat match goal with |- context [if ?b then _ else _] => destruct b end; simpl; lia.
Qed.

Lemma repr_char_length (q c : ascii) : (1 <= String.length (repr_char q c))%nat.
Proof.
  destruct (plain_char q c) eqn:E;
    [rewrite repr_char_plain by exact E; simpl; lia | pose proof (repr_char_escaped q c E); lia].
Qed.

Lemma repr_body_length (q : ascii) (s : string) :
  (String.length s <= String.length (repr_body q s))%nat.
Proof.
  induction s as [|c s IH]; simpl; [lia|].
  rewrite string_length_app. pose proof (repr_char_length q c). lia.
Qed.

Lemma repr_body_plain (q : ascii) (s : string) : all_plain q s = true -> repr_body q s = s.
Proof.
  induction s as [|c s IH]; simpl; [easy|]. rewrite andb_true_iff. intros [Hc Hs].
  rewrite repr_char_plain by exact Hc. rewrite string_app_cons, string_app_nil_l. now rewrite IH.
Qed.

(** [repr] keeps the characters of a string verbatim exactly when
    none of them is the quote, a backslash or unprintable: [repr_body q]
    is the identity on those strings and on no other. *)
Lemma repr_body_id_iff (q : ascii) (s : string) :
  repr_body q s = s <-> all_plain q s = true.
Proof.
  induction s as [|c s IH]; simpl; [easy|].
  rewrite andb_true_iff, <- IH. destruct (plain_char q c) eqn:E.
  - rewrite repr_char_plain by exact E. rewrite string_app_cons, string_app_nil_l.
    split; [intros H; injection H; auto | intros [_ ->]; reflexivity].
  - split; [|intros [H _]; discriminate].
    intros H. apply (f_equal String.length) in H.
    rewrite string_length_app in H. simpl in H.
    pose proof (repr_char_escaped q c E). pose proof (repr_body_length q s). lia.
Qed.

Lemma repr_str_plain (s : string) :
  all_plain (repr_quote s) s = true ->
  repr_str s = String (repr_quote s) (s ++ String (repr_quote s) EmptyString).
Proof. intros H. unfold repr_str. now rewrite (repr_body_plain _ s H). Qed.

Lemma repr_str_contains (s : string) :
  all_plain (repr_quote s) s = true -> contains s (repr_str s) = true.
Proof.
  intros H. rewrite repr_str_plain by exact H.
  apply contains_spec. exists (String (repr_quote s) EmptyString), (String (repr_quote s) EmptyString).
  reflexivity.
Qed.

