(* ===== verification/FileSystem.v ===== *)
(** * The file system seen by [open]

    The state is a record of the regular files (a [gmap] from path to
    content) and the directories (a [gset] of paths).  [fs_read] is
    [open(p)] followed by a full read (line 33 and Jinja2's
    [FileSystemLoader]); [fs_open_write] is [open(p, "w")] (line 42), which
    creates or truncates the file; [fs_write] is [f.write(s)] on the
    handle it returned.  [dirname] is [os.path.dirname] of the POSIX
    [posixpath] module, used to decide whether the directory of a new file
    exists.  The empty directory name is the current directory, which
    always exists. *)

From S2P Require Import Prelude PyStr.
Local Open Scope string_scope.

Record fs_state := mkFS {
  fs_files : gmap string string;
  fs_dirs : gset string
}.

(** ** [os.path.dirname] *)

Definition sep_char : ascii := "/"%char.

(** The text up to and including the last separator, if there is one. *)
Fixpoint head_to_last_sep (s : string) : option string :=
  match s with
  | EmptyString => None
  | String c s' =>
      match head_to_last_sep s' with
      | Some h => Some (String c h)
      | None => if Ascii.eqb c sep_char then Some (String c EmptyString) else None
      end
  end.

Fixpoint all_sep (s : string) : bool :=
  match s with
  | EmptyString => true
  | String c s' => Ascii.eqb c sep_char && all_sep s'
  end.

(** [s.rstrip('/')] *)
Fixpoint rstrip_sep (s : string) : string :=
  match s with
  | EmptyString => EmptyString
  | String c s' =>
      let r := rstrip_sep s' in
      if String.eqb r EmptyString && Ascii.eqb c sep_char then EmptyString else String c r
  end.

(** [head = p[:p.rfind('/') + 1]], stripped of its trailing separators
    unless it consists of separators only. *)
Definition dirname (p : string) : string :=
  match head_to_last_sep p with
  | None => EmptyString
  | Some head => if all_sep head then head else rstrip_sep head
  end.

Definition dir_exists (fs : fs_state) (d : string) : bool :=
  String.eqb d EmptyString || bool_decide (d ∈ fs_dirs fs).

(** ** [open(p).read()] *)

Definition fs_read (fs : fs_state) (p : string) : result string :=
  match fs_files fs !! p with
  | Some content => Ok content
  | None => if bool_decide (p ∈ fs_dirs fs) then Err (IsADirectoryError p)
            else Err (FileNotFoundError p)
  end.

(** ** [open(p, "w")] and [write] *)

Definition fs_open_write (fs : fs_state) (p : string) : result fs_state :=
  if bool_decide (p ∈ fs_dirs fs) then Err (IsADirectoryError p)
  else if dir_exists fs (dirname p) then
    Ok (mkFS (<[p := EmptyString]> (fs_files fs)) (fs_dirs fs))
  else Err (FileNotFoundError p).

Definition fs_write (fs : fs_state) (p s : string) : fs_state :=
  mkFS (<[p := (default EmptyString (fs_files fs !! p)) ++ s]> (fs_files fs)) (fs_dirs fs).

(** ** Well-formedness: no path is both a file and a directory, and the
    directory of every file exists. *)

Definition fs_wf (fs : fs_state) : Prop :=
  (forall p, is_Some (fs_files fs !! p) -> p ∉ fs_dirs fs) /\
  (forall p, is_Some (fs_files fs !! p) -> dir_exists fs (dirname p) = true).

(** ** Lemmas *)

Lemma fs_read_file (fs : fs_state) (p c : string) :
  fs_files fs !! p = Some c -> fs_read fs p = Ok c.
Proof. unfold fs_read. now intros ->. Qed.

Lemma fs_read_missing (fs : fs_state) (p : string) :
  fs_files fs !! p = None -> p ∉ fs_dirs fs -> fs_read fs p = Err (FileNotFoundError p).
Proof. unfold fs_read. intros -> Hd. now rewrite bool_decide_false. Qed.

Lemma fs_open_write_ok (fs fs' : fs_state) (p : string) :
  fs_open_write fs p = Ok fs' ->
  fs' = mkFS (<[p := EmptyString]> (fs_files fs)) (fs_dirs fs) /\
  (p ∉ fs_dirs fs) /\ dir_exists fs (dirname p) = true.
Proof.
  unfold fs_open_write. case_bool_decide; [discriminate|].
  destruct (dir_exists fs (dirname p)) eqn:E; [|discriminate].
  intros H'. injection H' as <-. auto.
Qed.

Lemma fs_open_write_succeeds (fs : fs_state) (p : string) :
  p ∉ fs_dirs fs -> dir_exists fs (dirname p) = true ->
  fs_open_write fs p = Ok (mkFS (<[p := EmptyString]> (fs_files fs)) (fs_dirs fs)).
Proof. intros Hd He. unfold fs_open_write. now rewrite bool_decide_false, He. Qed.

(** Writing to the handle of a freshly opened file sets its content. *)
Lemma fs_write_after_open (fs : fs_state) (p s : string) :
  fs_write (mkFS (<[p := EmptyString]> (fs_files fs)) (fs_dirs fs)) p s =
  mkFS (<[p := s]> (fs_files fs)) (fs_dirs fs).
Proof.
  unfold fs_write; simpl. rewrite lookup_insert_eq, insert_insert_eq. reflexivity.
Qed.

Lemma dir_exists_insert (files : gmap string string) (dirs : gset string) p c d :
  dir_exists (mkFS (<[p := c]> files) dirs) d = dir_exists (mkFS files dirs) d.
Proof. reflexivity. Qed.

(** Opening a file for writing keeps the file system well formed. *)
Lemma fs_open_write_wf (fs fs' : fs_state) (p : string) :
  fs_wf fs -> fs_open_write fs p = Ok fs' -> fs_wf fs'.
Proof.
  destruct fs as [files dirs].
  intros [Hdisj Hpar] Hopen. apply fs_open_write_ok in Hopen as (-> & Hp & Hd).
  split; simpl in *; intros q Hq; rewrite lookup_insert in Hq; case_decide; subst; rewrite ?dir_exists_insert; auto.
Qed.

Lemma fs_write_wf (fs : fs_state) (p s : string) :
  fs_wf fs -> is_Some (fs_files fs !! p) -> fs_wf (fs_write fs p s).
Proof.
  destruct fs as [files dirs].
  intros [Hdisj Hpar] Hp. unfold fs_write.
  split; simpl in *; intros q Hq; rewrite lookup_insert in Hq; case_decide; subst; rewrite ?dir_exists_insert; auto.
Qed.

(** A read is not affected by writing another path. *)
Lemma fs_read_insert_ne (files : gmap string string) (dirs : gset string) (p q c : string) :
  p <> q -> fs_read (mkFS (<[p := c]> files) dirs) q = fs_read (mkFS files dirs) q.
Proof. intros Hne. unfold fs_read; simpl. now rewrite lookup_insert_ne. Qed.

#[export] Hint Resolve fs_read_file fs_read_missing fs_open_write_succeeds : dag.

(** [fs_wf] as a boolean test over the files, for concrete states. *)
Definition fs_wf_b (fs : fs_state) : bool :=
  forallb (fun '(p, _) => negb (bool_decide (p ∈ fs_dirs fs)) && dir_exists fs (dirname p))
          (map_to_list (fs_files fs)).

Lemma fs_wf_b_sound (fs : fs_state) : fs_wf_b fs = true -> fs_wf fs.
Proof.
  unfold fs_wf_b. rewrite forallb_forall. intros H.
  assert (Hp : forall p, is_Some (fs_files fs !! p) ->
            negb (bool_decide (p ∈ fs_dirs fs)) && dir_exists fs (dirname p) = true).
  { intros p [c Hc]. apply (H (p, c)). apply list_elem_of_In, elem_of_map_to_list, Hc. }
  split; intros p Hs; specialize (Hp p Hs); apply andb_true_iff in Hp as [H1 H2]; [|exact H2].
  apply negb_true_iff, bool_decide_eq_false in H1. exact H1.
Qed.
