(* ===== verification/Yaml.v ===== *)
(** * Configuration values and the YAML loader

    [yvalue] is the part of what [yaml.load(..., Loader=yaml.FullLoader)]
    returns that a DAG configuration uses: [None], booleans, integers,
    strings, lists and dicts (floats, dates and binary scalars are not
    modelled).  A dict is an association list in insertion order, as a
    Python dict is.  The loader is the typeclass [YamlLoader]: the YAML
    grammar is PyYAML's, not this program's, and the one law the program
    relies on is that an empty document loads as [None].

    [py_dict] is Python's [dict(x)] for one positional argument, which
    Jinja2's [Template.render(config)] applies first (line 43): a dict is
    copied, a list must hold pairs, a string must be empty, and any other
    value raises.  [py_str] is [str(v)], what [{{ v }}] prints. *)

From S2P Require Import Prelude PyStr.
Local Open Scope string_scope.

#[warnings="-register-all"]
Inductive yvalue : Type :=
  | YNone
  | YBool (b : bool)
  | YInt (z : Z)
  | YStr (s : string)
  | YList (items : list yvalue)
  | YMap (entries : list (yvalue * yvalue)).

Class YamlLoader := {
  yaml_load : string -> result yvalue;
  (** PyYAML loads an empty stream as [None]. *)
  yaml_load_empty : yaml_load EmptyString = Ok YNone
}.

(** ** Python dicts keyed by hashable values *)

(** [==] between hashable keys: [True == 1] and [False == 0], as in Python. *)
Definition py_key_eqb (a b : yvalue) : bool :=
  match a, b with
  | YNone, YNone => true
  | YBool x, YBool y => Bool.eqb x y
  | YInt x, YInt y => Z.eqb x y
  | YBool x, YInt y | YInt y, YBool x => Z.eqb (if x then 1 else 0) y
  | YStr x, YStr y => String.eqb x y
  | _, _ => false
  end.

Definition hashable (v : yvalue) : bool :=
  match v with YList _ | YMap _ => false | _ => true end.

Definition type_name (v : yvalue) : string :=
  match v with
  | YNone => "NoneType" | YBool _ => "bool" | YInt _ => "int"
  | YStr _ => "str" | YList _ => "list" | YMap _ => "dict"
  end.

Definition py_dict_t := list (yvalue * yvalue).

(** [d[k] = v]: an existing equal key keeps its place and its key object. *)
Fixpoint dict_set (d : py_dict_t) (k v : yvalue) : py_dict_t :=
  match d with
  | [] => [(k, v)]
  | (k', v') :: rest => if py_key_eqb k' k then (k', v) :: rest else (k', v') :: dict_set rest k v
  end.

Fixpoint dict_get (d : py_dict_t) (k : yvalue) : option yvalue :=
  match d with
  | [] => None
  | (k', v) :: rest => if py_key_eqb k' k then Some v else dict_get rest k
  end.

(** ** [dict(x)] *)

Definition length_error (i n : nat) : py_exc :=
  ValueError ("dictionary update sequence element #" ++ str_of_nat i ++ " has length "
              ++ str_of_nat n ++ "; 2 is required").

(** One element of a sequence argument: it must itself be a sequence of
    two items, the first hashable.  Iterating a dict yields its keys and
    iterating a string its characters. *)
Definition pair_of_item (i : nat) (item : yvalue) : result (yvalue * yvalue) :=
  let two (xs : list yvalue) :=
    match xs with
    | [k; v] => if hashable k then Ok (k, v) else Err (TypeError ("unhashable type: '" ++ type_name k ++ "'"))
    | _ => Err (length_error i (List.length xs))
    end in
  match item with
  | YList xs => two xs
  | YMap kvs => two (map fst kvs)
  | YStr s => two (map (fun c => YStr (String c EmptyString)) (list_ascii_of_string s))
  | _ => Err (TypeError ("cannot convert dictionary update sequence element #" ++ str_of_nat i
                         ++ " to a sequence"))
  end.

Fixpoint dict_from_seq (i : nat) (d : py_dict_t) (items : list yvalue) : result py_dict_t :=
  match items with
  | [] => Ok d
  | item :: rest =>
      match pair_of_item i item with
      | Ok (k, v) => dict_from_seq (S i) (dict_set d k v) rest
      | Err e => Err e
      end
  end.

Definition py_dict (v : yvalue) : result py_dict_t :=
  match v with
  | YMap kvs => Ok (fold_left (fun d '(k, v) => dict_set d k v) kvs [])
  | YList items => dict_from_seq 0 [] items
  | YStr s => dict_from_seq 0 [] (map (fun c => YStr (String c EmptyString)) (list_ascii_of_string s))
  | _ => Err (TypeError ("'" ++ type_name v ++ "' object is not iterable"))
  end.

(** ** [str(v)] and [repr(v)] *)

Fixpoint py_repr (v : yvalue) : string :=
  match v with
  | YNone => "None"
  | YBool true => "True"
  | YBool false => "False"
  | YInt z => str_of_Z z
  | YStr s => repr_str s
  | YList items => "[" ++ join ", " (map py_repr items) ++ "]"
  | YMap kvs => "{" ++ join ", " (map (fun '(k, v) => py_repr k ++ ": " ++ py_repr v) kvs) ++ "}"
  end.

Definition py_str (v : yvalue) : string :=
  match v with
  | YStr s => s
  | _ => py_repr v
  end.
