(* ===== verification/YamlFlat.v ===== *)
(** * A YAML loader for flat configuration files

    An instance of [Yaml.YamlLoader] for the documents DAG configurations
    are written in: one [key: value] entry per line, blank lines and
    [#] comment lines, or a single plain scalar.  Scalars are resolved as
    PyYAML's YAML 1.1 resolver does for the forms kept here: [~], [null]
    and the empty value are [None]; [true]/[false], [yes]/[no], [on]/[off]
    (in lower, capitalised and upper case) are booleans; an optionally
    signed decimal without leading zero is an integer; a single-quoted
    text without inner quote is a string; any other plain text is a
    string.  Every other form (indentation, flow collections, anchors,
    tags, block scalars, double quotes, numbers PyYAML reads in other
    bases or as floats, inline comments, document markers) is refused
    with [YAMLError], so the loader never returns a value PyYAML would
    not.  An empty document, or one of comments only, is [None]. *)

From S2P Require Import Prelude PyStr Yaml.
Local Open Scope string_scope.
Local Open Scope dag_scope.

Module FlatYaml.

Definition code (c : ascii) : nat := nat_of_ascii c.

(** ** Lines *)

Fixpoint lines_go (s cur : string) : list string :=
  match s with
  | EmptyString => [cur]
  | String c rest =>
      if (code c =? 10)%nat then cur :: lines_go rest EmptyString
      else lines_go rest (cur ++ String c EmptyString)
  end.

Definition lines (s : string) : list string := lines_go s EmptyString.

Definition is_blank_char (c : ascii) : bool := (code c =? 32)%nat || (code c =? 9)%nat || (code c =? 13)%nat.

Fixpoint lstrip (s : string) : string :=
  match s with
  | String c rest => if is_blank_char c then lstrip rest else s
  | EmptyString => EmptyString
  end.

Definition rstrip (s : string) : string := rev_str (lstrip (rev_str s)).
Definition strip (s : string) : string := rstrip (lstrip s).

Definition starts_with_char (c : ascii) (s : string) : bool :=
  match s with String d _ => Ascii.eqb c d | EmptyString => false end.

Definition is_content_line (l : string) : bool :=
  match lstrip l with
  | EmptyString => false
  | String c _ => negb (Ascii.eqb c "#"%char)
  end.

(** ** Scalars *)

Definition is_digit (c : ascii) : bool := (48 <=? code c)%nat && (code c <=? 57)%nat.

Fixpoint all_digits (s : string) : bool :=
  match s with
  | EmptyString => true
  | String c rest => is_digit c && all_digits rest
  end.

Fixpoint digits_value (s : string) (acc : Z) : Z :=
  match s with
  | EmptyString => acc
  | String c rest => digits_value rest (10 * acc + Z.of_nat (code c - 48))
  end.

(** [0] or a nonzero digit followed by digits. *)
Definition decimal (s : string) : bool :=
  match s with
  | String "0" EmptyString => true
  | String c rest => is_digit c && negb (Ascii.eqb c "0"%char) && all_digits rest
  | EmptyString => false
  end.

Definition int_value (s : string) : option Z :=
  match s with
  | String "-" rest => if decimal rest then Some (- digits_value rest 0)%Z else None
  | String "+" rest => if decimal rest then Some (digits_value rest 0) else None
  | _ => if decimal s then Some (digits_value s 0) else None
  end.

Definition null_words : list string := ["~"; "null"; "Null"; "NULL"].
Definition true_words : list string := ["yes"; "Yes"; "YES"; "true"; "True"; "TRUE"; "on"; "On"; "ON"].
Definition false_words : list string := ["no"; "No"; "NO"; "false"; "False"; "FALSE"; "off"; "Off"; "OFF"].

Definition indicators : list ascii :=
  ["["; "]"; "{"; "}"; "&"; "*"; "!"; "|"; ">"; "%"; "@"; "`"; "034"; "-"; "?"; ","; "#"]%char.

(** Plain text whose first character could start a number PyYAML reads
    otherwise (floats, octal, hexadecimal, sexagesimal, [.inf]). *)
Definition numeric_start (c : ascii) : bool :=
  is_digit c || Ascii.eqb c "+"%char || Ascii.eqb c "."%char.

Definition refused : py_exc := YAMLError "construct outside the flat subset".

Fixpoint quoted_body (s : string) : option string :=
  match s with
  | EmptyString => None
  | String "'" EmptyString => Some EmptyString
  | String "'" _ => None
  | String c rest => option_map (String c) (quoted_body rest)
  end.

(** Split at the first [:] followed by a blank or the end of the line. *)
Fixpoint split_entry (s cur : string) : option (string * string) :=
  match s with
  | EmptyString => None
  | String c rest =>
      if Ascii.eqb c ":"%char then
        match rest with
        | EmptyString => Some (cur, EmptyString)
        | String d _ => if is_blank_char d then Some (cur, rest) else split_entry rest (cur ++ ":")
        end
      else split_entry rest (cur ++ String c EmptyString)
  end.

Definition scalar (raw : string) : result yvalue :=
  let s := strip raw in
  if String.eqb s EmptyString || existsb (String.eqb s) null_words then Ok YNone
  else if existsb (String.eqb s) true_words then Ok (YBool true)
  else if existsb (String.eqb s) false_words then Ok (YBool false)
  else match int_value s with
  | Some z => Ok (YInt z)
  | None =>
      match s with
      | String "'" rest =>
          match quoted_body rest with Some body => Ok (YStr body) | None => Err refused end
      | String c _ =>
          if existsb (Ascii.eqb c) indicators || numeric_start c || contains "#" s
             || String.eqb s "=" || String.eqb s "<<"
             || match split_entry s EmptyString with Some _ => true | None => false end
          then Err refused
          else Ok (YStr s)
      | EmptyString => Ok YNone
      end
  end.

(** ** Entries *)

Definition entry (l : string) : result (yvalue * yvalue) :=
  if is_blank_char (match l with String c _ => c | EmptyString => " "%char end) then Err refused
  else match split_entry l EmptyString with
  | None => Err refused
  | Some (k, v) =>
      key <- scalar k ;;
      value <- scalar v ;;
      Ok (key, value)
  end.

Fixpoint entries (ls : list string) (d : py_dict_t) : result py_dict_t :=
  match ls with
  | [] => Ok d
  | l :: rest =>
      kv <- entry l ;;
      entries rest (dict_set d (fst kv) (snd kv))
  end.

(** PyYAML's reader accepts tab, line feed, carriage return, the
    printable ASCII characters, NEL and the characters from U+00A0 on. *)
Definition acceptable (c : ascii) : bool :=
  let n := code c in
  (n =? 9)%nat || (n =? 10)%nat || (n =? 13)%nat || ((32 <=? n)%nat && (n <=? 126)%nat)
  || (n =? 133)%nat || (160 <=? n)%nat.

Fixpoint all_acceptable (s : string) : bool :=
  match s with
  | EmptyString => true
  | String c rest => acceptable c && all_acceptable rest
  end.

(** A carriage return not followed by a line feed, or NEL, also breaks
    lines in YAML; such documents are refused. *)
Fixpoint other_break (s : string) : bool :=
  match s with
  | EmptyString => false
  | String c rest =>
      (code c =? 133)%nat ||
      ((code c =? 13)%nat && match rest with String d _ => negb (code d =? 10)%nat | EmptyString => true end) ||
      other_break rest
  end.

Definition flat_load (text : string) : result yvalue :=
  if negb (all_acceptable text) then Err (YAMLError "unacceptable character")
  else if other_break text then Err refused
  else
  match List.filter is_content_line (lines text) with
  | [] => Ok YNone
  | [l] =>
      match split_entry l EmptyString with
      | None => scalar l
      | Some _ => d <- entries [l] [] ;; Ok (YMap d)
      end
  | ls => d <- entries ls [] ;; Ok (YMap d)
  end.

Lemma flat_load_empty : flat_load EmptyString = Ok YNone.
Proof. reflexivity. Qed.

Definition flat_loader : YamlLoader := {|
  yaml_load := flat_load;
  yaml_load_empty := flat_load_empty
|}.

End FlatYaml.
