(* ===== verification/Engine.v ===== *)
(** * The Jinja2 environment of line 38

    [Environment(loader=FileSystemLoader(input_template_path),
    trim_blocks=True, lstrip_blocks=True)] is modelled in two parts.

    - The loader is concrete: [get_source] is [FileSystemLoader.get_source]
      for one search path: [split_template_path] splits the name on [/],
      refuses a [..] piece, drops empty and [.] pieces, and
      [os.path.join] puts the pieces under the search path; a missing file
      (or a directory) raises [TemplateNotFound(name)].
    - Compiling the source and rendering it are the typeclass
      [TemplateEngine]: the template language is Jinja2's, not this
      program's.  [compile] stands for [Environment.compile] with the two
      whitespace options fixed by line 38, [render_ctx] for rendering a
      compiled template against a context.

    [get_template] (line 39) composes the two; [template_render] (line 43)
    is [Template.render(config)], which first converts its argument with
    [dict()] ([Yaml.py_dict]), then builds the context with
    [new_context], which raises [TypeError] on a key that is not a
    string (a YAML key such as [1], [yes] or [~]), and only then
    renders. *)

From S2P Require Import Prelude PyStr FileSystem Yaml.
Local Open Scope string_scope.
Local Open Scope dag_scope.

Class TemplateEngine := {
  tmpl : Type;
  compile : string -> result tmpl;
  render_ctx : tmpl -> py_dict_t -> result string
}.

(** ** [str.split('/')] *)

Fixpoint split_sep (s : string) : list string :=
  match s with
  | EmptyString => [EmptyString]
  | String c s' =>
      match split_sep s' with
      | [] => [String c EmptyString]
      | piece :: rest =>
          if Ascii.eqb c sep_char then EmptyString :: piece :: rest
          else String c piece :: rest
      end
  end.

(** ** [jinja2.loaders.split_template_path] *)

Fixpoint split_pieces (name : string) (pieces : list string) : result (list string) :=
  match pieces with
  | [] => Ok []
  | piece :: rest =>
      if String.eqb piece ".." then Err (TemplateNotFound name)
      else
        r <- split_pieces name rest ;;
        Ok (if String.eqb piece EmptyString || String.eqb piece "." then r else piece :: r)
  end.

Definition split_template_path (name : string) : result (list string) :=
  split_pieces name (split_sep name).

(** ** [os.path.join(a, *pieces)] for pieces that do not start with [/] *)

Definition ends_with_sep (s : string) : bool := endswith s os_sep.

Definition path_join (a : string) (pieces : list string) : string :=
  fold_left (fun path b =>
               if String.eqb path EmptyString || ends_with_sep path then path ++ b
               else path ++ os_sep ++ b) pieces a.

(** ** [FileSystemLoader(searchpath).get_source(env, name)] *)

Definition get_source (fs : fs_state) (searchpath name : string) : result string :=
  pieces <- split_template_path name ;;
  let filename := path_join searchpath pieces in
  match fs_files fs !! filename with
  | Some contents => Ok contents
  | None => Err (TemplateNotFound name)
  end.

(** ** [Template.new_context(vars)]

    Jinja2 2.10's [new_context] builds the context of a render as
    [dict(globals or (), **vars)]: every key of [vars] becomes a keyword
    argument, and CPython refuses a keyword that is not a string. *)

Definition is_str_key (k : yvalue) : bool := match k with YStr _ => true | _ => false end.

Definition str_keys (vars : py_dict_t) : bool := forallb (fun '(k, _) => is_str_key k) vars.

Definition new_context (vars : py_dict_t) : result py_dict_t :=
  if str_keys vars then Ok vars else Err (TypeError "keywords must be strings").

(** A string is never [==] to a key of another type. *)
Lemma py_key_eqb_str (a b : yvalue) : py_key_eqb a b = true -> is_str_key a = is_str_key b.
Proof. destruct a, b; easy. Qed.

(** [d[k] = v] keeps the key objects already there, so the dict has only
    string keys exactly when it had and [k] is one. *)
Lemma str_keys_dict_set (d : py_dict_t) (k v : yvalue) :
  str_keys (dict_set d k v) = str_keys d && is_str_key k.
Proof.
  induction d as [|[k' v'] d IH]; [cbn; now destruct k|].
  cbn [dict_set]. change (str_keys ((k', v') :: d)) with (is_str_key k' && str_keys d).
  destruct (py_key_eqb k' k) eqn:E.
  - change (str_keys ((k', v) :: d)) with (is_str_key k' && str_keys d).
    rewrite (py_key_eqb_str _ _ E). now destruct (is_str_key k), (str_keys d).
  - change (str_keys ((k', v') :: dict_set d k v)) with (is_str_key k' && str_keys (dict_set d k v)).
    now rewrite IH, andb_assoc.
Qed.

(** [dict(m)] for a mapping [m] has only string keys exactly when [m]
    has. *)
Lemma str_keys_fold (kvs d : py_dict_t) :
  str_keys (fold_left (fun d '(k, v) => dict_set d k v) kvs d) = str_keys d && str_keys kvs.
Proof.
  revert d. induction kvs as [|[k v] kvs IH]; intros d; cbn [fold_left].
  { change (str_keys []) with true. now rewrite andb_true_r. }
  change (str_keys ((k, v) :: kvs)) with (is_str_key k && str_keys kvs).
  now rewrite IH, str_keys_dict_set, andb_assoc.
Qed.

Section WithEngine.
Context `{TemplateEngine}.

(** [env.get_template(name)] *)
Definition get_template (fs : fs_state) (searchpath name : string) : result tmpl :=
  src <- get_source fs searchpath name ;;
  compile src.

(** [template.render(config)]: [vars = dict(config)], then
    [self.new_context(vars)], which builds the context with
    [dict(self.globals, **vars)], then rendering. *)
Definition template_render (t : tmpl) (config : yvalue) : result string :=
  vars <- py_dict config ;;
  ctx <- new_context vars ;;
  render_ctx t ctx.

(** On a configuration mapping: its dict, when every key is a string,
    and [TypeError] otherwise, before any rendering. *)
Lemma template_render_map (t : tmpl) (kvs : list (yvalue * yvalue)) :
  template_render t (YMap kvs)
  = if str_keys kvs then render_ctx t (fold_left (fun d '(k, v) => dict_set d k v) kvs [])
    else Err (TypeError "keywords must be strings").
Proof.
  unfold template_render, new_context. cbn [py_dict result_bind].
  rewrite str_keys_fold. now destruct (str_keys kvs).
Qed.

(** The template file is found exactly where [get_source] looks: when it
    is absent, [get_template] raises [TemplateNotFound] with the name. *)
Lemma get_template_missing (fs : fs_state) (searchpath name : string) (pieces : list string) :
  split_template_path name = Ok pieces ->
  fs_files fs !! path_join searchpath pieces = None ->
  get_template fs searchpath name = Err (TemplateNotFound name).
Proof.
  intros Hs Hf. unfold get_template, get_source. rewrite Hs. simpl. now rewrite Hf.
Qed.

Lemma get_template_found (fs : fs_state) (searchpath name src : string) (pieces : list string) :
  split_template_path name = Ok pieces ->
  fs_files fs !! path_join searchpath pieces = Some src ->
  get_template fs searchpath name = compile src.
Proof.
  intros Hs Hf. unfold get_template, get_source. rewrite Hs. simpl. now rewrite Hf.
Qed.

(** [get_template] reads only the template file. *)
Lemma get_template_insert_ne (files : gmap string string) (dirs : gset string)
    (searchpath name p c : string) :
  (forall pieces, split_template_path name = Ok pieces -> path_join searchpath pieces <> p) ->
  get_template (mkFS (<[p := c]> files) dirs) searchpath name =
  get_template (mkFS files dirs) searchpath name.
Proof.
  intros Hne. unfold get_template, get_source.
  destruct (split_template_path name) as [pieces|e] eqn:Hs; [|reflexivity]. simpl.
  rewrite lookup_insert_ne; [reflexivity|]. intros Heq. exact (Hne pieces eq_refl (eq_sym Heq)).
Qed.

End WithEngine.
