(* ===== verification/JinjaLexer.v ===== *)
(** * The Jinja2 2.10 lexer with [trim_blocks] and [lstrip_blocks]

    Line 38 builds the environment with [trim_blocks=True] and
    [lstrip_blocks=True].  Jinja2's lexer ([jinja2/lexer.py]) reads the
    source after [preprocess] (its newline normalisation) with one regular
    expression per tag, which for the default delimiters reads:

    - [\s*{%-], [^[ \t]*{%(?!\+)] or [{%\+?] opens a block: a [-] strips
      every whitespace character before the tag, otherwise the blanks
      that start the tag's line are stripped ([lstrip_blocks]) unless the
      tag is written [{%+];
    - [\s*{#-] or [^[ \t]*{#] opens a comment, with the same stripping;
    - [\s*{{-] or [{{] opens a variable: only [-] strips;
    - [-%}\s*] or [%}\n?] closes a block, [-#}\s*] or [#}\n?] a comment:
      a [-] strips every whitespace character after the tag, otherwise
      one newline is dropped ([trim_blocks]);
    - [-}}\s*] or [}}] closes a variable.

    [scan] cuts the source into raw data and tags, recording the [-] and
    [+] markers; [control] then applies the stripping to each piece of
    data from the tags on its two sides, knowing whether the data starts
    a line.  Comments disappear.  [tokenize] is the composition.

    The lemmas at the end lex templates built from pieces: text without
    [{], names, blanks and tags.  The scan of a suffix does not depend on
    the data read before it ([scan_data_cur]); data and tags alternate
    ([scan_data_shape]); after [%}] the newline [trim_blocks] removes
    leaves a fresh template ([tokenize_trim_newline]); and a block tag
    alone on its line, after blanks, yields the text before the line, the
    tag, and the tokens of what follows the line ([tokenize_block_line]). *)

From S2P Require Import Prelude PyStr.
Local Open Scope string_scope.
Local Open Scope dag_scope.

Module JinjaLexer.

(** ** Line terminators *)

Definition newline : ascii := "010"%char.

Definition is_line_break (c : ascii) : bool :=
  let n := nat_of_ascii c in
  (n =? 10)%nat || (n =? 11)%nat || (n =? 12)%nat || (n =? 13)%nat ||
  (n =? 28)%nat || (n =? 29)%nat || (n =? 30)%nat || (n =? 133)%nat.

(** Each terminator becomes one newline; [\r\n] counts as one. *)
Fixpoint normalize_newlines (s : string) : string :=
  match s with
  | EmptyString => EmptyString
  | String c rest =>
      if (nat_of_ascii c =? 13)%nat then
        match rest with
        | String d rest' =>
            if (nat_of_ascii d =? 10)%nat then String newline (normalize_newlines rest')
            else String newline (normalize_newlines rest)
        | EmptyString => String newline EmptyString
        end
      else if is_line_break c then String newline (normalize_newlines rest)
      else String c (normalize_newlines rest)
  end.

Fixpoint drop_final_newline (s : string) : string :=
  match s with
  | EmptyString => EmptyString
  | String c EmptyString => if Ascii.eqb c newline then EmptyString else s
  | String c rest => String c (drop_final_newline rest)
  end.

(** ['\n'.join(source.splitlines())] *)
Definition preprocess (source : string) : string :=
  drop_final_newline (normalize_newlines source).

(** ** Characters *)

(** [[ \t]], what [lstrip_blocks] removes. *)
Definition is_blank (c : ascii) : bool := (nat_of_ascii c =? 32)%nat || (nat_of_ascii c =? 9)%nat.

Fixpoint all_blank (s : string) : bool :=
  match s with
  | EmptyString => true
  | String c rest => is_blank c && all_blank rest
  end.

(** ** Scanning *)

Inductive ctl : Type := CNone | CMinus | CPlus.

Inductive raw : Type :=
  | RData (s : string)
  | RVar (lminus rminus : bool) (expr : string)
  | RBlock (left : ctl) (rminus : bool) (stmt : string)
  | RComment (lminus rminus : bool).

Definition eof_error (what : string) : py_exc :=
  TemplateSyntaxError ("unexpected end of template, expected '" ++ what ++ "'.").

(** Data up to the next tag; the text of a variable up to [}}]; of a
    block up to [%}]; a comment up to [#}]. *)
Fixpoint scan_data (s cur : string) : result (list raw) :=
  match s with
  | EmptyString => Ok [RData cur]
  | String "{" (String "{" (String "-" rest)) => ts <- scan_var rest EmptyString true ;; Ok (RData cur :: ts)
  | String "{" (String "{" rest) => ts <- scan_var rest EmptyString false ;; Ok (RData cur :: ts)
  | String "{" (String "%" (String "-" rest)) => ts <- scan_block rest EmptyString CMinus ;; Ok (RData cur :: ts)
  | String "{" (String "%" (String "+" rest)) => ts <- scan_block rest EmptyString CPlus ;; Ok (RData cur :: ts)
  | String "{" (String "%" rest) => ts <- scan_block rest EmptyString CNone ;; Ok (RData cur :: ts)
  | String "{" (String "#" (String "-" rest)) => ts <- scan_comment rest true ;; Ok (RData cur :: ts)
  | String "{" (String "#" rest) => ts <- scan_comment rest false ;; Ok (RData cur :: ts)
  | String c rest => scan_data rest (cur ++ String c EmptyString)
  end
with scan_var (s cur : string) (lminus : bool) : result (list raw) :=
  match s with
  | EmptyString => Err (eof_error "end of print statement")
  | String "-" (String "}" (String "}" rest)) => ts <- scan_data rest EmptyString ;; Ok (RVar lminus true cur :: ts)
  | String "}" (String "}" rest) => ts <- scan_data rest EmptyString ;; Ok (RVar lminus false cur :: ts)
  | String c rest => scan_var rest (cur ++ String c EmptyString) lminus
  end
with scan_block (s cur : string) (left : ctl) : result (list raw) :=
  match s with
  | EmptyString => Err (eof_error "end of statement block")
  | String "-" (String "%" (String "}" rest)) => ts <- scan_data rest EmptyString ;; Ok (RBlock left true cur :: ts)
  | String "%" (String "}" rest) => ts <- scan_data rest EmptyString ;; Ok (RBlock left false cur :: ts)
  | String c rest => scan_block rest (cur ++ String c EmptyString) left
  end
with scan_comment (s : string) (lminus : bool) : result (list raw) :=
  match s with
  | EmptyString => Err (TemplateSyntaxError "Missing end of comment tag")
  | String "-" (String "#" (String "}" rest)) => ts <- scan_data rest EmptyString ;; Ok (RComment lminus true :: ts)
  | String "#" (String "}" rest) => ts <- scan_data rest EmptyString ;; Ok (RComment lminus false :: ts)
  | String _ rest => scan_comment rest lminus
  end.

(** ** Whitespace control *)

(** How the tag before a piece of data ended. *)
Inductive left_ctx : Type :=
  | LStart    (* the start of the template: a line start *)
  | LVar      (* [}}]: nothing is removed *)
  | LSkipWs   (* [-%}], [-#}], [-}}]: every whitespace character goes *)
  | LTrim.    (* [%}], [#}]: one newline goes *)

(** The data left after the leading whitespace, and whether the last
    character removed was a newline. *)
Fixpoint skip_ws (s : string) (last_nl : bool) : string * bool :=
  match s with
  | String c rest => if is_ws c then skip_ws rest (Ascii.eqb c newline) else (s, last_nl)
  | EmptyString => (EmptyString, last_nl)
  end.

(** The data after the left tag consumed its part, and whether it starts
    a line. *)
Definition consume_left (lc : left_ctx) (s : string) : string * bool :=
  match lc with
  | LStart => (s, true)
  | LVar => (s, false)
  | LSkipWs => skip_ws s false
  | LTrim =>
      match s with
      | String c rest => if Ascii.eqb c newline then (rest, true) else (s, false)
      | EmptyString => (EmptyString, false)
      end
  end.

(** The text after the last newline, if there is one. *)
Fixpoint last_line (s : string) : option string :=
  match s with
  | EmptyString => None
  | String c rest =>
      match last_line rest with
      | Some l => Some l
      | None => if Ascii.eqb c newline then Some rest else None
      end
  end.

(** [^[ \t]*] before a block or comment tag: the blanks that start the
    tag's line go, when nothing else precedes the tag on its line. *)
Definition lstrip_tail (s : string) (line_start : bool) : string :=
  match last_line s with
  | Some l =>
      if all_blank l then substring 0 (String.length s - String.length l) s else s
  | None => if line_start && all_blank s then EmptyString else s
  end.

(** What the tag after a piece of data removes from its end. *)
Definition apply_right (tag : raw) (s : string) (line_start : bool) : string :=
  match tag with
  | RVar true _ _ | RBlock CMinus _ _ | RComment true _ => rstrip_ws s
  | RBlock CNone _ _ | RComment false _ => lstrip_tail s line_start
  | _ => s
  end.

Definition left_after (tag : raw) (lc : left_ctx) : left_ctx :=
  match tag with
  | RData _ => lc
  | RVar _ true _ | RBlock _ true _ | RComment _ true => LSkipWs
  | RVar _ false _ => LVar
  | RBlock _ false _ | RComment _ false => LTrim
  end.

Inductive token : Type :=
  | TData (s : string)
  | TVar (expr : string)
  | TBlock (stmt : string).

Definition data_tok (s : string) : list token :=
  match s with EmptyString => [] | _ => [TData s] end.

Fixpoint control (lc : left_ctx) (rs : list raw) : list token :=
  match rs with
  | [] => []
  | RData s :: rest =>
      let '(d, ls) := consume_left lc s in
      let d' := match rest with tag :: _ => apply_right tag d ls | [] => d end in
      data_tok d' ++ control lc rest
  | (RVar _ _ e as tag) :: rest => TVar e :: control (left_after tag lc) rest
  | (RBlock _ _ st as tag) :: rest => TBlock st :: control (left_after tag lc) rest
  | (RComment _ _ as tag) :: rest => control (left_after tag lc) rest
  end.

Definition tokenize (source : string) : result (list token) :=
  rs <- scan_data source EmptyString ;; Ok (control LStart rs).

(** ** Lexing text, names and tags

    [tokenize_from lc] lexes a suffix of a template whose preceding tag
    ended as [lc]; [tokenize] is [tokenize_from LStart]. *)

Definition tokenize_from (lc : left_ctx) (s : string) : result (list token) :=
  rs <- scan_data s EmptyString ;; Ok (control lc rs).

(** Text with no [{], which therefore opens no tag. *)
Fixpoint plain (s : string) : bool :=
  match s with
  | EmptyString => true
  | String c rest => negb (Ascii.eqb c "{"%char) && plain rest
  end.

(** The characters of a name or a space: no tag delimiter among them. *)
Definition simple_char (c : ascii) : bool :=
  let n := nat_of_ascii c in
  ((65 <=? n)%nat && (n <=? 90)%nat) || ((97 <=? n)%nat && (n <=? 122)%nat)
  || ((48 <=? n)%nat && (n <=? 57)%nat) || (n =? 95)%nat || (n =? 32)%nat.

Fixpoint simple (s : string) : bool :=
  match s with
  | EmptyString => true
  | String c rest => simple_char c && simple rest
  end.

(** A piece of text that ends a line. *)
Definition ends_line (s : string) : bool :=
  match last_line s with Some EmptyString => true | _ => false end.

Lemma scan_data_step (c : ascii) (s cur : string) :
  Ascii.eqb c "{"%char = false -> scan_data (String c s) cur = scan_data s (cur ++ String c EmptyString).
Proof. intros H. destruct c as [[] [] [] [] [] [] [] []]; try discriminate H; reflexivity. Qed.

Lemma scan_block_step (c : ascii) (s cur : string) (l : ctl) :
  simple_char c = true -> scan_block (String c s) cur l = scan_block s (cur ++ String c EmptyString) l.
Proof. intros H. destruct c as [[] [] [] [] [] [] [] []]; try discriminate H; reflexivity. Qed.

Lemma scan_var_step (c : ascii) (s cur : string) (l : bool) :
  simple_char c = true -> scan_var (String c s) cur l = scan_var s (cur ++ String c EmptyString) l.
Proof. intros H. destruct c as [[] [] [] [] [] [] [] []]; try discriminate H; reflexivity. Qed.

Lemma scan_data_plain (t s cur : string) :
  plain t = true -> scan_data (t ++ s) cur = scan_data s (cur ++ t).
Proof.
  revert cur. induction t as [|c t IH]; intros cur Ht; cbn [plain] in Ht.
  - now rewrite string_app_nil_l, string_app_nil_r.
  - apply andb_true_iff in Ht as [Hc Ht]. apply negb_true_iff in Hc.
    rewrite string_app_cons, scan_data_step by exact Hc. rewrite IH by exact Ht.
    now rewrite <- string_app_assoc, string_app_cons, string_app_nil_l.
Qed.

Lemma scan_block_simple (st s cur : string) (l : ctl) :
  simple st = true ->
  scan_block (st ++ "%}" ++ s) cur l = (ts <- scan_data s EmptyString ;; Ok (RBlock l false (cur ++ st) :: ts)).
Proof.
  revert cur. induction st as [|c st IH]; intros cur Hs; cbn [simple] in Hs.
  - rewrite string_app_nil_l, string_app_nil_r. reflexivity.
  - apply andb_true_iff in Hs as [Hc Hs].
    rewrite string_app_cons, scan_block_step by exact Hc. rewrite IH by exact Hs.
    now rewrite <- string_app_assoc, string_app_cons, string_app_nil_l.
Qed.

Lemma scan_var_simple (e s cur : string) (l : bool) :
  simple e = true ->
  scan_var (e ++ "}}" ++ s) cur l = (ts <- scan_data s EmptyString ;; Ok (RVar l false (cur ++ e) :: ts)).
Proof.
  revert cur. induction e as [|c e IH]; intros cur Hs; cbn [simple] in Hs.
  - rewrite string_app_nil_l, string_app_nil_r. reflexivity.
  - apply andb_true_iff in Hs as [Hc Hs].
    rewrite string_app_cons, scan_var_step by exact Hc. rewrite IH by exact Hs.
    now rewrite <- string_app_assoc, string_app_cons, string_app_nil_l.
Qed.

Definition prefix_first (cur : string) (rs : list raw) : list raw :=
  match rs with RData d :: rest => RData (cur ++ d) :: rest | _ => rs end.

Lemma prefix_first_step (s c : string) :
  (forall cur, scan_data s cur = (rs <- scan_data s EmptyString ;; Ok (prefix_first cur rs))) ->
  forall cur, scan_data s (cur ++ c) = (rs <- scan_data s (EmptyString ++ c) ;; Ok (prefix_first cur rs)).
Proof.
  intros IH cur. rewrite string_app_nil_l, (IH (cur ++ c)), (IH c).
  destruct (scan_data s EmptyString) as [[|[]]|]; cbn; rewrite ?string_app_assoc; reflexivity.
Qed.

(** The data before the first tag is the only part of the scan that
    depends on [cur]. *)
Lemma scan_data_cur (s cur : string) :
  scan_data s cur = (rs <- scan_data s EmptyString ;; Ok (prefix_first cur rs)).
Proof.
  revert cur. induction s as [|c s IH]; intros cur; cbn [scan_data].
  - cbn. now rewrite string_app_nil_r.
  - repeat case_match; cbn -[scan_data scan_var scan_block scan_comment];
      first
        [ now apply prefix_first_step
        | match goal with
          | |- context [scan_var ?a ?b ?c] => destruct (scan_var a b c)
          | |- context [scan_block ?a ?b ?c] => destruct (scan_block a b c)
          | |- context [scan_comment ?a ?b] => destruct (scan_comment a b)
          end; cbn; now rewrite ?string_app_nil_r ].
Qed.

Definition tag_head (rs : list raw) : bool :=
  match rs with RData _ :: _ => false | _ => true end.

(** A tag's scan starts with the tag. *)
Lemma scan_tags_head (s : string) :
  (forall cur l rs, scan_var s cur l = Ok rs -> tag_head rs = true) /\
  (forall cur l rs, scan_block s cur l = Ok rs -> tag_head rs = true) /\
  (forall l rs, scan_comment s l = Ok rs -> tag_head rs = true).
Proof.
  induction s as [|c s IH]; [repeat split; discriminate|].
  destruct IH as (IHv & IHb & IHc).
  repeat split; intros *; cbn [scan_var scan_block scan_comment];
    repeat case_match; intros Hs;
    first [ discriminate
          | apply result_bind_Ok_inv in Hs as (ts & _ & [= <-]); reflexivity
          | eapply IHv; exact Hs | eapply IHb; exact Hs | eapply IHc; exact Hs ].
Qed.

(** Data and tags alternate: the scan is a piece of data followed by
    nothing or by a tag. *)
Lemma scan_data_shape (s cur : string) (rs : list raw) :
  scan_data s cur = Ok rs -> exists d rest, rs = RData d :: rest /\ tag_head rest = true.
Proof.
  revert cur rs. induction s as [|c s IH]; intros cur rs; cbn [scan_data].
  - intros [= <-]. eauto.
  - repeat case_match; intros Hs;
    first [ injection Hs as <-; eauto
          | eapply IH; exact Hs
          | apply result_bind_Ok_inv in Hs as (ts & Ek & [= <-]);
            do 2 eexists; split; [reflexivity|];
            first [ eapply (proj1 (scan_tags_head _)); exact Ek
                  | eapply (proj1 (proj2 (scan_tags_head _))); exact Ek
                  | eapply (proj2 (proj2 (scan_tags_head _))); exact Ek ] ].
Qed.

Lemma control_tag_head (lc lc' : left_ctx) (rs : list raw) :
  tag_head rs = true -> control lc rs = control lc' rs.
Proof. destruct rs as [|[] rs]; easy. Qed.

(** After [%}], the newline [trim_blocks] removes leaves a fresh line. *)
Lemma tokenize_trim_newline (b : string) :
  tokenize_from LTrim (String newline b) = tokenize_from LStart b.
Proof.
  unfold tokenize_from. rewrite scan_data_step by reflexivity.
  rewrite string_app_nil_l, scan_data_cur.
  destruct (scan_data b EmptyString) as [rs|] eqn:E; [|reflexivity].
  destruct (scan_data_shape _ _ _ E) as (d & rest & -> & Ht). cbn.
  f_equal. f_equal. now apply control_tag_head.
Qed.

Lemma plain_app (a b : string) : plain (a ++ b) = plain a && plain b.
Proof. induction a as [|c a IH]; [reflexivity|]. rewrite string_app_cons. cbn. now rewrite IH, andb_assoc. Qed.

Lemma blank_plain (s : string) : all_blank s = true -> plain s = true.
Proof.
  induction s as [|c s IH]; [reflexivity|]. cbn. intros [Hc Hs]%andb_true_iff.
  rewrite IH by exact Hs. destruct c as [[] [] [] [] [] [] [] []]; discriminate || reflexivity.
Qed.

Lemma scan_data_open_block (st r cur : string) :
  simple st = true ->
  scan_data ("{%" ++ st ++ "%}" ++ r) cur = (ts <- scan_block (st ++ "%}" ++ r) EmptyString CNone ;; Ok (RData cur :: ts)).
Proof.
  destruct st as [|c st]; [reflexivity|]. cbn [simple]. intros [Hc _]%andb_true_iff.
  destruct c as [[] [] [] [] [] [] [] []]; discriminate || reflexivity.
Qed.

Lemma scan_data_open_var (e r cur : string) :
  simple e = true ->
  scan_data ("{{" ++ e ++ "}}" ++ r) cur = (ts <- scan_var (e ++ "}}" ++ r) EmptyString false ;; Ok (RData cur :: ts)).
Proof.
  destruct e as [|c e]; [reflexivity|]. cbn [simple]. intros [Hc _]%andb_true_iff.
  destruct c as [[] [] [] [] [] [] [] []]; discriminate || reflexivity.
Qed.

Lemma last_line_blank (ws : string) : all_blank ws = true -> last_line ws = None.
Proof.
  induction ws as [|c ws IH]; [reflexivity|]. cbn. intros [Hc Hw]%andb_true_iff.
  rewrite IH by exact Hw. destruct c as [[] [] [] [] [] [] [] []]; discriminate || reflexivity.
Qed.

Lemma last_line_app_blank (a ws : string) :
  ends_line a = true -> all_blank ws = true -> last_line (a ++ ws) = Some ws.
Proof.
  unfold ends_line. intros Ha Hw. induction a as [|c a IH]; [discriminate|].
  rewrite string_app_cons. cbn [last_line] in *.
  destruct (last_line a) as [[|x l]|] eqn:E.
  - now rewrite IH.
  - discriminate.
  - destruct (Ascii.eqb c newline); [|discriminate]. destruct a; [|discriminate].
    now rewrite string_app_nil_l, last_line_blank.
Qed.

Lemma substring_prefix (a b : string) : substring 0 (String.length a) (a ++ b) = a.
Proof. induction a as [|c a IH]; [now destruct b|]. rewrite string_app_cons. cbn. now rewrite IH. Qed.

(** [lstrip_blocks] removes the blanks before a tag that starts its line. *)
Lemma lstrip_tail_line (a ws : string) (ls : bool) :
  ends_line a || (String.eqb a EmptyString && ls) = true -> all_blank ws = true ->
  lstrip_tail (a ++ ws) ls = a.
Proof.
  intros Ha Hw. unfold lstrip_tail.
  destruct (ends_line a) eqn:Hl; cbn in Ha.
  - rewrite last_line_app_blank, Hw by assumption.
    rewrite string_length_app, Nat.add_sub. apply substring_prefix.
  - apply andb_true_iff in Ha as [->%String.eqb_eq ->].
    rewrite string_app_nil_l, last_line_blank, Hw by exact Hw. reflexivity.
Qed.

(** The contexts in which the data before a tag is left as it is. *)
Definition keeps_data (lc : left_ctx) : bool :=
  match lc with LStart | LVar => true | _ => false end.

Definition starts_line (lc : left_ctx) : bool :=
  match lc with LStart => true | _ => false end.

Lemma consume_keeps (lc : left_ctx) (s : string) :
  keeps_data lc = true -> consume_left lc s = (s, starts_line lc).
Proof. now destruct lc. Qed.

(** A block tag alone on its line, after blanks: the blanks and the
    newline after the tag go, and what follows is lexed as a fresh
    template. *)
Lemma tokenize_block_line (lc : left_ctx) (a ws st b : string) :
  keeps_data lc = true -> plain a = true -> all_blank ws = true -> simple st = true ->
  ends_line a || (String.eqb a EmptyString && starts_line lc) = true ->
  tokenize_from lc (a ++ ws ++ "{%" ++ st ++ "%}" ++ String newline b)
  = (ts <- tokenize_from LStart b ;; Ok (data_tok a ++ TBlock st :: ts)%list).
Proof.
  intros Hk Ha Hw Hs Hl. rewrite <- tokenize_trim_newline. unfold tokenize_from.
  rewrite string_app_assoc, scan_data_plain by (rewrite plain_app, Ha; now apply blank_plain).
  rewrite scan_data_open_block, scan_block_simple by exact Hs.
  destruct (scan_data (String newline b) EmptyString) as [rs|]; [|reflexivity]. cbn.
  rewrite consume_keeps by exact Hk. rewrite string_app_nil_l, lstrip_tail_line by assumption.
  reflexivity.
Qed.

(** A variable tag: nothing around it is stripped. *)
Lemma tokenize_var (lc : left_ctx) (a e b : string) :
  keeps_data lc = true -> plain a = true -> simple e = true ->
  tokenize_from lc (a ++ "{{" ++ e ++ "}}" ++ b) = (ts <- tokenize_from LVar b ;; Ok (data_tok a ++ TVar e :: ts)%list).
Proof.
  intros Hk Ha Hs. unfold tokenize_from.
  rewrite scan_data_plain, scan_data_open_var, scan_var_simple by assumption.
  destruct (scan_data b EmptyString); [|reflexivity]. cbn.
  rewrite consume_keeps by exact Hk. now rewrite string_app_nil_l.
Qed.

Lemma tokenize_plain (lc : left_ctx) (b : string) :
  keeps_data lc = true -> plain b = true -> tokenize_from lc b = Ok (data_tok b).
Proof.
  intros Hk Hb. unfold tokenize_from.
  rewrite <- (string_app_nil_r b) at 1. rewrite scan_data_plain by exact Hb. cbn.
  rewrite consume_keeps by exact Hk. now rewrite string_app_nil_l, app_nil_r.
Qed.

(** ** The final newline *)

Fixpoint last_char (s : string) : option ascii :=
  match s with
  | EmptyString => None
  | String c EmptyString => Some c
  | String _ rest => last_char rest
  end.

Lemma last_char_cons (c : ascii) (s : string) :
  s <> EmptyString -> last_char (String c s) = last_char s.
Proof. now destruct s. Qed.

Lemma last_char_app_char (u : string) (c : ascii) : last_char (u ++ String c EmptyString) = Some c.
Proof.
  induction u as [|x u IH]; [reflexivity|]. rewrite string_app_cons, last_char_cons; [exact IH|].
  now destruct u.
Qed.

Lemma drop_final_newline_cons (c : ascii) (s : string) :
  s <> EmptyString -> drop_final_newline (String c s) = String c (drop_final_newline s).
Proof. now destruct s. Qed.

Lemma drop_final_newline_app (t : string) : drop_final_newline (t ++ String newline EmptyString) = t.
Proof.
  induction t as [|c t IH]; [reflexivity|].
  rewrite string_app_cons, drop_final_newline_cons, IH by (now destruct t). reflexivity.
Qed.

Lemma drop_final_newline_id (t : string) : last_char t <> Some newline -> drop_final_newline t = t.
Proof.
  induction t as [|c t IH]; [reflexivity|]. destruct t as [|d t].
  - cbn. destruct (Ascii.eqb c newline) eqn:E; [|reflexivity]. apply Ascii.eqb_eq in E as ->. easy.
  - intros H. rewrite last_char_cons in H by discriminate.
    rewrite drop_final_newline_cons, IH by easy. reflexivity.
Qed.

Lemma normalize_newlines_nonempty (s : string) : s <> EmptyString -> normalize_newlines s <> EmptyString.
Proof. destruct s as [|c s]; [easy|]. cbn. repeat case_match; discriminate. Qed.

(** The last character of the text survives normalisation when it is not
    a line terminator. *)
Lemma last_char_normalize (n : nat) (s : string) (c : ascii) :
  String.length s <= n -> last_char s = Some c -> is_line_break c = false ->
  last_char (normalize_newlines s) = Some c.
Proof.
  revert s. induction n as [|n IH]; intros s Hn Hl Hb; [destruct s; cbn in *; [discriminate|lia]|].
  destruct s as [|x s]; [discriminate|]. cbn [normalize_newlines].
  destruct s as [|y s].
  - injection Hl as ->. destruct (nat_of_ascii c =? 13)%nat eqn:E13.
    + exfalso. unfold is_line_break in Hb. rewrite E13 in Hb. now rewrite !orb_true_r in Hb.
    + rewrite Hb. reflexivity.
  - rewrite last_char_cons in Hl by discriminate. cbn [String.length] in Hn.
    destruct (nat_of_ascii x =? 13)%nat.
    + destruct (nat_of_ascii y =? 10)%nat eqn:E10.
      * destruct s as [|z s].
        -- exfalso. cbn in Hl. injection Hl as <-. unfold is_line_break in Hb. rewrite E10 in Hb. discriminate.
        -- rewrite last_char_cons by (apply normalize_newlines_nonempty; discriminate).
           apply IH; [cbn in *; lia | now rewrite last_char_cons in Hl by discriminate | exact Hb].
      * rewrite last_char_cons by (apply normalize_newlines_nonempty; discriminate).
        apply IH; [cbn in *; lia | exact Hl | exact Hb].
    + destruct (is_line_break x);
        rewrite last_char_cons by (apply normalize_newlines_nonempty; discriminate);
        apply IH; [cbn in *; lia | exact Hl | exact Hb | cbn in *; lia | exact Hl | exact Hb].
Qed.

Lemma normalize_newlines_app_newline (n : nat) (s : string) (c : ascii) :
  String.length s <= n -> last_char s = Some c -> (nat_of_ascii c =? 13)%nat = false ->
  normalize_newlines (s ++ String newline EmptyString) = normalize_newlines s ++ String newline EmptyString.
Proof.
  revert s. induction n as [|n IH]; intros s Hn Hl Hc; [destruct s; cbn in *; [discriminate|lia]|].
  destruct s as [|x s]; [discriminate|]. rewrite string_app_cons. cbn [normalize_newlines].
  destruct s as [|y s].
  - injection Hl as ->. rewrite Hc. cbn. destruct (is_line_break c); reflexivity.
  - rewrite last_char_cons in Hl by discriminate. cbn [String.length] in Hn.
    rewrite string_app_cons.
    destruct (nat_of_ascii x =? 13)%nat.
    + destruct (nat_of_ascii y =? 10)%nat eqn:E10.
      * destruct s as [|z s].
        -- reflexivity.
        -- rewrite (IH (String z s)); [reflexivity | cbn in *; lia | now rewrite last_char_cons in Hl by discriminate | exact Hc].
      * rewrite <- string_app_cons, (IH (String y s)); [reflexivity | cbn in *; lia | exact Hl | exact Hc].
    + rewrite <- string_app_cons.
      destruct (is_line_break x); rewrite (IH (String y s)); try reflexivity; cbn in *; lia || assumption.
Qed.

(** [keep_trailing_newline] is left [False] by line 38: a final newline of
    the template source is dropped before lexing. *)
Lemma preprocess_final_newline (u : string) (c : ascii) :
  is_line_break c = false ->
  preprocess (u ++ String c EmptyString ++ String newline EmptyString) = preprocess (u ++ String c EmptyString).
Proof.
  intros Hb. unfold preprocess.
  assert (Hc : (nat_of_ascii c =? 13)%nat = false)
    by (destruct (nat_of_ascii c =? 13)%nat eqn:E; [|reflexivity]; unfold is_line_break in Hb; rewrite E in Hb;
        now rewrite !orb_true_r in Hb).
  rewrite string_app_assoc, (normalize_newlines_app_newline (String.length (u ++ String c EmptyString)) _ c)
    by (reflexivity || apply last_char_app_char || exact Hc).
  rewrite drop_final_newline_app, drop_final_newline_id; [reflexivity|].
  rewrite (last_char_normalize (String.length (u ++ String c EmptyString)) _ c); try easy.
  - intros [= ->]. discriminate Hb.
  - apply last_char_app_char.
Qed.

(** Text whose only line terminator is [\n]. *)
Fixpoint lf_only (s : string) : bool :=
  match s with
  | EmptyString => true
  | String c rest => (Ascii.eqb c newline || negb (is_line_break c)) && lf_only rest
  end.

Lemma normalize_newlines_lf_only (s : string) : lf_only s = true -> normalize_newlines s = s.
Proof.
  induction s as [|c s IH]; [reflexivity|]. cbn [lf_only normalize_newlines].
  intros [Hc Hs]%andb_true_iff. rewrite IH by exact Hs.
  destruct (Ascii.eqb c newline) eqn:E.
  - apply Ascii.eqb_eq in E as ->. reflexivity.
  - cbn in Hc. apply negb_true_iff in Hc.
    destruct (nat_of_ascii c =? 13)%nat eqn:E13.
    + unfold is_line_break in Hc. rewrite E13, !orb_true_r in Hc. discriminate.
    + now rewrite Hc.
Qed.

(** [preprocess] leaves such a text alone when it does not end with a
    newline. *)
Lemma preprocess_lf_only (s : string) :
  lf_only s = true -> last_char s <> Some newline -> preprocess s = s.
Proof.
  intros Hs Hl. unfold preprocess. rewrite normalize_newlines_lf_only by exact Hs.
  now apply drop_final_newline_id.
Qed.

End JinjaLexer.
