(* ===== verification/Jinja.v ===== *)
(** * A template engine for the statement subset of Jinja2 2.10

    An instance of [Engine.TemplateEngine] with the options of line 38.
    [compile] lexes with [JinjaLexer.tokenize] (which applies
    [trim_blocks] and [lstrip_blocks]) and parses the block structure;
    [render_ctx] renders it with the context of [template.render(config)]:

    - [{{ name }}] prints [str(value)], and the empty string when the
      name is undefined (the default [Undefined]);
    - [{% if name %} .. {% else %} .. {% endif %}] tests Python's
      truthiness of the value; an undefined name is false;
    - [{% for x in name %} .. {% endfor %}] renders its body once per item
      of a list, key of a mapping or character of a string, in order,
      with [x] bound to the item inside the body only; an undefined name
      iterates over nothing and any other value raises [TypeError].

    The parser keeps a stack of the open blocks, as Jinja2's
    [Parser.subparse] does with its [end_token_stack].  Any other
    statement, expression or filter is refused with [TemplateSyntaxError],
    as are the names Jinja2 binds itself ([self], [loop], the globals).

    [jinja_compile] is [parse_template] after [preprocess].  The theorems
    [if_block_lines] (with an optional [else] line) and [for_block_lines]
    render, through [template.render(config)] of line 43, a template
    whose block
    tags stand alone on indented lines, for every text, indentation and
    name: the tag lines vanish, as the two options of line 38 are meant
    to make them.  [var_substitution] renders [{{ x }}] between two
    texts, and [compile_drops_final_newline] shows the template's final
    newline is dropped.  [JinjaScenario] applies them to a DAG template. *)

From S2P Require Import Prelude PyStr Yaml Engine JinjaLexer.
Local Open Scope string_scope.
Local Open Scope dag_scope.

Module Jinja.
Import JinjaLexer.

(** ** Names *)

Definition is_ident_start (c : ascii) : bool :=
  let n := nat_of_ascii c in
  ((65 <=? n)%nat && (n <=? 90)%nat) || ((97 <=? n)%nat && (n <=? 122)%nat) || (n =? 95)%nat.

Definition is_ident_char (c : ascii) : bool :=
  let n := nat_of_ascii c in is_ident_start c || ((48 <=? n)%nat && (n <=? 57)%nat).

Fixpoint all_ident_chars (s : string) : bool :=
  match s with
  | EmptyString => true
  | String c rest => is_ident_char c && all_ident_chars rest
  end.

Definition jinja_predefined : list string :=
  ["self"; "range"; "dict"; "lipsum"; "cycler"; "joiner"; "namespace"; "loop";
   "true"; "false"; "none"; "True"; "False"; "None";
   "if"; "else"; "endif"; "for"; "endfor"; "in"; "not"; "and"; "or"; "is"].

Definition plain_name (s : string) : bool :=
  match s with
  | EmptyString => false
  | String c rest => is_ident_start c && all_ident_chars rest
  end && negb (existsb (String.eqb s) jinja_predefined).

Definition unsupported : py_exc := TemplateSyntaxError "tag outside the statement subset".

(** ** Statements *)

Inductive stmt : Type :=
  | SIf (cond : string)
  | SElse
  | SEndif
  | SFor (var iter : string)
  | SEndfor.

(** The words of a statement, split at whitespace. *)
Fixpoint words_go (s cur : string) : list string :=
  match s with
  | EmptyString => match cur with EmptyString => [] | _ => [cur] end
  | String c rest =>
      if is_ws c then match cur with EmptyString => words_go rest EmptyString | _ => cur :: words_go rest EmptyString end
      else words_go rest (cur ++ String c EmptyString)
  end.

Definition words (s : string) : list string := words_go s EmptyString.

Definition parse_stmt (s : string) : result stmt :=
  match words s with
  | ["if"; c] => if plain_name c then Ok (SIf c) else Err unsupported
  | ["else"] => Ok SElse
  | ["endif"] => Ok SEndif
  | ["for"; x; "in"; it] => if plain_name x && plain_name it then Ok (SFor x it) else Err unsupported
  | ["endfor"] => Ok SEndfor
  | _ => Err unsupported
  end.

(** ** Templates *)

#[warnings="-register-all"]
Inductive node : Type :=
  | NText (s : string)
  | NVar (name : string)
  | NIf (cond : string) (then_ else_ : list node)
  | NFor (var iter : string) (body : list node).

(** An open block: its statement, the nodes before it (latest first) and,
    for an [if] past its [else], the nodes of the first branch. *)
Inductive frame : Type :=
  | FIf (cond : string) (outer : list node) (then_ : option (list node))
  | FFor (var iter : string) (outer : list node).

Definition unknown_tag (tag : string) : py_exc :=
  TemplateSyntaxError ("Encountered unknown tag '" ++ tag ++ "'.").

Definition unclosed (fr : frame) : py_exc :=
  match fr with
  | FIf _ _ _ => TemplateSyntaxError "Unexpected end of template. Jinja was looking for the following tags: 'endif'. The innermost block that needs to be closed is 'if'."
  | FFor _ _ _ => TemplateSyntaxError "Unexpected end of template. Jinja was looking for the following tags: 'endfor'. The innermost block that needs to be closed is 'for'."
  end.

(** [acc] holds the nodes of the innermost open block, latest first. *)
Fixpoint build (toks : list token) (stack : list frame) (acc : list node) : result (list node) :=
  match toks with
  | [] => match stack with [] => Ok (rev acc) | fr :: _ => Err (unclosed fr) end
  | TData s :: rest => build rest stack (NText s :: acc)
  | TVar e :: rest =>
      let name := strip_ws e in
      if plain_name name then build rest stack (NVar name :: acc) else Err unsupported
  | TBlock st :: rest =>
      st' <- parse_stmt st ;;
      match st', stack with
      | SIf c, _ => build rest (FIf c acc None :: stack) []
      | SFor x it, _ => build rest (FFor x it acc :: stack) []
      | SElse, FIf c outer None :: stack' => build rest (FIf c outer (Some (rev acc)) :: stack') []
      | SEndif, FIf c outer None :: stack' => build rest stack' (NIf c (rev acc) [] :: outer)
      | SEndif, FIf c outer (Some t) :: stack' => build rest stack' (NIf c t (rev acc) :: outer)
      | SEndfor, FFor x it outer :: stack' => build rest stack' (NFor x it (rev acc) :: outer)
      | SElse, _ => Err (unknown_tag "else")
      | SEndif, _ => Err (unknown_tag "endif")
      | SEndfor, _ => Err (unknown_tag "endfor")
      end
  end.

Definition parse_template (source : string) : result (list node) :=
  toks <- tokenize source ;; build toks [] [].

Definition jinja_compile (source : string) : result (list node) := parse_template (preprocess source).

(** ** Rendering *)

(** Loop variables, innermost first, then the context. *)
Definition lookup (locals : list (string * yvalue)) (ctx : py_dict_t) (name : string) : option yvalue :=
  match List.find (fun '(n, _) => String.eqb n name) locals with
  | Some (_, v) => Some v
  | None => dict_get ctx (YStr name)
  end.

(** Python's [bool(v)]; [Undefined] is false. *)
Definition truthy (v : option yvalue) : bool :=
  match v with
  | None | Some YNone => false
  | Some (YBool b) => b
  | Some (YInt z) => negb (Z.eqb z 0)
  | Some (YStr s) => negb (String.eqb s EmptyString)
  | Some (YList l) => negb (Nat.eqb (List.length l) 0)
  | Some (YMap m) => negb (Nat.eqb (List.length m) 0)
  end.

(** [iter(v)]: the items, the keys of a mapping, the characters of a
    string; [Undefined] iterates over nothing. *)
Definition iter_items (v : option yvalue) : result (list yvalue) :=
  match v with
  | None => Ok []
  | Some (YList l) => Ok l
  | Some (YMap m) => Ok (map fst (fold_left (fun d '(k, x) => dict_set d k x) m []))
  | Some (YStr s) => Ok (map (fun c => YStr (String c EmptyString)) (list_ascii_of_string s))
  | Some v' => Err (TypeError ("'" ++ type_name v' ++ "' object is not iterable"))
  end.

Fixpoint render_node (locals : list (string * yvalue)) (ctx : py_dict_t) (n : node) : result string :=
  let fix render_list (locals : list (string * yvalue)) (l : list node) : result string :=
    match l with
    | [] => Ok EmptyString
    | n' :: l' => s <- render_node locals ctx n' ;; t <- render_list locals l' ;; Ok (s ++ t)
    end in
  match n with
  | NText s => Ok s
  | NVar name => Ok (match lookup locals ctx name with Some v => py_str v | None => EmptyString end)
  | NIf c t e => if truthy (lookup locals ctx c) then render_list locals t else render_list locals e
  | NFor x it body =>
      items <- iter_items (lookup locals ctx it) ;;
      let fix loop (items : list yvalue) : result string :=
        match items with
        | [] => Ok EmptyString
        | v :: vs => s <- render_list ((x, v) :: locals) body ;; t <- loop vs ;; Ok (s ++ t)
        end in
      loop items
  end.

Fixpoint render_nodes (locals : list (string * yvalue)) (ctx : py_dict_t) (l : list node) : result string :=
  match l with
  | [] => Ok EmptyString
  | n :: l' => s <- render_node locals ctx n ;; t <- render_nodes locals ctx l' ;; Ok (s ++ t)
  end.

Definition jinja_render (t : list node) (ctx : py_dict_t) : result string := render_nodes [] ctx t.

Definition jinja_engine : TemplateEngine := {|
  tmpl := list node;
  compile := jinja_compile;
  render_ctx := jinja_render
|}.

(** ** The final newline *)

(** (C21) Line 38 leaves [keep_trailing_newline] at [False]: a template whose
    text ends with a newline compiles, hence renders, as the same text
    without it, so the file [generate_dag] writes never ends with the
    template's last line break. *)
Theorem compile_drops_final_newline (u : string) (c : ascii) :
  is_line_break c = false ->
  jinja_compile (u ++ String c EmptyString ++ String newline EmptyString) = jinja_compile (u ++ String c EmptyString).
Proof. intros Hc. unfold jinja_compile. now rewrite preprocess_final_newline. Qed.

(** ** Names and statements *)

Lemma ident_char_simple (c : ascii) : is_ident_char c = true -> simple_char c = true /\ is_ws c = false.
Proof. destruct c as [[] [] [] [] [] [] [] []]; discriminate || (intros; split; reflexivity). Qed.

Lemma plain_name_ident (w : string) : plain_name w = true -> w <> EmptyString /\ all_ident_chars w = true.
Proof.
  unfold plain_name. destruct w as [|c w]; [discriminate|].
  intros [[Hc Hw]%andb_true_iff _]%andb_true_iff. split; [discriminate|].
  cbn. unfold is_ident_char. now rewrite Hc, Hw.
Qed.

Lemma ident_simple (w : string) : all_ident_chars w = true -> simple w = true.
Proof.
  induction w as [|c w IH]; [reflexivity|]. cbn. intros [Hc Hw]%andb_true_iff.
  now rewrite (proj1 (ident_char_simple _ Hc)), IH.
Qed.

Lemma is_ws_space : is_ws " " = true.
Proof. reflexivity. Qed.

Lemma words_go_word (w r cur : string) :
  all_ident_chars w = true ->
  words_go (w ++ String " " r) cur
  = match cur ++ w with EmptyString => words_go r EmptyString | x => x :: words_go r EmptyString end.
Proof.
  revert cur. induction w as [|c w IH]; intros cur Hw.
  - rewrite string_app_nil_r. now destruct cur.
  - cbn in Hw. apply andb_true_iff in Hw as [Hc Hw].
    rewrite string_app_cons. cbn [words_go]. rewrite (proj2 (ident_char_simple _ Hc)), IH by exact Hw.
    now rewrite <- string_app_assoc.
Qed.

Lemma parse_stmt_if (c : string) : plain_name c = true -> parse_stmt (" if " ++ c ++ " ") = Ok (SIf c).
Proof.
  intros Hc. destruct (plain_name_ident c Hc) as [Hne Hi].
  unfold parse_stmt, words.
  change (" if " ++ c ++ " ") with (String " " ("if" ++ String " " (c ++ String " " EmptyString))).
  cbn [words_go]. rewrite is_ws_space, !words_go_word by easy. rewrite !string_app_nil_l.
  destruct c as [|c0 c']; [easy|]. cbn -[plain_name]. now rewrite Hc.
Qed.

Lemma parse_stmt_for (x it : string) :
  plain_name x = true -> plain_name it = true -> parse_stmt (" for " ++ x ++ " in " ++ it ++ " ") = Ok (SFor x it).
Proof.
  intros Hx Hit. destruct (plain_name_ident x Hx) as [Hxe Hxi], (plain_name_ident it Hit) as [Hie Hii].
  unfold parse_stmt, words.
  change (" for " ++ x ++ " in " ++ it ++ " ")
    with (String " " ("for" ++ String " " (x ++ String " " ("in" ++ String " " (it ++ String " " EmptyString))))).
  cbn [words_go]. rewrite is_ws_space, !words_go_word by easy. rewrite !string_app_nil_l.
  destruct x as [|x0 x']; [easy|]. destruct it as [|i0 i']; [easy|]. cbn -[plain_name]. now rewrite Hx, Hit.
Qed.

(** [str.strip] on the text of [{{ x }}]. *)
Lemma lstrip_ident (w r : string) : w <> EmptyString -> all_ident_chars w = true -> lstrip_ws (w ++ r) = w ++ r.
Proof.
  destruct w as [|c w]; [easy|]. cbn. intros _ [Hc _]%andb_true_iff.
  now rewrite string_app_cons; cbn; rewrite (proj2 (ident_char_simple _ Hc)).
Qed.

Lemma list_ascii_app (a b : string) : list_ascii_of_string (a ++ b) = (list_ascii_of_string a ++ list_ascii_of_string b)%list.
Proof. induction a as [|c a IH]; [reflexivity|]. rewrite string_app_cons. cbn. now rewrite IH. Qed.

Lemma string_of_list_app (l m : list ascii) :
  string_of_list_ascii (l ++ m) = string_of_list_ascii l ++ string_of_list_ascii m.
Proof. induction l as [|c l IH]; [reflexivity|]. cbn. now rewrite IH, string_app_cons. Qed.

Lemma rev_str_app (a b : string) : rev_str (a ++ b) = rev_str b ++ rev_str a.
Proof. unfold rev_str. now rewrite list_ascii_app, rev_app_distr, string_of_list_app. Qed.

Lemma rev_str_involutive (s : string) : rev_str (rev_str s) = s.
Proof.
  unfold rev_str. now rewrite list_ascii_of_string_of_list_ascii, rev_involutive, string_of_list_ascii_of_string.
Qed.

Lemma all_ident_chars_forallb (s : string) : all_ident_chars s = forallb is_ident_char (list_ascii_of_string s).
Proof. induction s as [|c s IH]; [reflexivity|]. cbn. now rewrite IH. Qed.

Lemma rev_str_ident (s : string) :
  s <> EmptyString -> all_ident_chars s = true -> rev_str s <> EmptyString /\ all_ident_chars (rev_str s) = true.
Proof.
  intros Hne Hs. unfold rev_str. rewrite all_ident_chars_forallb, list_ascii_of_string_of_list_ascii.
  rewrite all_ident_chars_forallb in Hs. split.
  - destruct s as [|c s]; [easy|]. cbn. now destruct (rev (list_ascii_of_string s)).
  - apply forallb_forall. intros c Hc%in_rev. now apply (proj1 (forallb_forall _ _) Hs).
Qed.

Lemma strip_name (x : string) : plain_name x = true -> strip_ws (" " ++ x ++ " ") = x.
Proof.
  intros Hx. destruct (plain_name_ident x Hx) as [Hne Hi]. destruct (rev_str_ident x Hne Hi) as [Hre Hri].
  unfold strip_ws, rstrip_ws. change (" " ++ x ++ " ") with (String " " (x ++ " ")).
  cbn [lstrip_ws]. rewrite is_ws_space, lstrip_ident, rev_str_app by assumption.
  change (rev_str " ") with (String " " EmptyString). rewrite string_app_cons, string_app_nil_l.
  cbn [lstrip_ws]. rewrite is_ws_space, <- (string_app_nil_r (rev_str x)), lstrip_ident by assumption.
  now rewrite string_app_nil_r, rev_str_involutive.
Qed.

(** ** Blocks on lines of their own *)

Definition text_node (s : string) : list node :=
  match s with EmptyString => [] | _ => [NText s] end.

Lemma build_data (s : string) (toks : list token) (stack : list frame) (acc : list node) :
  build (data_tok s ++ toks) stack acc = build toks stack (text_node s ++ acc).
Proof. now destruct s. Qed.

Lemma render_text (locals : list (string * yvalue)) (ctx : py_dict_t) (s : string) (l : list node) :
  render_nodes locals ctx (text_node s ++ l) = (t <- render_nodes locals ctx l ;; Ok (s ++ t)).
Proof. destruct s; cbn; [now destruct (render_nodes _ _ _)|reflexivity]. Qed.

Lemma render_text_only (locals : list (string * yvalue)) (ctx : py_dict_t) (s : string) :
  render_nodes locals ctx (text_node s) = Ok s.
Proof. destruct s; cbn; [reflexivity|now rewrite string_app_nil_r]. Qed.

(** The local [render_list] of [render_node] is [render_nodes]. *)
Lemma render_list_nodes (ctx : py_dict_t) (locals : list (string * yvalue)) (l : list node) :
  (fix render_list (locals : list (string * yvalue)) (l : list node) : result string :=
     match l with
     | [] => Ok EmptyString
     | n' :: l' => s <- render_node locals ctx n' ;; t <- render_list locals l' ;; Ok (s ++ t)
     end) locals l = render_nodes locals ctx l.
Proof. induction l as [|n l IH]; cbn; [reflexivity|]. now rewrite IH. Qed.

Lemma render_node_if (locals : list (string * yvalue)) (ctx : py_dict_t) (c : string) (t e : list node) :
  render_node locals ctx (NIf c t e)
  = if truthy (lookup locals ctx c) then render_nodes locals ctx t else render_nodes locals ctx e.
Proof. cbn [render_node]. now rewrite !render_list_nodes. Qed.

Fixpoint concat_results (rs : list (result string)) : result string :=
  match rs with
  | [] => Ok EmptyString
  | r :: rs' => s <- r ;; t <- concat_results rs' ;; Ok (s ++ t)
  end.

Lemma render_node_for (locals : list (string * yvalue)) (ctx : py_dict_t) (x it : string) (body : list node) :
  render_node locals ctx (NFor x it body)
  = (items <- iter_items (lookup locals ctx it) ;;
     concat_results (map (fun v => render_nodes ((x, v) :: locals) ctx body) items)).
Proof.
  cbn [render_node]. destruct (iter_items _) as [items|]; [|reflexivity]. cbn [result_bind].
  induction items as [|v vs IH]; cbn; [reflexivity|]. now rewrite render_list_nodes, IH.
Qed.

Lemma lookup_bound (x : string) (v : yvalue) (locals : list (string * yvalue)) (ctx : py_dict_t) :
  lookup ((x, v) :: locals) ctx x = Some v.
Proof. unfold lookup. cbn. now rewrite String.eqb_refl. Qed.

Lemma simple_app (a b : string) : simple (a ++ b) = simple a && simple b.
Proof. induction a as [|c a IH]; [reflexivity|]. rewrite string_app_cons. cbn. now rewrite IH, andb_assoc. Qed.

Lemma simple_name (x : string) : plain_name x = true -> simple x = true.
Proof. intros Hx. apply ident_simple, (plain_name_ident x Hx). Qed.

Lemma rev_text_node (s : string) : rev (text_node s) = text_node s.
Proof. now destruct s. Qed.

Lemma build_data_end (s : string) (stack : list frame) (acc : list node) :
  build (data_tok s) stack acc = build [] stack (text_node s ++ acc).
Proof. now destruct s. Qed.

Lemma ends_line_nonempty (s : string) : ends_line s = true -> text_node s = [NText s].
Proof. now destruct s. Qed.

Lemma parse_stmt_endif : parse_stmt " endif " = Ok SEndif.
Proof. reflexivity. Qed.

Lemma parse_stmt_endfor : parse_stmt " endfor " = Ok SEndfor.
Proof. reflexivity. Qed.

Lemma if_literal (c X : string) : "{% if " ++ c ++ " %}" ++ X = "{%" ++ (" if " ++ c ++ " ") ++ "%}" ++ X.
Proof. rewrite <- !string_app_assoc. reflexivity. Qed.

Lemma for_literal (x it X : string) :
  "{% for " ++ x ++ " in " ++ it ++ " %}" ++ X = "{%" ++ (" for " ++ x ++ " in " ++ it ++ " ") ++ "%}" ++ X.
Proof. rewrite <- !string_app_assoc. reflexivity. Qed.

Lemma var_literal (x X : string) : "{{ " ++ x ++ " }}" ++ X = "{{" ++ (" " ++ x ++ " ") ++ "}}" ++ X.
Proof. rewrite <- !string_app_assoc. reflexivity. Qed.

Lemma render_loop_var (ctx : py_dict_t) (x t1 t2 : string) (items : list yvalue) :
  concat_results (map (fun v => render_nodes [(x, v)] ctx (text_node t1 ++ [NVar x; NText t2])) items)
  = Ok (fold_right String.append EmptyString (map (fun v => t1 ++ py_str v ++ t2) items)).
Proof.
  induction items as [|v vs IH]; [reflexivity|]. cbn [map concat_results fold_right].
  rewrite render_text. cbn [render_nodes render_node]. rewrite lookup_bound, IH. cbn.
  now rewrite string_app_nil_r, <- !string_app_assoc.
Qed.

Ltac lex_side :=
  repeat match goal with
         | |- (_ && _) = true => apply andb_true_intro; split
         | |- simple (_ ++ _) = true => rewrite simple_app
         | |- simple _ = true => first [reflexivity | now apply simple_name]
         | |- (_ || _) = true => first [now rewrite andb_true_r | apply orb_true_intro; now left]
         | |- _ => first [assumption | reflexivity]
         end.

Lemma parse_stmt_else : parse_stmt " else " = Ok SElse.
Proof. reflexivity. Qed.

(** The optional [else] line of an [if] block: the blanks before the tag
    and the lines of the second branch, followed by [rest]. *)
Definition else_lines (else_ : option (string * string)) (rest : string) : string :=
  match else_ with
  | None => rest
  | Some (wse, e) => wse ++ "{% else %}" ++ String newline (e ++ rest)
  end.

Definition else_body (else_ : option (string * string)) : string :=
  match else_ with None => EmptyString | Some (_, e) => e end.

Definition else_ok (else_ : option (string * string)) : bool :=
  match else_ with
  | None => true
  | Some (wse, e) => all_blank wse && plain e && (ends_line e || String.eqb e EmptyString)
  end.

(** An [if] block whose tags stand alone on their lines: the text [a]
    before it, the blanks [ws] before [{% if c %}], the first branch [t],
    the optional [else] line, the blanks [ws'] before [{% endif %}] and
    the text [b] after it. *)
Definition if_template (a ws c t : string) (else_ : option (string * string)) (ws' b : string) : string :=
  a ++ ws ++ "{% if " ++ c ++ " %}" ++
  String newline (t ++ else_lines else_ (ws' ++ "{% endif %}" ++ String newline b)).

(** A [for] block on lines of its own whose body is [t1 {{ x }} t2]. *)
Definition for_template (a ws x it t1 t2 ws' b : string) : string :=
  a ++ ws ++ "{% for " ++ x ++ " in " ++ it ++ " %}" ++
  String newline (t1 ++ "{{ " ++ x ++ " }}" ++ t2 ++ ws' ++ "{% endfor %}" ++ String newline b).

(** The nodes of the block once the body and the optional second branch
    are lexed. *)
Lemma build_if_lines (c t b : string) (else_ : option (string * string)) (outer : list node) :
  plain t = true -> plain b = true -> else_ok else_ = true ->
  ends_line t || String.eqb t EmptyString = true -> forall ws',
  all_blank ws' = true ->
  (toks <- tokenize_from LStart (t ++ else_lines else_ (ws' ++ "{%" ++ " endif " ++ "%}" ++ String newline b)) ;;
   build toks [FIf c outer None] [])
  = Ok (rev outer ++ NIf c (text_node t) (text_node (else_body else_)) :: text_node b)%list.
Proof.
  intros Ht Hb He Hlt ws' Hw'.
  destruct else_ as [[wse e]|]; cbn [else_lines else_body else_ok] in *.
  - apply andb_true_iff in He as [[Hwe He]%andb_true_iff Hle].
    change ("{% else %}" ++ ?X) with ("{%" ++ " else " ++ "%}" ++ X).
    rewrite (tokenize_block_line LStart t) by lex_side. rewrite (tokenize_block_line LStart e) by lex_side.
    rewrite tokenize_plain by lex_side. cbn [result_bind].
    rewrite build_data. cbn [build]. rewrite parse_stmt_else. cbn [result_bind].
    rewrite build_data. cbn [build]. rewrite parse_stmt_endif. cbn [result_bind].
    rewrite build_data_end. cbn [build]. rewrite !app_nil_r, rev_app_distr. cbn [rev app].
    now rewrite !rev_text_node, <- app_assoc.
  - rewrite (tokenize_block_line LStart t) by lex_side.
    rewrite tokenize_plain by lex_side. cbn [result_bind].
    rewrite build_data. cbn [build]. rewrite parse_stmt_endif. cbn [result_bind].
    rewrite build_data_end. cbn [build]. rewrite !app_nil_r, rev_app_distr. cbn [rev app].
    now rewrite !rev_text_node, <- app_assoc.
Qed.

Lemma if_lines_render (ctx : py_dict_t) (a ws c t ws' b : string) (else_ : option (string * string)) :
  plain a = true -> plain t = true -> plain b = true ->
  all_blank ws = true -> all_blank ws' = true -> plain_name c = true -> else_ok else_ = true ->
  ends_line a || String.eqb a EmptyString = true -> ends_line t || String.eqb t EmptyString = true ->
  (tm <- parse_template (if_template a ws c t else_ ws' b) ;; jinja_render tm ctx)
  = Ok (a ++ (if truthy (dict_get ctx (YStr c)) then t else else_body else_) ++ b).
Proof.
  intros Ha Ht Hb Hw Hw' Hc He Hla Hlt. unfold parse_template, if_template.
  change (tokenize ?s) with (tokenize_from LStart s). rewrite if_literal.
  change ("{% endif %}" ++ ?X) with ("{%" ++ " endif " ++ "%}" ++ X).
  rewrite tokenize_block_line by lex_side.
  pose proof (build_if_lines c t b else_ (text_node a) Ht Hb He Hlt ws' Hw') as Hbody.
  destruct (tokenize_from LStart _) as [ts|e]; cbn [result_bind] in *; [|discriminate].
  rewrite build_data. cbn [build]. rewrite parse_stmt_if by exact Hc. cbn [result_bind].
  rewrite app_nil_r, Hbody. cbn [result_bind]. rewrite rev_text_node.
  unfold jinja_render. rewrite render_text. cbn [render_nodes app]. rewrite render_node_if.
  change (lookup [] ctx c) with (dict_get ctx (YStr c)).
  destruct (truthy _); rewrite !render_text_only; cbn [result_bind]; now rewrite ?string_app_nil_l.
Qed.

(** [template.render(config)] of line 43 on a template whose rendering
    against any context is known: [dict(config)] and [new_context] first,
    with their errors, then that rendering. *)
Lemma render_with_config (src : string) (f : py_dict_t -> result string) (config : yvalue) :
  (exists tm, parse_template src = Ok tm) ->
  (forall ctx, (tm <- parse_template src ;; jinja_render tm ctx) = f ctx) ->
  (tm <- parse_template src ;; @template_render jinja_engine tm config)
  = (vars <- py_dict config ;; ctx <- new_context vars ;; f ctx).
Proof.
  intros [tm Hp] H. rewrite Hp. cbn [result_bind]. unfold template_render.
  destruct (py_dict config) as [vars|e]; [|reflexivity]. cbn [result_bind].
  destruct (new_context vars) as [ctx|e]; [|reflexivity]. cbn [result_bind render_ctx jinja_engine].
  specialize (H ctx). now rewrite Hp in H.
Qed.

Lemma parse_of_render (src : string) (ctx : py_dict_t) (out : string) :
  (tm <- parse_template src ;; jinja_render tm ctx) = Ok out -> exists tm, parse_template src = Ok tm.
Proof. intros H. apply result_bind_Ok_inv in H as (tm & Hp & _). eauto. Qed.

(** (C18) With the options of line 38, an [if] block whose tags, the
    [else] line included when there is one, stand alone on their lines
    after any blanks, renders as the text before it, then its first branch
    when the name is true in the context and its second branch (nothing
    without [else]) when it is false or undefined, then the text after it:
    the tags leave neither their indentation nor their line breaks in the
    output.  [template.render(config)] (line 43) builds the context
    first, with [dict(config)] and [new_context], and raises their error
    before any text is rendered. *)
Theorem if_block_lines (config : yvalue) (a ws c t ws' b : string) (else_ : option (string * string)) :
  plain a = true -> plain t = true -> plain b = true ->
  all_blank ws = true -> all_blank ws' = true -> plain_name c = true -> else_ok else_ = true ->
  ends_line a || String.eqb a EmptyString = true -> ends_line t || String.eqb t EmptyString = true ->
  (tm <- parse_template (if_template a ws c t else_ ws' b) ;; @template_render jinja_engine tm config)
  = (vars <- py_dict config ;; ctx <- new_context vars ;;
     Ok (a ++ (if truthy (dict_get ctx (YStr c)) then t else else_body else_) ++ b)).
Proof.
  intros. apply render_with_config; [eapply (parse_of_render _ []) |]; intros; apply if_lines_render; assumption.
Qed.

(** A substitution [{{ x }}] between two pieces of text. *)
Definition var_template (a x b : string) : string := a ++ "{{ " ++ x ++ " }}" ++ b.

Lemma var_lines_render (ctx : py_dict_t) (a x b : string) :
  plain a = true -> plain b = true -> plain_name x = true ->
  (tm <- parse_template (var_template a x b) ;; jinja_render tm ctx)
  = Ok (a ++ match dict_get ctx (YStr x) with Some v => py_str v | None => EmptyString end ++ b).
Proof.
  intros Ha Hb Hx. unfold parse_template, var_template.
  change (tokenize ?s) with (tokenize_from LStart s). rewrite var_literal.
  rewrite tokenize_var by lex_side. rewrite tokenize_plain by lex_side. cbn [result_bind].
  rewrite build_data. cbn [build]. rewrite strip_name, Hx by exact Hx.
  rewrite build_data_end. cbn [build result_bind]. rewrite app_nil_r, rev_app_distr. cbn [rev app].
  rewrite !rev_text_node, <- app_assoc. unfold jinja_render. rewrite render_text. cbn [render_nodes render_node app].
  change (lookup [] ctx x) with (dict_get ctx (YStr x)). rewrite render_text_only. cbn [result_bind].
  reflexivity.
Qed.

(** (C20) [{{ x }}] prints [str] of the value of the key [x] of the
    configuration, and the empty string when the configuration has no
    such key: with Jinja2's default [Undefined], which line 38 keeps, an
    unresolved name does not fail the rendering.  The context is the one
    [template.render(config)] builds, and its errors come first. *)
Theorem var_substitution (config : yvalue) (a x b : string) :
  plain a = true -> plain b = true -> plain_name x = true ->
  (tm <- parse_template (var_template a x b) ;; @template_render jinja_engine tm config)
  = (vars <- py_dict config ;; ctx <- new_context vars ;;
     Ok (a ++ match dict_get ctx (YStr x) with Some v => py_str v | None => EmptyString end ++ b)).
Proof.
  intros. apply render_with_config; [eapply (parse_of_render _ []) |]; intros; apply var_lines_render; assumption.
Qed.

Lemma for_lines_render (ctx : py_dict_t) (a ws x it t1 t2 ws' b : string) :
  plain a = true -> plain t1 = true -> plain t2 = true -> plain b = true ->
  all_blank ws = true -> all_blank ws' = true -> plain_name x = true -> plain_name it = true ->
  ends_line a || String.eqb a EmptyString = true -> ends_line t2 = true ->
  (tm <- parse_template (for_template a ws x it t1 t2 ws' b) ;; jinja_render tm ctx)
  = (items <- iter_items (dict_get ctx (YStr it)) ;;
     Ok (a ++ fold_right String.append EmptyString (map (fun v => t1 ++ py_str v ++ t2) items) ++ b)).
Proof.
  intros Ha Ht1 Ht2 Hb Hw Hw' Hx Hit Hla Hl2. unfold parse_template, for_template.
  change (tokenize ?s) with (tokenize_from LStart s). rewrite for_literal, var_literal.
  change ("{% endfor %}" ++ ?X) with ("{%" ++ " endfor " ++ "%}" ++ X).
  rewrite tokenize_block_line by lex_side. rewrite (tokenize_var LStart t1) by lex_side.
  rewrite (tokenize_block_line LVar t2) by lex_side. rewrite tokenize_plain by lex_side.
  cbn [result_bind]. rewrite build_data. cbn [build]. rewrite parse_stmt_for by assumption.
  cbn [result_bind]. rewrite build_data. cbn [build]. rewrite strip_name, Hx by exact Hx.
  rewrite build_data. cbn [build]. rewrite parse_stmt_endfor. cbn [result_bind].
  rewrite build_data_end. cbn [build result_bind jinja_render].
  rewrite (ends_line_nonempty t2 Hl2), !app_nil_r, rev_app_distr. cbn [rev app].
  rewrite !rev_text_node, <- !app_assoc. cbn [app].
  unfold jinja_render. rewrite render_text. cbn [render_nodes]. rewrite render_node_for.
  change (lookup [] ctx it) with (dict_get ctx (YStr it)).
  destruct (iter_items _) as [items|]; [|reflexivity]. cbn [result_bind].
  rewrite render_loop_var, render_text_only. cbn [result_bind]. reflexivity.
Qed.

(** (C19) With the options of line 38, a [for] block whose two tags stand
    alone on their lines, and whose body prints the loop variable, renders
    the text before it, then for each item of the named value in order the
    body with the item printed by [str], then the text after it; a value
    that cannot be iterated is the error of [iter_items].  The context is
    the one [template.render(config)] builds, and its errors come
    first. *)
Theorem for_block_lines (config : yvalue) (a ws x it t1 t2 ws' b : string) :
  plain a = true -> plain t1 = true -> plain t2 = true -> plain b = true ->
  all_blank ws = true -> all_blank ws' = true -> plain_name x = true -> plain_name it = true ->
  ends_line a || String.eqb a EmptyString = true -> ends_line t2 = true ->
  (tm <- parse_template (for_template a ws x it t1 t2 ws' b) ;; @template_render jinja_engine tm config)
  = (vars <- py_dict config ;; ctx <- new_context vars ;;
     items <- iter_items (dict_get ctx (YStr it)) ;;
     Ok (a ++ fold_right String.append EmptyString (map (fun v => t1 ++ py_str v ++ t2) items) ++ b)).
Proof.
  intros. apply render_with_config; [|intros; apply for_lines_render; assumption].
  eapply (parse_of_render _ []). rewrite for_lines_render by assumption. reflexivity.
Qed.

End Jinja.

(** * A template with an indented [if] and [for] block *)

Module JinjaScenario.
Import JinjaLexer Jinja.

Definition line (s : string) : string := s ++ String newline EmptyString.

Definition header : string := line "dag = DAG('etl')".
Definition footer : string := "dag.cli()".
Definition indent : string := "    ".

Definition tasks_config : yvalue :=
  YMap [(YStr "catchup", YBool false); (YStr "tasks", YList [YStr "extract"; YStr "load"])].

(** The [if] block on a false flag renders its [else] line only. *)
Lemma if_block_lines_witness :
  (tm <- parse_template (if_template header indent "catchup" (line "dag.catchup = True")
                           (Some (indent, line "dag.catchup = False")) indent footer) ;;
   @template_render jinja_engine tm tasks_config)
  = Ok (line "dag = DAG('etl')" ++ line "dag.catchup = False" ++ "dag.cli()").
Proof. rewrite if_block_lines by reflexivity. reflexivity. Defined.

(** The [for] block writes one line per task, indented as its body. *)
Lemma for_block_lines_witness :
  (tm <- parse_template (for_template header indent "t" "tasks" indent (line ".run()") indent footer) ;;
   @template_render jinja_engine tm tasks_config)
  = Ok (line "dag = DAG('etl')" ++ line "    extract.run()" ++ line "    load.run()" ++ "dag.cli()").
Proof. rewrite for_block_lines by reflexivity. reflexivity. Defined.

(** The DAG template ending with a line break compiles as the one without. *)
Lemma compile_drops_final_newline_witness :
  jinja_compile ((header ++ "dag.cl") ++ String "i"%char EmptyString ++ String newline EmptyString)
  = jinja_compile ((header ++ "dag.cl") ++ String "i"%char EmptyString).
Proof. apply compile_drops_final_newline. reflexivity. Defined.

(** A typo in the name renders nothing in its place. *)
Lemma var_substitution_witness :
  (tm <- parse_template (var_template "t = BashOperator(task_id='" "bash_task_ids" "')") ;;
   @template_render jinja_engine tm (YMap [(YStr "bash_task_id", YStr "echo_task")]))
  = Ok "t = BashOperator(task_id='')".
Proof. rewrite var_substitution by reflexivity. reflexivity. Defined.

End JinjaScenario.
