(* ===== verification/JinjaLines.v ===== *)
(** * Templates whose block tags stand on lines of their own

    The DAG templates of the repository are written the way the options
    of line 38 of airflowdaggenerator.py ([trim_blocks] and
    [lstrip_blocks]) are meant for: every [{% ... %}] tag alone on its
    line, after blanks, and [{{ x }}] anywhere inside the text.  This file
    describes such a template by a tree of [item]s, with [if]/[else] and
    [for] blocks nested to any depth, prints it to its source text
    ([template_source]) and states the node list the parser must build
    from it ([item_nodes]).

    The text is cut into [piece]s, the unit the lexer sees: text, a
    substitution, or a tag line.  [tokenize_pieces] lexes any sequence of
    pieces laid out as [layout_ok] requires; [build_items] parses the
    token list of any tree whose names are Jinja2 names, by induction on
    the tree ([item_list_ind], the nested induction principle).  Together
    they give [template_roundtrip]: [Jinja.parse_template] reads back the
    tree from its source, the tag lines and their indentation leaving no
    text behind.  [if_block_lines] and [for_block_lines] of Jinja.v are
    the one-block instances of it, with their rendering. *)

From S2P Require Import Prelude PyStr Yaml Engine JinjaLexer Jinja.
Local Open Scope string_scope.
Local Open Scope dag_scope.

Module JinjaLines.
Import JinjaLexer Jinja.

(** ** Template trees and their source text *)

(** [IIf ws c t e ws']: the [if c] line indented by [ws], the items [t],
    an optional [else] line (its indentation and items) and the [endif]
    line indented by [ws']. *)
#[warnings="-register-all"]
Inductive item : Type :=
  | IText (s : string)
  | IVar (x : string)
  | IIf (ws c : string) (then_ : list item) (else_ : option (string * list item)) (ws' : string)
  | IFor (ws x it : string) (body : list item) (ws' : string).

Inductive piece : Type :=
  | PData (s : string)
  | PVar (e : string)
  | PBlock (ws st : string).

Definition piece_src (p : piece) : string :=
  match p with
  | PData s => s
  | PVar e => "{{" ++ e ++ "}}"
  | PBlock ws st => ws ++ "{%" ++ st ++ "%}" ++ String newline EmptyString
  end.

Definition pieces_src (ps : list piece) : string := fold_right (fun p s => piece_src p ++ s) EmptyString ps.

(** The tokens the lexer should give for each piece. *)
Definition piece_toks (p : piece) : list token :=
  match p with
  | PData s => data_tok s
  | PVar e => [TVar e]
  | PBlock _ st => [TBlock st]
  end.

Fixpoint pieces (i : item) : list piece :=
  match i with
  | IText s => [PData s]
  | IVar x => [PVar (" " ++ x ++ " ")]
  | IIf ws c t e ws' =>
      PBlock ws (" if " ++ c ++ " ")
        :: (flat_map pieces t
            ++ match e with None => [] | Some (we, e') => PBlock we " else " :: flat_map pieces e' end
            ++ [PBlock ws' " endif "])%list
  | IFor ws x it body ws' =>
      PBlock ws (" for " ++ x ++ " in " ++ it ++ " ")
        :: (flat_map pieces body ++ [PBlock ws' " endfor "])%list
  end.

Definition template_source (l : list item) : string := pieces_src (flat_map pieces l).

(** The nodes the parser should build: the tags leave no text. *)
Fixpoint item_nodes (i : item) : list node :=
  match i with
  | IText s => text_node s
  | IVar x => [NVar x]
  | IIf _ c t e _ =>
      [NIf c (flat_map item_nodes t) (match e with None => [] | Some (_, e') => flat_map item_nodes e' end)]
  | IFor _ x it body _ => [NFor x it (flat_map item_nodes body)]
  end.

(** Every name of the tree is a Jinja2 name the parser accepts. *)
Fixpoint names_ok (i : item) : bool :=
  match i with
  | IText _ => true
  | IVar x => plain_name x
  | IIf _ c t e _ =>
      plain_name c && forallb names_ok t
      && match e with None => true | Some (_, e') => forallb names_ok e' end
  | IFor _ x it body _ => plain_name x && plain_name it && forallb names_ok body
  end.

(** The layout: text has no [{], the indentation of a tag line is blank,
    a tag line starts a line (the text before it ends one, or nothing
    stands between it and the previous tag line), and two texts never
    follow each other (the lexer would read them as one). *)
Fixpoint layout_ok (lc : left_ctx) (ps : list piece) : bool :=
  match ps with
  | [] => true
  | PData s :: rest =>
      plain s &&
      match rest with
      | [] => true
      | PData _ :: _ => false
      | PVar e :: rest' => simple e && layout_ok LVar rest'
      | PBlock ws st :: rest' =>
          all_blank ws && simple st && ends_line s && layout_ok LStart rest'
      end
  | PVar e :: rest => simple e && layout_ok LVar rest
  | PBlock ws st :: rest => all_blank ws && simple st && starts_line lc && layout_ok LStart rest
  end.

(** ** Induction on template trees *)

Lemma item_list_ind (P : item -> Prop) :
  (forall s, P (IText s)) ->
  (forall x, P (IVar x)) ->
  (forall ws c t e ws', Forall P t ->
     Forall P (match e with None => [] | Some (_, e') => e' end) -> P (IIf ws c t e ws')) ->
  (forall ws x it body ws', Forall P body -> P (IFor ws x it body ws')) ->
  forall i, P i.
Proof.
  intros Ht Hv Hi Hf. fix aux 1. intros [s|x|ws c t e ws'|ws x it body ws'].
  - apply Ht.
  - apply Hv.
  - apply Hi.
    + revert t. fix auxl 1. intros [|i t]; constructor; [apply aux|apply auxl].
    + destruct e as [[we e]|]; [|constructor].
      revert e. fix auxl 1. intros [|i e]; constructor; [apply aux|apply auxl].
  - apply Hf. revert body. fix auxl 1. intros [|i body]; constructor; [apply aux|apply auxl].
Qed.

(** ** Lexing *)

Lemma lex_var_piece (lc : left_ctx) (a e : string) (rest : list piece) :
  keeps_data lc = true -> plain a = true -> simple e = true ->
  layout_ok LVar rest = true ->
  tokenize_from LVar (pieces_src rest) = Ok (flat_map piece_toks rest) ->
  tokenize_from lc (a ++ piece_src (PVar e) ++ pieces_src rest)
  = Ok (data_tok a ++ TVar e :: flat_map piece_toks rest)%list.
Proof.
  intros Hk Ha He _ IH. cbn [piece_src]. rewrite <- !string_app_assoc.
  rewrite tokenize_var, IH by assumption. reflexivity.
Qed.

Lemma lex_block_piece (lc : left_ctx) (a ws st : string) (rest : list piece) :
  keeps_data lc = true -> plain a = true -> all_blank ws = true -> simple st = true ->
  ends_line a || (String.eqb a EmptyString && starts_line lc) = true ->
  tokenize_from LStart (pieces_src rest) = Ok (flat_map piece_toks rest) ->
  tokenize_from lc (a ++ piece_src (PBlock ws st) ++ pieces_src rest)
  = Ok (data_tok a ++ TBlock st :: flat_map piece_toks rest)%list.
Proof.
  intros Hk Ha Hw Hs Hl IH. cbn [piece_src]. rewrite <- !string_app_assoc.
  change (String newline EmptyString ++ ?r) with (String newline r).
  rewrite tokenize_block_line, IH by assumption. reflexivity.
Qed.

Ltac lex_side :=
  repeat match goal with
  | |- context [piece_src (PData ?s)] => change (piece_src (PData s)) with s
  | |- ltof _ _ _ _ => unfold ltof; cbn [List.length]; lia
  | IH : forall y, ltof _ _ y _ -> _ |- tokenize_from _ _ = _ => apply IH
  | H : ends_line ?s = true |- (ends_line ?s || _) = true => now rewrite H
  | H : ?b = true |- ?b = true => exact H
  | |- _ => reflexivity
  end.

(** Any sequence of pieces laid out as [layout_ok] requires lexes to the
    tokens of its pieces, in any context that leaves data as it is. *)
Lemma tokenize_pieces (ps : list piece) : forall lc,
  keeps_data lc = true -> layout_ok lc ps = true ->
  tokenize_from lc (pieces_src ps) = Ok (flat_map piece_toks ps).
Proof.
  induction ps as [ps IH] using (induction_ltof1 _ (@List.length piece)).
  intros lc Hk H. destruct ps as [|[s|e|ws st] rest].
  - now apply tokenize_plain.
  - cbn [layout_ok] in H. apply andb_true_iff in H as [Hs H].
    destruct rest as [|[s'|e|ws st] rest']; [| discriminate | |].
    + cbn. rewrite string_app_nil_r, app_nil_r. now apply tokenize_plain.
    + apply andb_true_iff in H as [He H]. cbn [pieces_src fold_right].
      rewrite lex_var_piece by lex_side. reflexivity.
    + apply andb_true_iff in H as [H Hr]. apply andb_true_iff in H as [H Hl].
      apply andb_true_iff in H as [Hw Hst]. cbn [pieces_src fold_right].
      rewrite lex_block_piece by lex_side. reflexivity.
  - apply andb_true_iff in H as [He H]. cbn [pieces_src fold_right].
    change (tokenize_from lc (?p ++ ?r)) with (tokenize_from lc ("" ++ p ++ r)).
    rewrite lex_var_piece by lex_side.
    reflexivity.
  - apply andb_true_iff in H as [H Hr]. apply andb_true_iff in H as [H Hl].
    apply andb_true_iff in H as [Hw Hst]. cbn [pieces_src fold_right].
    change (tokenize_from lc (?p ++ ?r)) with (tokenize_from lc ("" ++ p ++ r)).
    rewrite lex_block_piece by lex_side. reflexivity.
Qed.

(** ** Parsing *)

(** The parser, started on the tokens of an item followed by [rest],
    pushes the item's nodes on the open block and goes on with [rest]. *)
Definition builds (i : item) : Prop :=
  forall rest stack acc,
    build (flat_map piece_toks (pieces i) ++ rest) stack acc = build rest stack (rev (item_nodes i) ++ acc).

Lemma builds_list (l : list item) :
  Forall (fun i => names_ok i = true -> builds i) l -> forallb names_ok l = true ->
  forall rest stack acc,
    build (flat_map piece_toks (flat_map pieces l) ++ rest) stack acc
    = build rest stack (rev (flat_map item_nodes l) ++ acc).
Proof.
  induction 1 as [|i l Hi _ IH]; cbn [forallb]; [reflexivity|].
  intros [Hn Hl]%andb_true_iff rest stack acc. cbn [flat_map].
  rewrite flat_map_app, <- app_assoc, Hi, IH by assumption.
  now rewrite rev_app_distr, app_assoc.
Qed.

Lemma build_items (i : item) : names_ok i = true -> builds i.
Proof.
  induction i as [s|x|ws c t e ws' Ht He|ws x it body ws' Hb] using item_list_ind;
    intros Hn rest stack acc; cbn [pieces item_nodes names_ok flat_map piece_toks] in *.
  - rewrite app_nil_r, build_data, rev_text_node. reflexivity.
  - cbn. now rewrite strip_name, Hn.
  - apply andb_true_iff in Hn as [[Hc Hnt]%andb_true_iff Hne].
    cbn [app]. cbn [build]. rewrite parse_stmt_if by exact Hc. cbn [result_bind].
    rewrite !flat_map_app, <- !app_assoc, (builds_list t) by assumption.
    destruct e as [[we e]|]; cbn [flat_map piece_toks app build].
    + rewrite parse_stmt_else. cbn [result_bind].
      rewrite (builds_list e) by assumption. cbn [flat_map piece_toks app build].
      rewrite parse_stmt_endif. cbn [result_bind]. now rewrite !app_nil_r, !rev_involutive.
    + rewrite parse_stmt_endif. cbn [result_bind]. now rewrite !app_nil_r, rev_involutive.
  - apply andb_true_iff in Hn as [[Hx Hit]%andb_true_iff Hnb].
    cbn [app]. cbn [build]. rewrite parse_stmt_for by assumption. cbn [result_bind].
    rewrite !flat_map_app, <- !app_assoc, (builds_list body) by assumption.
    cbn [flat_map piece_toks app build]. rewrite parse_stmt_endfor. cbn [result_bind].
    now rewrite !app_nil_r, rev_involutive.
Qed.

Lemma parse_items (l : list item) :
  forallb names_ok l = true -> layout_ok LStart (flat_map pieces l) = true ->
  parse_template (template_source l) = Ok (flat_map item_nodes l).
Proof.
  intros Hn Hl. unfold parse_template, template_source.
  change (tokenize ?s) with (tokenize_from LStart s).
  rewrite tokenize_pieces by (reflexivity || assumption). cbn [result_bind].
  rewrite <- (app_nil_r (flat_map piece_toks _)), (builds_list l) by (auto; apply Forall_forall; intros; now apply build_items).
  cbn [build]. now rewrite app_nil_r, rev_involutive.
Qed.

(** ** The round trip *)

(** (C23) Round trip of line-structured templates through the compiler of
    line 38: for every tree of text, [{{ x }}] substitutions and [if]/[else]
    and [for] blocks nested to any depth, whose names are Jinja2 names,
    whose tags stand alone on lines indented by blanks, with LF line ends
    and no final newline, [jinja_compile] of its source text builds
    exactly the tree's nodes: [trim_blocks] and [lstrip_blocks] make the
    tag lines and their indentation leave no text, and the blocks nest as
    written. *)
Theorem template_roundtrip (l : list item) :
  forallb names_ok l = true -> layout_ok LStart (flat_map pieces l) = true ->
  lf_only (template_source l) = true -> last_char (template_source l) <> Some newline ->
  jinja_compile (template_source l) = Ok (flat_map item_nodes l).
Proof.
  intros Hn Hl Hlf Hlast. unfold jinja_compile.
  rewrite preprocess_lf_only by assumption. now apply parse_items.
Qed.

End JinjaLines.

(** * A DAG template with a loop nested in a conditional *)

Module JinjaLinesScenario.
Import JinjaLexer Jinja JinjaLines.

Definition nl (s : string) : string := s ++ String newline EmptyString.

(** [if catchup] holding a [for] loop over the task names that prints one
    operator per name, an [else] line, and a last line without newline. *)
Definition dag_tree : list item :=
  [IText (nl "dag = DAG('etl')");
   IIf "" "catchup"
     [IFor "    " "t" "tasks" [IText "    op("; IVar "t"; IText (nl ")")] "    "]
     (Some ("", [IText (nl "pass")])) "";
   IText "dag.cli()"].

(** The tree printed: the tags on lines of their own. *)
Lemma dag_tree_source :
  template_source dag_tree
  = nl "dag = DAG('etl')" ++ nl "{% if catchup %}" ++ nl "    {% for t in tasks %}"
    ++ "    op({{ t }}" ++ nl ")" ++ nl "    {% endfor %}" ++ nl "{% else %}" ++ nl "pass"
    ++ nl "{% endif %}" ++ "dag.cli()".
Proof. reflexivity. Qed.

Lemma template_roundtrip_witness :
  jinja_compile (template_source dag_tree)
  = Ok [NText (nl "dag = DAG('etl')");
        NIf "catchup" [NFor "t" "tasks" [NText "    op("; NVar "t"; NText (nl ")")]] [NText (nl "pass")];
        NText "dag.cli()"].
Proof.
  apply (template_roundtrip dag_tree); [vm_compute; reflexivity .. | vm_compute; discriminate].
Defined.

End JinjaLinesScenario.
