(* ===== verification/Generator.v ===== *)
(** * [generate_dag] (src/airflowdaggenerator/airflowdaggenerator.py, lines 10-43)

    The function is a state transformer over the file system that may
    raise: [generate_dag fs ...] returns the file system after the call and
    either [Ok tt] or the exception.  Python does not roll back the file
    system when an exception propagates, so a failure after [open(.., "w")]
    returns the truncated file.  The steps, in the order of the source:

    - line 30: [output_dag_file_name.endswith('.py')], else [ValueError];
    - line 33: [open] the configuration file and [yaml.load] it;
    - line 34: [config is None] raises [ValueError];
    - lines 38-39: build the environment and [get_template];
    - line 42: [open(output, "w")], which creates or truncates the file;
    - line 43: [template.render(config)], which converts the
      configuration with [dict()] and builds the context with Jinja2's
      [new_context] (a key that is not a string raises [TypeError]),
      then renders; then [write].

    The section is parameterised by the YAML loader and the template
    engine; its theorems hold for every instance. *)

From S2P Require Import Prelude PyStr FileSystem Yaml YamlFlat Engine JinjaLexer Jinja.
Local Open Scope string_scope.
Local Open Scope dag_scope.

Definition invalid_name_msg : string :=
  "Invalid output dag file name. It should be a .py extension file".
Definition invalid_config_msg : string := "Invalid input configuration YML file".

Module Generator.
Section Generate.
Context `{YamlLoader} `{TemplateEngine}.

(** [yaml.load(open(path), Loader=yaml.FullLoader)] *)
Definition load_config (fs : fs_state) (path : string) : result yvalue :=
  text <- fs_read fs path ;;
  yaml_load text.

Definition generate_dag (fs : fs_state)
    (input_config_yaml_path input_config_yaml_file_name input_template_path
     input_template_file_name output_dag_path output_dag_file_name : string)
    : fs_state * result unit :=
  if negb (endswith output_dag_file_name ".py") then (fs, Err (ValueError invalid_name_msg))
  else
    match load_config fs (sep_join input_config_yaml_path input_config_yaml_file_name) with
    | Err e => (fs, Err e)
    | Ok YNone => (fs, Err (ValueError invalid_config_msg))
    | Ok config =>
        match get_template fs input_template_path input_template_file_name with
        | Err e => (fs, Err e)
        | Ok template =>
            let out := sep_join output_dag_path output_dag_file_name in
            match fs_open_write fs out with
            | Err e => (fs, Err e)
            | Ok fs1 =>
                match template_render template config with
                | Err e => (fs1, Err e)
                | Ok text => (fs_write fs1 out text, Ok tt)
                end
            end
        end
    end.

(** ** The outcomes of [generate_dag], one per exit of the source

    [gen_outcome] relates the inputs to the state and result of each exit
    of the function: the early returns through exceptions and the normal
    return.  [generate_dag_spec] proves that [generate_dag] always takes
    one of them; the properties below are read off it by inversion. *)

Inductive gen_outcome (fs : fs_state) (cfg tpl_dir tpl_name out out_name : string)
    : fs_state * result unit -> Prop :=
  | GBadName :
      endswith out_name ".py" = false ->
      gen_outcome fs cfg tpl_dir tpl_name out out_name (fs, Err (ValueError invalid_name_msg))
  | GConfigErr e :
      endswith out_name ".py" = true -> load_config fs cfg = Err e ->
      gen_outcome fs cfg tpl_dir tpl_name out out_name (fs, Err e)
  | GConfigNone :
      endswith out_name ".py" = true -> load_config fs cfg = Ok YNone ->
      gen_outcome fs cfg tpl_dir tpl_name out out_name (fs, Err (ValueError invalid_config_msg))
  | GTemplateErr config e :
      endswith out_name ".py" = true -> load_config fs cfg = Ok config -> config <> YNone ->
      get_template fs tpl_dir tpl_name = Err e ->
      gen_outcome fs cfg tpl_dir tpl_name out out_name (fs, Err e)
  | GOpenErr config t e :
      endswith out_name ".py" = true -> load_config fs cfg = Ok config -> config <> YNone ->
      get_template fs tpl_dir tpl_name = Ok t -> fs_open_write fs out = Err e ->
      gen_outcome fs cfg tpl_dir tpl_name out out_name (fs, Err e)
  | GRenderErr config t e :
      endswith out_name ".py" = true -> load_config fs cfg = Ok config -> config <> YNone ->
      get_template fs tpl_dir tpl_name = Ok t ->
      out ∉ fs_dirs fs -> dir_exists fs (dirname out) = true ->
      template_render t config = Err e ->
      gen_outcome fs cfg tpl_dir tpl_name out out_name
        (mkFS (<[out := EmptyString]> (fs_files fs)) (fs_dirs fs), Err e)
  | GOk config t text :
      endswith out_name ".py" = true -> load_config fs cfg = Ok config -> config <> YNone ->
      get_template fs tpl_dir tpl_name = Ok t ->
      out ∉ fs_dirs fs -> dir_exists fs (dirname out) = true ->
      template_render t config = Ok text ->
      gen_outcome fs cfg tpl_dir tpl_name out out_name
        (mkFS (<[out := text]> (fs_files fs)) (fs_dirs fs), Ok tt).

Lemma generate_dag_spec (fs : fs_state) (cd cn td tn od on : string) :
  gen_outcome fs (sep_join cd cn) td tn (sep_join od on) on (generate_dag fs cd cn td tn od on).
Proof.
  unfold generate_dag.
  destruct (endswith on ".py") eqn:Hext; simpl; [|now constructor].
  destruct (load_config fs (sep_join cd cn)) as [config|e] eqn:Hcfg; [|now constructor].
  assert (Hnone : config = YNone \/ config <> YNone) by (destruct config; auto; right; discriminate).
  destruct Hnone as [->|Hnone]; [now constructor|].
  destruct (get_template fs td tn) as [t|e] eqn:Ht;
    [|destruct config; try (now apply (GTemplateErr _ _ _ _ _ _ _ _ Hext Hcfg Hnone Ht)); easy].
  destruct (fs_open_write fs (sep_join od on)) as [fs1|e] eqn:Hopen;
    [|destruct config; try (now apply (GOpenErr _ _ _ _ _ _ _ _ _ Hext Hcfg Hnone Ht Hopen)); easy].
  pose proof Hopen as Hopen'. apply fs_open_write_ok in Hopen' as (-> & Hd & Hpar).
  destruct (template_render t config) as [text|e] eqn:Hr.
  - rewrite fs_write_after_open.
    destruct config; try easy; now apply (GOk _ _ _ _ _ _ _ _ _ Hext Hcfg Hnone Ht Hd Hpar Hr).
  - destruct config; try easy; now apply (GRenderErr _ _ _ _ _ _ _ _ _ Hext Hcfg Hnone Ht Hd Hpar Hr).
Qed.

(** ** Properties of one call *)

Section OneCall.
Variables (fs : fs_state) (cd cn td tn od on : string).

(** Case analysis on the exit [generate_dag] takes, given [generate_dag_spec]. *)
Local Ltac gen_inv spec :=
  let Hs := fresh "Hs" in
  pose proof spec as Hs;
  destruct (generate_dag fs cd cn td tn od on) as [fs' r];
  inversion Hs; subst; simpl in *; try congruence;
  try match goal with
      | H : fs_open_write _ _ = Err _ |- _ =>
          rewrite fs_open_write_succeeds in H by assumption; discriminate H
      end.

Lemma load_config_missing :
  fs_files fs !! (sep_join cd cn) = None -> sep_join cd cn ∉ fs_dirs fs -> load_config fs (sep_join cd cn) = Err (FileNotFoundError (sep_join cd cn)).
Proof. intros Hf Hd. unfold load_config. now rewrite fs_read_missing. Qed.

Lemma load_config_file (text : string) :
  fs_files fs !! (sep_join cd cn) = Some text -> load_config fs (sep_join cd cn) = yaml_load text.
Proof. intros Hf. unfold load_config. now rewrite (fs_read_file _ _ _ Hf). Qed.

(** (C2) An output name without the [.py] suffix raises [ValueError] before
    any file is opened, whatever the other arguments and the file system. *)
Theorem generate_dag_bad_extension :
  endswith on ".py" = false ->
  generate_dag fs cd cn td tn od on = (fs, Err (ValueError invalid_name_msg)).
Proof. intros Hext. unfold generate_dag. now rewrite Hext. Qed.

(** (C3) A configuration file that does not exist raises
    [FileNotFoundError] for the joined path, and nothing is written. *)
Theorem generate_dag_config_missing :
  endswith on ".py" = true -> fs_files fs !! (sep_join cd cn) = None -> sep_join cd cn ∉ fs_dirs fs ->
  generate_dag fs cd cn td tn od on = (fs, Err (FileNotFoundError (sep_join cd cn))).
Proof. intros Hext Hf Hd. unfold generate_dag. now rewrite Hext, (load_config_missing Hf Hd). Qed.

(** (C4) A configuration file that loads as [None] raises [ValueError]
    with the message of line 35, and nothing is written. *)
Theorem generate_dag_config_none (text : string) :
  endswith on ".py" = true -> fs_files fs !! (sep_join cd cn) = Some text -> yaml_load text = Ok YNone ->
  generate_dag fs cd cn td tn od on = (fs, Err (ValueError invalid_config_msg)).
Proof. intros Hext Hf Hy. unfold generate_dag. now rewrite Hext, (load_config_file _ Hf), Hy. Qed.

(** (C5) A template that is not under the template directory raises
    [TemplateNotFound] with its name, and nothing is written. *)
Theorem generate_dag_template_not_found (text : string) (config : yvalue) (pieces : list string) :
  endswith on ".py" = true -> fs_files fs !! (sep_join cd cn) = Some text -> yaml_load text = Ok config ->
  config <> YNone -> split_template_path tn = Ok pieces ->
  fs_files fs !! path_join td pieces = None ->
  generate_dag fs cd cn td tn od on = (fs, Err (TemplateNotFound tn)).
Proof.
  intros Hext Hf Hy Hn Hs Hm. pose proof (load_config_file _ Hf) as Hl. rewrite Hy in Hl.
  pose proof (get_template_missing fs td tn pieces Hs Hm). gen_inv (generate_dag_spec fs cd cn td tn od on).
Qed.

(** From the start of [generate_dag] to the [open] of line 42, on a
    configuration other than [None]: one goal per constructor of the
    configuration. *)
Ltac run_to_render Hext Hcfg :=
  unfold generate_dag; rewrite Hext, Hcfg;
  match type of Hcfg with
  | _ = Ok ?config => destruct config; cbn -[template_render get_template fs_open_write fs_write]; try congruence
  end.

(** (C6) When rendering raises, the exception propagates after the output
    file was opened for writing: the file exists and is empty, whatever
    it held before. *)
Theorem generate_dag_render_error_truncates (config : yvalue) (t : tmpl) (e : py_exc) :
  endswith on ".py" = true -> load_config fs (sep_join cd cn) = Ok config -> config <> YNone ->
  get_template fs td tn = Ok t ->
  sep_join od on ∉ fs_dirs fs -> dir_exists fs (dirname (sep_join od on)) = true ->
  template_render t config = Err e ->
  generate_dag fs cd cn td tn od on = (mkFS (<[sep_join od on := EmptyString]> (fs_files fs)) (fs_dirs fs), Err e).
Proof.
  intros Hext Hcfg Hn Ht Hd Hpar Hr. run_to_render Hext Hcfg;
    now rewrite Ht, (fs_open_write_succeeds _ _ Hd Hpar), Hr.
Qed.

(** (C11) A configuration mapping with a key that is not a string (YAML
    resolves the keys [1], [yes], [on] and [~] to an int, a bool or
    [None]) passes the [None] check of line 34, but
    [template.render(config)] raises [TypeError: keywords must be
    strings] when Jinja2 builds the render context: the output file
    has already been opened for writing at line 42, so it is left
    empty, whatever the template. *)
Theorem generate_dag_nonstring_key (kvs : list (yvalue * yvalue)) (t : tmpl) :
  endswith on ".py" = true -> load_config fs (sep_join cd cn) = Ok (YMap kvs) -> str_keys kvs = false ->
  get_template fs td tn = Ok t ->
  sep_join od on ∉ fs_dirs fs -> dir_exists fs (dirname (sep_join od on)) = true ->
  generate_dag fs cd cn td tn od on
  = (mkFS (<[sep_join od on := EmptyString]> (fs_files fs)) (fs_dirs fs),
     Err (TypeError "keywords must be strings")).
Proof.
  intros Hext Hcfg Hk Ht Hd Hpar. unfold generate_dag. rewrite Hext, Hcfg.
  cbn -[template_render get_template fs_open_write fs_write].
  rewrite Ht, (fs_open_write_succeeds _ _ Hd Hpar).
  unfold template_render, new_context. cbn [py_dict result_bind].
  rewrite str_keys_fold, Hk. reflexivity.
Qed.

Lemma generate_dag_writes (config : yvalue) (t : tmpl) (text : string) :
  endswith on ".py" = true -> load_config fs (sep_join cd cn) = Ok config -> config <> YNone ->
  get_template fs td tn = Ok t ->
  sep_join od on ∉ fs_dirs fs -> dir_exists fs (dirname (sep_join od on)) = true ->
  template_render t config = Ok text ->
  generate_dag fs cd cn td tn od on = (mkFS (<[sep_join od on := text]> (fs_files fs)) (fs_dirs fs), Ok tt).
Proof.
  intros Hext Hcfg Hn Ht Hd Hpar Hr. run_to_render Hext Hcfg;
    now rewrite Ht, (fs_open_write_succeeds _ _ Hd Hpar), Hr, fs_write_after_open.
Qed.

(** (C1) When every step succeeds, the output file holds the rendering of
    the template against the configuration and nothing else changes. *)
Theorem generate_dag_success (config : yvalue) (t : tmpl) (text : string) :
  endswith on ".py" = true -> load_config fs (sep_join cd cn) = Ok config -> config <> YNone ->
  get_template fs td tn = Ok t ->
  sep_join od on ∉ fs_dirs fs -> dir_exists fs (dirname (sep_join od on)) = true ->
  template_render t config = Ok text ->
  generate_dag fs cd cn td tn od on = (mkFS (<[sep_join od on := text]> (fs_files fs)) (fs_dirs fs), Ok tt).
Proof.
  intros Hext Hcfg Hn Ht Hd Hpar Hr. run_to_render Hext Hcfg;
    now rewrite Ht, (fs_open_write_succeeds _ _ Hd Hpar), Hr, fs_write_after_open.
Qed.

(** (C7) Conversely, a call that returns normally loaded a configuration
    other than [None], found the template, and wrote its rendering. *)
Theorem generate_dag_ok_inv :
  snd (generate_dag fs cd cn td tn od on) = Ok tt ->
  exists config t text,
    load_config fs (sep_join cd cn) = Ok config /\ config <> YNone /\ get_template fs td tn = Ok t /\
    template_render t config = Ok text /\
    fst (generate_dag fs cd cn td tn od on) = mkFS (<[sep_join od on := text]> (fs_files fs)) (fs_dirs fs).
Proof. gen_inv (generate_dag_spec fs cd cn td tn od on); intros _; eauto 8. Qed.

(** (C8) Whatever the outcome, the directories are unchanged and every
    file other than the output file keeps its content. *)
Theorem generate_dag_frame :
  fs_dirs (fst (generate_dag fs cd cn td tn od on)) = fs_dirs fs /\
  (forall p, p <> sep_join od on -> fs_files (fst (generate_dag fs cd cn td tn od on)) !! p = fs_files fs !! p).
Proof. gen_inv (generate_dag_spec fs cd cn td tn od on); split; auto; intros p Hp; now rewrite lookup_insert_ne. Qed.

(** (C9) A call that raises leaves the file system as it was, or with the
    output file truncated to the empty string. *)
Theorem generate_dag_err_state (e : py_exc) :
  snd (generate_dag fs cd cn td tn od on) = Err e ->
  fst (generate_dag fs cd cn td tn od on) = fs \/
  fst (generate_dag fs cd cn td tn od on) = mkFS (<[sep_join od on := EmptyString]> (fs_files fs)) (fs_dirs fs).
Proof. gen_inv (generate_dag_spec fs cd cn td tn od on); auto. Qed.

End OneCall.

Lemma load_config_insert_ne (files : gmap string string) (dirs : gset string) (p q c : string) :
  p <> q -> load_config (mkFS (<[p := c]> files) dirs) q = load_config (mkFS files dirs) q.
Proof. intros Hne. unfold load_config. now rewrite fs_read_insert_ne. Qed.

(** (C10) Re-running on the file system a successful call left gives the
    same file system again, provided the output path is neither the
    configuration file nor the template file. *)
Theorem generate_dag_idempotent (fs : fs_state) (cd cn td tn od on : string) :
  sep_join od on <> sep_join cd cn ->
  (forall pieces, split_template_path tn = Ok pieces -> path_join td pieces <> sep_join od on) ->
  snd (generate_dag fs cd cn td tn od on) = Ok tt ->
  generate_dag (fst (generate_dag fs cd cn td tn od on)) cd cn td tn od on =
  generate_dag fs cd cn td tn od on.
Proof.
  destruct fs as [files dirs]. intros Hcfg Htpl Hok.
  pose proof (generate_dag_spec (mkFS files dirs) cd cn td tn od on) as Hs.
  destruct (generate_dag (mkFS files dirs) cd cn td tn od on) as [fs1 r].
  simpl in Hok; subst r. inversion Hs; subst; simpl in *.
  pose proof (generate_dag_spec (mkFS (<[sep_join od on := text]> files) dirs) cd cn td tn od on) as Hs2.
  assert (Hl2 : load_config (mkFS (<[sep_join od on := text]> files) dirs) (sep_join cd cn) = Ok config)
    by (rewrite load_config_insert_ne; auto).
  assert (Ht2 : get_template (mkFS (<[sep_join od on := text]> files) dirs) td tn = Ok t)
    by (rewrite get_template_insert_ne; auto).
  inversion Hs2; subst; simpl in *; try congruence.
  - match goal with H : fs_open_write _ _ = Err _ |- _ =>
      rewrite fs_open_write_succeeds in H by assumption; discriminate H end.
  - assert (text0 = text) as -> by congruence. now rewrite insert_insert_eq.
Qed.

End Generate.
End Generator.

(** ** The fixtures of src/tests/conftest.py, run on the concrete loader
    and engine

    The configuration and template contents are those of the example
    scenario of the specification (the test data files are not part of
    the sources). *)

Module GeneratorScenario.
Import Generator.
#[local] Existing Instances FlatYaml.flat_loader Jinja.jinja_engine.

Definition nl : string := String JinjaLexer.newline EmptyString.

Definition sample_config : string :=
  "bash_task_id: echo_task" ++ nl ++ "bash_command: echo hi" ++ nl.

Definition sample_template : string :=
  "t = BashOperator(task_id='{{ bash_task_id }}', bash_command='{{ bash_command }}')" ++ nl.

Definition sample_rendered : string :=
  "t = BashOperator(task_id='echo_task', bash_command='echo hi')".

Definition sample_fs : fs_state :=
  mkFS (<["tests/data/dag_properties.yml" := sample_config]>
          (<["tests/data/sample_dag_template.py.j2" := sample_template]>
             (<["tests/data/empty.yml" := EmptyString]>
                (<["tests/data/scalar.yml" := "hello"]>
                   (<["tests/output/test_dag.py" := "old content"]> ∅)))))
       {[ "tests"; "tests/data"; "tests/output" ]}.

Definition sample_config_value : yvalue :=
  YMap [(YStr "bash_task_id", YStr "echo_task"); (YStr "bash_command", YStr "echo hi")].

Definition sample_tmpl : list Jinja.node :=
  [Jinja.NText "t = BashOperator(task_id='"; Jinja.NVar "bash_task_id";
   Jinja.NText "', bash_command='"; Jinja.NVar "bash_command"; Jinja.NText "')"].

Definition out_path : string := "tests/output/test_dag.py".

Lemma out_path_not_dir : out_path ∉ fs_dirs sample_fs.
Proof. apply (bool_decide_unpack _). vm_compute. exact I. Qed.

Lemma out_path_not_dir_cfg : "/test.yml" ∉ fs_dirs sample_fs.
Proof. apply (bool_decide_unpack _). vm_compute. exact I. Qed.

Lemma generate_dag_success_witness :
  load_config sample_fs "tests/data/dag_properties.yml" = Ok sample_config_value /\
  generate_dag sample_fs "tests/data" "dag_properties.yml" "tests/data"
    "sample_dag_template.py.j2" "tests/output" "test_dag.py" =
  (mkFS (<[out_path := sample_rendered]> (fs_files sample_fs)) (fs_dirs sample_fs), Ok tt).
Proof.
  split; [vm_compute; reflexivity|].
  apply (@generate_dag_success _ Jinja.jinja_engine
           sample_fs "tests/data" "dag_properties.yml" "tests/data" "sample_dag_template.py.j2" "tests/output" "test_dag.py"
           sample_config_value sample_tmpl sample_rendered);
    [vm_compute; reflexivity .. | discriminate | vm_compute; reflexivity
    | exact out_path_not_dir | vm_compute; reflexivity | vm_compute; reflexivity].
Defined.

Lemma generate_dag_bad_extension_witness :
  endswith "test.txt" ".py" = false /\
  generate_dag sample_fs "tests/data" "dag_properties.yml" "." "sample_dag_template.py.j2"
    "tests/output" "test.txt" = (sample_fs, Err (ValueError invalid_name_msg)).
Proof. split; [reflexivity | apply generate_dag_bad_extension; reflexivity]. Defined.

(** The test of a missing configuration passes [""] as its directory: the
    joined path is [/test.yml], at the root of the file system. *)
Lemma generate_dag_config_missing_witness :
  sep_join "" "test.yml" = "/test.yml" /\
  generate_dag sample_fs "" "test.yml" "tests/data" "sample_dag_template.py.j2"
    "tests/output" "test_dag.py" = (sample_fs, Err (FileNotFoundError "/test.yml")).
Proof.
  split; [reflexivity|].
  apply generate_dag_config_missing; [reflexivity | vm_compute; reflexivity | exact out_path_not_dir_cfg].
Defined.

Lemma generate_dag_config_none_witness :
  yaml_load EmptyString = Ok YNone /\
  generate_dag sample_fs "tests/data" "empty.yml" "tests/data" "sample_dag_template.py.j2"
    "tests/output" "test_dag.py" = (sample_fs, Err (ValueError invalid_config_msg)).
Proof.
  split; [reflexivity|].
  apply (generate_dag_config_none _ _ _ _ _ _ _ EmptyString);
    [reflexivity | vm_compute; reflexivity | apply yaml_load_empty].
Defined.

(** The test of a missing template passes ["."] as the template directory. *)
Lemma generate_dag_template_not_found_witness :
  path_join "." ["sample_dag_template.py.j2"] = "./sample_dag_template.py.j2" /\
  generate_dag sample_fs "tests/data" "dag_properties.yml" "." "sample_dag_template.py.j2"
    "tests/output" "test_dag.py" = (sample_fs, Err (TemplateNotFound "sample_dag_template.py.j2")).
Proof.
  split; [reflexivity|].
  apply (generate_dag_template_not_found _ _ _ _ _ _ _ sample_config sample_config_value
           ["sample_dag_template.py.j2"]);
    [reflexivity | vm_compute; reflexivity | vm_compute; reflexivity | discriminate
    | vm_compute; reflexivity | vm_compute; reflexivity].
Defined.

(** A configuration that is a plain string passes the [None] check, and
    [dict("hello")] raises inside [render] after the output file, which
    held ["old content"], was truncated. *)
(** [1: extract] and [~: load]: YAML reads the keys as [1] and [None]. *)
Definition numbered_fs : fs_state :=
  mkFS (<["tests/data/numbered.yml" := "1: extract" ++ nl ++ "~: load" ++ nl]> (fs_files sample_fs))
       (fs_dirs sample_fs).

Lemma generate_dag_nonstring_key_witness :
  load_config numbered_fs "tests/data/numbered.yml" = Ok (YMap [(YInt 1, YStr "extract"); (YNone, YStr "load")]) /\
  generate_dag numbered_fs "tests/data" "numbered.yml" "tests/data" "sample_dag_template.py.j2"
    "tests/output" "test_dag.py" =
  (mkFS (<[out_path := EmptyString]> (fs_files numbered_fs)) (fs_dirs numbered_fs),
   Err (TypeError "keywords must be strings")).
Proof.
  split; [vm_compute; reflexivity|].
  apply (@generate_dag_nonstring_key _ Jinja.jinja_engine
           numbered_fs "tests/data" "numbered.yml" "tests/data" "sample_dag_template.py.j2" "tests/output" "test_dag.py"
           [(YInt 1, YStr "extract"); (YNone, YStr "load")] sample_tmpl);
    first [vm_compute; reflexivity | apply (bool_decide_unpack _); vm_compute; exact I].
Defined.

Lemma generate_dag_render_error_truncates_witness :
  fs_files sample_fs !! out_path = Some "old content" /\
  generate_dag sample_fs "tests/data" "scalar.yml" "tests/data" "sample_dag_template.py.j2"
    "tests/output" "test_dag.py" =
  (mkFS (<[out_path := EmptyString]> (fs_files sample_fs)) (fs_dirs sample_fs),
   Err (length_error 0 1)).
Proof.
  split; [vm_compute; reflexivity|].
  apply (@generate_dag_render_error_truncates _ Jinja.jinja_engine
           sample_fs "tests/data" "scalar.yml" "tests/data" "sample_dag_template.py.j2" "tests/output" "test_dag.py"
           (YStr "hello") sample_tmpl (length_error 0 1));
    [vm_compute; reflexivity .. | discriminate | vm_compute; reflexivity
    | exact out_path_not_dir | vm_compute; reflexivity | vm_compute; reflexivity].
Defined.

Lemma generate_dag_ok_inv_witness :
  exists config t text,
    load_config sample_fs "tests/data/dag_properties.yml" = Ok config /\ config <> YNone /\
    get_template sample_fs "tests/data" "sample_dag_template.py.j2" = Ok t /\
    template_render t config = Ok text /\
    fst (generate_dag sample_fs "tests/data" "dag_properties.yml" "tests/data"
           "sample_dag_template.py.j2" "tests/output" "test_dag.py") =
    mkFS (<[out_path := text]> (fs_files sample_fs)) (fs_dirs sample_fs).
Proof.
  apply (generate_dag_ok_inv sample_fs "tests/data" "dag_properties.yml" "tests/data" "sample_dag_template.py.j2" "tests/output" "test_dag.py").
  vm_compute. reflexivity.
Defined.

Lemma generate_dag_frame_witness :
  fs_files (fst (generate_dag sample_fs "tests/data" "dag_properties.yml" "tests/data"
                  "sample_dag_template.py.j2" "tests/output" "test_dag.py"))
    !! "tests/data/dag_properties.yml" = Some sample_config.
Proof.
  destruct (generate_dag_frame sample_fs "tests/data" "dag_properties.yml" "tests/data"
              "sample_dag_template.py.j2" "tests/output" "test_dag.py") as [_ Hf].
  rewrite Hf; [vm_compute; reflexivity | discriminate].
Defined.

Lemma generate_dag_err_state_witness :
  fst (generate_dag sample_fs "tests/data" "scalar.yml" "tests/data" "sample_dag_template.py.j2"
         "tests/output" "test_dag.py") = sample_fs \/
  fst (generate_dag sample_fs "tests/data" "scalar.yml" "tests/data" "sample_dag_template.py.j2"
         "tests/output" "test_dag.py") =
  mkFS (<[out_path := EmptyString]> (fs_files sample_fs)) (fs_dirs sample_fs).
Proof.
  apply (generate_dag_err_state sample_fs "tests/data" "scalar.yml" "tests/data" "sample_dag_template.py.j2" "tests/output" "test_dag.py" (length_error 0 1)).
  vm_compute. reflexivity.
Defined.

Lemma generate_dag_idempotent_witness :
  let run := generate_dag sample_fs "tests/data" "dag_properties.yml" "tests/data"
               "sample_dag_template.py.j2" "tests/output" "test_dag.py" in
  generate_dag (fst run) "tests/data" "dag_properties.yml" "tests/data"
    "sample_dag_template.py.j2" "tests/output" "test_dag.py" = run.
Proof.
  apply generate_dag_idempotent; [discriminate | | vm_compute; reflexivity].
  intros pieces Hs. vm_compute in Hs. injection Hs as <-. discriminate.
Defined.

End GeneratorScenario.
