(* ===== verification/Validator.v ===== *)
(** * [validate_dag] (src/airflowdaggenerator/airflowdaggenerator.py, lines 46-59)

    [validate_dag(output_dag_path)] builds [DagBag(dag_folder=output_dag_path)]
    and, when [dag_bag.import_errors] is not empty, prints and raises
    ['DAG import failures. Errors: {}'.format(dag_bag.import_errors)].

    Airflow's [DagBag] is the interface [DagBagLoader]: the dict of import
    errors it computes for a folder, as an association list from file
    path to error text in insertion order, with the laws the program relies
    on (distinct paths, each a file of the file system).  [validate_dag]
    returns the lines it prints and its result.

    [AirflowDagBag] is the instance given by the collection rule of Airflow
    1.10 ([list_py_file_paths] and [DagBag.process_file] in safe mode),
    after [DagBag.__init__] replaces an empty folder by the configured
    [dags_folder] ([dagbag_folder]): a folder that is a file is that file; in a directory, every file below it
    whose [os.path.splitext] extension is [.py]; in both cases only files
    whose bytes contain both [DAG] and [airflow] are imported.  Importing
    one file (running its module and checking its DAGs for cycles) is the
    parameter [load_file], which returns the text of the exception it
    raises.  Not modelled: zip archives, [.airflowignore], the example DAGs
    Airflow loads when [load_examples] is set, and the order of
    [os.walk] (the instance lists files in the map's order). *)

From S2P Require Import Prelude PyStr FileSystem Engine.
Local Open Scope string_scope.

Module Validator.

Class DagBagLoader := {
  import_errors : fs_state -> string -> list (string * string);
  import_errors_nodup : forall fs d, NoDup (map fst (import_errors fs d));
  import_errors_files : forall fs d p e, In (p, e) (import_errors fs d) -> is_Some (fs_files fs !! p)
}.

Section Validate.
Context `{DagBagLoader}.

(** The printed lines and the result of [validate_dag]. *)
Definition validate_dag (fs : fs_state) (output_dag_path : string) : list string * result unit :=
  let errors := import_errors fs output_dag_path in
  if negb (Nat.eqb (List.length errors) 0) then
    ([format_errors errors], Err (AssertionError (format_errors errors)))
  else ([], Ok tt).

End Validate.

(** ** The Airflow 1.10 collection rule *)

(** [os.path.basename] *)
Fixpoint basename_go (s cur : string) : string :=
  match s with
  | EmptyString => cur
  | String c rest => if Ascii.eqb c sep_char then basename_go rest EmptyString
                     else basename_go rest (cur ++ String c EmptyString)
  end.

Definition basename (p : string) : string := basename_go p EmptyString.

Fixpoint all_dots (s : string) : bool :=
  match s with
  | EmptyString => true
  | String c rest => Ascii.eqb c "."%char && all_dots rest
  end.

(** [os.path.splitext(basename)[1] == '.py']: the extension starts at the
    last dot, and a name of leading dots only has none. *)
Definition py_extension (p : string) : bool :=
  let b := basename p in
  let n := String.length b in
  endswith b ".py" && negb (all_dots (String.substring 0 (n - 3) b)).

(** The safe-mode heuristic: [all([s in content for s in (b'DAG', b'airflow')])]. *)
Definition might_contain_dag (content : string) : bool :=
  contains "DAG" content && contains "airflow" content.

Definition dir_prefix (d : string) : string := if ends_with_sep d then d else d ++ os_sep.

Definition below (d p : string) : bool := String.prefix (dir_prefix d) p.

Section Airflow.
Variables (dags_folder : string) (load_file : string -> string -> option string).

(** [DagBag.__init__]: [dag_folder = dag_folder or settings.DAGS_FOLDER];
    [dags_folder] is the [dags_folder] option of the Airflow
    configuration. *)
Definition dagbag_folder (dag_folder : string) : string :=
  if String.eqb dag_folder EmptyString then dags_folder else dag_folder.

(** The files [DagBag] imports from [dag_folder], with their contents. *)
Definition dag_candidates (fs : fs_state) (dag_folder : string) : list (string * string) :=
  match fs_files fs !! dag_folder with
  | Some content => [(dag_folder, content)]
  | None =>
      if bool_decide (dag_folder ∈ fs_dirs fs) then
        List.filter (fun '(p, _) => below dag_folder p && py_extension p) (map_to_list (fs_files fs))
      else []
  end.

Definition airflow_import_errors (fs : fs_state) (dag_folder : string) : list (string * string) :=
  omap (fun '(p, content) =>
          if might_contain_dag content then option_map (pair p) (load_file p content) else None)
       (dag_candidates fs (dagbag_folder dag_folder)).

(** ** Which files have an import error *)

Lemma dag_candidates_spec (fs : fs_state) (d p c : string) :
  In (p, c) (dag_candidates fs d) <->
  fs_files fs !! p = Some c /\
  (p = d \/ (fs_files fs !! d = None /\ d ∈ fs_dirs fs /\ below d p = true /\ py_extension p = true)).
Proof.
  unfold dag_candidates. destruct (fs_files fs !! d) as [cd|] eqn:Ed.
  - simpl. split.
    + intros [Heq|[]]. injection Heq as <- <-. auto.
    + intros [Hp [->|[Hn _]]]; [left; congruence | congruence].
  - case_bool_decide as Hdir.
    + rewrite filter_In, <- list_elem_of_In, elem_of_map_to_list, andb_true_iff.
      split; [intros [Hp [Hb He]]; auto 6 | intros [Hp [->|(_ & _ & Hb & He)]]; [congruence | auto]].
    + simpl. split; [easy | intros [Hp [->|(_ & Hd & _)]]; [congruence | contradiction]].
Qed.

Lemma in_airflow_import_errors (fs : fs_state) (d p e : string) :
  In (p, e) (airflow_import_errors fs d) <->
  exists c, In (p, c) (dag_candidates fs (dagbag_folder d)) /\ might_contain_dag c = true /\ load_file p c = Some e.
Proof.
  unfold airflow_import_errors. split.
  - intros Hin. apply in_omap_inv in Hin as ([q c] & Hq & Hf).
    destruct (might_contain_dag c) eqn:Hm; [|discriminate].
    destruct (load_file q c) as [e'|] eqn:Hl; simpl in Hf; [|discriminate].
    injection Hf as <- <-. eauto.
  - intros (c & Hin & Hm & Hl). induction (dag_candidates fs (dagbag_folder d)) as [|[q c'] l IH]; simpl in *; [easy|].
    destruct Hin as [Heq|Hin].
    + injection Heq as -> ->. rewrite Hm, Hl. simpl. now left.
    + destruct (might_contain_dag c'); [destruct (load_file q c')|]; simpl; auto.
Qed.

Lemma airflow_import_errors_nodup (fs : fs_state) (d : string) :
  NoDup (map fst (airflow_import_errors fs d)).
Proof.
  unfold airflow_import_errors. apply NoDup_map_fst_omap.
  - intros [q c] [q' e] Hf. destruct (might_contain_dag c); [|discriminate].
    destruct (load_file q c); simpl in Hf; [|discriminate]. now injection Hf as <- <-.
  - unfold dag_candidates. destruct (fs_files fs !! dagbag_folder d); simpl.
    + apply NoDup_singleton.
    + case_bool_decide; [|constructor].
      apply NoDup_map_fst_filter. exact (NoDup_fst_map_to_list (fs_files fs)).
Qed.

Lemma dagbag_folder_id (d : string) : d <> EmptyString -> dagbag_folder d = d.
Proof. intros Hd. unfold dagbag_folder. now rewrite (proj2 (String.eqb_neq _ _) Hd). Qed.

Lemma airflow_import_errors_files (fs : fs_state) (d p e : string) :
  In (p, e) (airflow_import_errors fs d) -> is_Some (fs_files fs !! p).
Proof.
  rewrite in_airflow_import_errors. intros (c & Hin & _ & _).
  apply dag_candidates_spec in Hin as [Hp _]. eauto.
Qed.

End Airflow.

#[export] Instance AirflowDagBag (dags_folder : string) (load_file : string -> string -> option string)
  : DagBagLoader := {|
  import_errors := airflow_import_errors dags_folder load_file;
  import_errors_nodup := airflow_import_errors_nodup dags_folder load_file;
  import_errors_files := airflow_import_errors_files dags_folder load_file
|}.

(** ** Properties of [validate_dag] for every [DagBag] *)

Section ValidateProperties.
Context `{DagBagLoader}.
Variables (fs : fs_state) (d : string).

Lemma validate_dag_errors :
  import_errors fs d <> [] ->
  validate_dag fs d = ([format_errors (import_errors fs d)],
                       Err (AssertionError (format_errors (import_errors fs d)))).
Proof. unfold validate_dag. destruct (import_errors fs d); [easy | reflexivity]. Qed.

(** (C12) [validate_dag] returns normally exactly when the loader reports
    no import error; it then prints nothing. *)
Theorem validate_dag_ok_iff :
  snd (validate_dag fs d) = Ok tt <-> import_errors fs d = [] /\ fst (validate_dag fs d) = [].
Proof.
  unfold validate_dag. destruct (import_errors fs d); simpl; split; easy.
Qed.

(** (C13) Every import error is in the [AssertionError] raised and in the
    line printed before it, as the [repr] of its path and text; the text
    appears verbatim when [repr] does not escape it. *)
Theorem validate_dag_reports_error (p e : string) :
  In (p, e) (import_errors fs d) ->
  exists msg, validate_dag fs d = ([msg], Err (AssertionError msg)) /\
    contains (repr_str p ++ ": " ++ repr_str e) msg = true /\
    (all_plain (repr_quote e) e = true -> contains e msg = true).
Proof.
  intros Hin. unfold validate_dag.
  destruct (import_errors fs d) as [|x l] eqn:E; [easy|]. simpl.
  eexists. split; [reflexivity|]. split; [now apply format_errors_entry|].
  intros Hplain. eapply contains_trans; [now apply repr_str_contains|].
  apply (contains_trans _ (repr_str p ++ ": " ++ repr_str e)); [|now apply format_errors_entry].
  apply contains_spec. exists (repr_str p ++ ": "), EmptyString.
  now rewrite string_app_nil_r, <- string_app_assoc.
Qed.

End ValidateProperties.

(** ** Properties of the Airflow 1.10 [DagBag] *)

Section AirflowProperties.
Variables (dags_folder : string) (load_file : string -> string -> option string).
Variables (fs : fs_state) (d : string).

(** (C14) Safe mode skips every file whose content lacks [DAG] or
    [airflow]: when no file has both, validation passes whatever the
    files hold, a generated file that would fail to import included. *)
Theorem airflow_validate_skips_unmarked :
  (forall p c, fs_files fs !! p = Some c -> might_contain_dag c = false) ->
  @validate_dag (AirflowDagBag dags_folder load_file) fs d = ([], Ok tt).
Proof.
  intros Hm. unfold validate_dag; simpl.
  destruct (airflow_import_errors dags_folder load_file fs d) as [|[p e] l] eqn:E; [reflexivity|].
  assert (Hin : In (p, e) (airflow_import_errors dags_folder load_file fs d)) by (rewrite E; now left).
  apply in_airflow_import_errors in Hin as (c & Hc & Hmc & _).
  apply dag_candidates_spec in Hc as [Hp _]. rewrite (Hm _ _ Hp) in Hmc. discriminate.
Qed.

(** (C15) An output folder, not the empty path, that is neither a file
    nor a directory has no import errors: validation of a missing output
    folder passes. *)
Theorem airflow_validate_missing_folder :
  d <> EmptyString -> fs_files fs !! d = None -> d ∉ fs_dirs fs ->
  @validate_dag (AirflowDagBag dags_folder load_file) fs d = ([], Ok tt).
Proof.
  intros Hne Hf Hd. unfold validate_dag; simpl. unfold airflow_import_errors, dagbag_folder, dag_candidates.
  rewrite (proj2 (String.eqb_neq _ _) Hne), Hf, bool_decide_false by assumption. reflexivity.
Qed.


(** The whole folder is validated: a [.py] file below it other
    than the generated one, which Airflow fails to import, fails the
    validation, and its error is in the message. *)
Theorem airflow_validate_sibling (q c e : string) :
  d <> EmptyString -> fs_files fs !! d = None -> d ∈ fs_dirs fs -> fs_files fs !! q = Some c ->
  below d q = true -> py_extension q = true -> might_contain_dag c = true ->
  load_file q c = Some e ->
  exists msg, @validate_dag (AirflowDagBag dags_folder load_file) fs d = ([msg], Err (AssertionError msg)) /\
    contains (repr_str q ++ ": " ++ repr_str e) msg = true.
Proof.
  intros Hne Hf Hd Hq Hb Hpy Hm Hl.
  assert (Hin : In (q, e) (airflow_import_errors dags_folder load_file fs d)).
  { apply in_airflow_import_errors. exists c. split; [|auto].
    rewrite dagbag_folder_id by exact Hne. apply dag_candidates_spec. auto 6. }
  exists (format_errors (airflow_import_errors dags_folder load_file fs d)). split.
  - apply (@validate_dag_errors (AirflowDagBag dags_folder load_file)). simpl. intros Hnil. rewrite Hnil in Hin. easy.
  - now apply format_errors_entry.
Qed.

End AirflowProperties.

End Validator.

(** ** A concrete output folder

    [scenario_fs] holds the generated file, a sibling module that fails to
    import with the error of the test of an undefined task, and a text
    file.  [scenario_load] stands for importing a module. *)

Module ValidatorScenario.
Import Validator.

Definition nl : string := String "010"%char EmptyString.

(** The [dags_folder] of Airflow's default configuration. *)
Definition dags_home : string := "/root/airflow/dags".

Definition good_dag : string :=
  "from airflow import DAG" ++ nl ++ "dag = DAG('echo_dag')" ++ nl.
Definition broken_dag : string :=
  "from airflow import DAG" ++ nl ++ "echo_task >> other" ++ nl.
Definition undefined_error : string := "name 'echo_task' is not defined".

Definition scenario_fs : fs_state :=
  mkFS (<["tests/output/test_dag.py" := good_dag]>
          (<["tests/output/broken.py" := broken_dag]>
             (<["tests/output/notes.txt" := "DAG airflow notes"]> ∅)))
       {[ "tests"; "tests/output" ]}.

Definition scenario_load (p content : string) : option string :=
  if String.eqb p "tests/output/broken.py" then Some undefined_error else None.

(** An import error whose text spans two lines, as a traceback does. *)
Definition traceback_error : string := "Traceback:" ++ nl ++ "NameError".
Definition traceback_load (p content : string) : option string :=
  if String.eqb p "tests/output/broken.py" then Some traceback_error else None.

Lemma validate_dag_reports_error_witness :
  In ("tests/output/broken.py", undefined_error)
     (@import_errors (AirflowDagBag dags_home scenario_load) scenario_fs "tests/output") /\
  exists msg, @validate_dag (AirflowDagBag dags_home scenario_load) scenario_fs "tests/output" =
                ([msg], Err (AssertionError msg)) /\
    contains (repr_str "tests/output/broken.py" ++ ": " ++ repr_str undefined_error) msg = true /\
    (all_plain (repr_quote undefined_error) undefined_error = true -> contains undefined_error msg = true).
Proof.
  assert (Hin : In ("tests/output/broken.py", undefined_error)
                   (@import_errors (AirflowDagBag dags_home scenario_load) scenario_fs "tests/output"))
    by (vm_compute; auto).
  split; [exact Hin | exact (validate_dag_reports_error scenario_fs "tests/output" _ _ Hin)].
Defined.

(** [repr] escapes a line break, so the text of a multi-line import
    error is not in the message verbatim. *)
Theorem validate_dag_escapes_newline :
  In ("tests/output/broken.py", traceback_error)
     (@import_errors (AirflowDagBag dags_home traceback_load) scenario_fs "tests/output") /\
  exists msg, @validate_dag (AirflowDagBag dags_home traceback_load) scenario_fs "tests/output" =
                ([msg], Err (AssertionError msg)) /\
    contains traceback_error msg = false.
Proof.
  split; [vm_compute; auto|]. eexists. split; [vm_compute; reflexivity | vm_compute; reflexivity].
Qed.

Definition unmarked_fs : fs_state :=
  mkFS (<["tests/output/test_dag.py" := "echo_task = BashOperator(" ++ nl]> ∅) {[ "tests"; "tests/output" ]}.

Lemma airflow_validate_skips_unmarked_witness :
  scenario_load "tests/output/test_dag.py" "x" = None /\
  @validate_dag (AirflowDagBag dags_home (fun _ _ => Some "SyntaxError")) unmarked_fs "tests/output" = ([], Ok tt).
Proof.
  split; [reflexivity|]. apply airflow_validate_skips_unmarked.
  apply map_Forall_lookup. apply (bool_decide_unpack _). vm_compute. exact I.
Defined.

Lemma airflow_validate_missing_folder_witness :
  @validate_dag (AirflowDagBag dags_home scenario_load) scenario_fs "tests/missing" = ([], Ok tt).
Proof.
  apply airflow_validate_missing_folder; [discriminate | vm_compute; reflexivity |].
  apply (bool_decide_unpack _). vm_compute. exact I.
Defined.




Lemma airflow_validate_sibling_witness :
  below "tests/output" "tests/output/broken.py" = true /\
  exists msg, @validate_dag (AirflowDagBag dags_home scenario_load) scenario_fs "tests/output" =
                ([msg], Err (AssertionError msg)) /\
    contains (repr_str "tests/output/broken.py" ++ ": " ++ repr_str undefined_error) msg = true.
Proof.
  split; [reflexivity|].
  apply (airflow_validate_sibling dags_home scenario_load scenario_fs "tests/output" "tests/output/broken.py" broken_dag);
    [discriminate | vm_compute; reflexivity | apply (bool_decide_unpack _); vm_compute; exact I
    | vm_compute; reflexivity .. ].
Defined.

End ValidatorScenario.
