(* ===== verification/Cli.v ===== *)
(** * [__get_args__] (src/airflowdaggenerator/airflowdaggenerator.py, lines 62-76)

    The function builds an [argparse.ArgumentParser] with six required
    options, each with a short single-dash spelling and a long one, and
    calls [parse_args(input_args)].  This file models what Python 3.8's
    [argparse] does for exactly that parser (prefix character [-],
    [allow_abbrev=True], the automatic [-h]/[--help]):

    - [parse_optional] classifies one argument ([_parse_optional] and
      [_get_option_tuples]): an exact option string, [opt=value], an
      unambiguous prefix of an option string (an ambiguous one is an
      error), a negative number or an argument containing a space (a
      plain argument), or an unknown option;
    - [classify] is the first pass of [_parse_known_args], where
      everything after [--] is a plain argument;
    - [consume] is its main loop: an option that stores takes the explicit
      value or the next plain argument (else "expected one argument"),
      help exits with status 0, and any other argument goes to the extras;
    - [get_args] then reports the required options never seen, and then
      the unrecognised extras.  [parser.error] is [SystemExit 2] with the
      message printed after [prog: error:]; the usage and help texts
      printed are not modelled. *)

From S2P Require Import Prelude PyStr.
Local Open Scope string_scope.
Local Open Scope dag_scope.

Module Cli.

(** ** The parser of lines 63-75 *)

Inductive dest : Type :=
  | DConfigPath | DConfigName | DTemplatePath | DTemplateName | DDagPath | DDagName.

Inductive action : Type :=
  | AHelp
  | AStore (d : dest).

Definition all_dests : list dest :=
  [DConfigPath; DConfigName; DTemplatePath; DTemplateName; DDagPath; DDagName].

Definition short_opt (d : dest) : string :=
  match d with
  | DConfigPath => "-config_yml_path"
  | DConfigName => "-config_yml_file_name"
  | DTemplatePath => "-template_path"
  | DTemplateName => "-template_file_name"
  | DDagPath => "-dag_path"
  | DDagName => "-dag_file_name"
  end.

Definition long_opt (d : dest) : string :=
  match d with
  | DConfigPath => "--input_config_yaml_path"
  | DConfigName => "--input_config_yaml_file_name"
  | DTemplatePath => "--input_template_path"
  | DTemplateName => "--input_template_file_name"
  | DDagPath => "--output_dag_path"
  | DDagName => "--output_dag_file_name"
  end.

(** [parser._option_string_actions], in insertion order. *)
Definition option_actions : list (string * action) :=
  [("-h", AHelp); ("--help", AHelp)] ++
  flat_map (fun d => [(short_opt d, AStore d); (long_opt d, AStore d)]) all_dests.

Definition lookup_option (s : string) : option action :=
  match List.find (fun '(o, _) => String.eqb o s) option_actions with
  | Some (_, a) => Some a
  | None => None
  end.

(** [_get_action_name]: the option strings joined by [/]. *)
Definition action_name (a : action) : string :=
  match a with
  | AHelp => "-h/--help"
  | AStore d => short_opt d ++ "/" ++ long_opt d
  end.

Record args := mkArgs {
  input_config_yaml_path : string;
  input_config_yaml_file_name : string;
  input_template_path : string;
  input_template_file_name : string;
  output_dag_path : string;
  output_dag_file_name : string
}.

(** ** Classifying one argument *)

Definition dash : ascii := "-"%char.

Fixpoint split_eq (s cur : string) : option (string * string) :=
  match s with
  | EmptyString => None
  | String c rest => if Ascii.eqb c "="%char then Some (cur, rest)
                     else split_eq rest (cur ++ String c EmptyString)
  end.

Definition is_digit (c : ascii) : bool := (48 <=? nat_of_ascii c)%nat && (nat_of_ascii c <=? 57)%nat.

Fixpoint digits (s : string) : bool :=
  match s with
  | EmptyString => true
  | String c rest => is_digit c && digits rest
  end.

(** [\d*\.\d+] *)
Fixpoint fraction (s : string) : bool :=
  match s with
  | String "." rest => digits rest && negb (String.eqb rest EmptyString)
  | String c rest => is_digit c && fraction rest
  | EmptyString => false
  end.

(** [-\d+] or [-\d*\.\d+], the whole string. *)
Definition negative_body (s : string) : bool :=
  match s with
  | String "-" body => (negb (String.eqb body EmptyString) && digits body) || fraction body
  | _ => false
  end.

(** The string without its final line feed, when it ends with one: where
    Python's [$] also matches. *)
Fixpoint before_final_lf (s : string) : option string :=
  match s with
  | EmptyString => None
  | String c EmptyString => if Ascii.eqb c "010"%char then Some EmptyString else None
  | String c rest => option_map (String c) (before_final_lf rest)
  end.

(** [_negative_number_matcher.match(s)] with [^-\d+$|^-\d*\.\d+$]: [$]
    matches at the end and before a final line feed. *)
Definition negative_number (s : string) : bool :=
  negative_body s || match before_final_lf s with Some t => negative_body t | None => false end.

(** One entry of [_get_option_tuples]: the action, the option string
    matched and the explicit argument. *)
Definition opt_tuple := (action * string * option string)%type.

Definition get_option_tuples (s : string) : list opt_tuple :=
  match s with
  | String "-" (String "-" _) =>
      let '(prefix, explicit) :=
        match split_eq s EmptyString with
        | Some (p, v) => (p, Some v)
        | None => (s, None)
        end in
      map (fun '(o, a) => (a, o, explicit))
          (List.filter (fun '(o, _) => String.prefix prefix o) option_actions)
  | String "-" (String c rest) =>
      let short := String "-" (String c EmptyString) in
      flat_map (fun '(o, a) =>
                  if String.eqb o short then [(a, o, Some rest)]
                  else if String.prefix s o then [(a, o, None)] else [])
               option_actions
  | _ => []
  end.

Inductive tok : Type :=
  | TArg
  | TDashDash
  | TOpt (a : option action) (opt : string) (explicit : option string).

Definition ambiguous (s : string) (ts : list opt_tuple) : py_exc :=
  SystemExit 2 ("ambiguous option: " ++ s ++ " could match "
                ++ join ", " (map (fun '(_, o, _) => o) ts)).

Fixpoint has_space (s : string) : bool :=
  match s with
  | EmptyString => false
  | String c rest => (nat_of_ascii c =? 32)%nat || has_space rest
  end.

(** [_parse_optional] *)
Definition parse_optional (s : string) : result tok :=
  match s with
  | EmptyString => Ok TArg
  | String c rest =>
      if negb (Ascii.eqb c dash) then Ok TArg
      else match lookup_option s with
      | Some a => Ok (TOpt (Some a) s None)
      | None =>
          if (String.length s =? 1)%nat then Ok TArg
          else
            let eq_form :=
              match split_eq s EmptyString with
              | Some (o, v) => match lookup_option o with
                               | Some a => Some (TOpt (Some a) o (Some v))
                               | None => None
                               end
              | None => None
              end in
            match eq_form with
            | Some t => Ok t
            | None =>
                match get_option_tuples s with
                | [(a, o, ex)] => Ok (TOpt (Some a) o ex)
                | (_ :: _ :: _) as ts => Err (ambiguous s ts)
                | [] => if negative_number s || has_space s then Ok TArg
                        else Ok (TOpt None s None)
                end
            end
      end
  end.

(** The first pass: everything after [--] is a plain argument. *)
Fixpoint classify (argv : list string) : result (list (string * tok)) :=
  match argv with
  | [] => Ok []
  | s :: rest =>
      if String.eqb s "--" then Ok ((s, TDashDash) :: map (fun s => (s, TArg)) rest)
      else
        t <- parse_optional s ;;
        ts <- classify rest ;;
        Ok ((s, t) :: ts)
  end.

(** ** The main loop of [_parse_known_args] *)

Definition arg_error (a : action) (msg : string) : py_exc :=
  SystemExit 2 ("argument " ++ action_name a ++ ": " ++ msg).

Definition ignored_explicit (a : action) (x : string) : py_exc :=
  arg_error a ("ignored explicit argument " ++ repr_str x).

(** [-h] exits with status 0 after printing the help. *)
Definition help_exit : py_exc := SystemExit 0 EmptyString.

(** [-hXYZ] is read as the flags [-h -X -Y -Z]; no store option has a
    two-character spelling, so every character must be [h]. *)
Fixpoint help_chain (x : string) : result unit :=
  match x with
  | EmptyString => Ok tt
  | String c rest =>
      match lookup_option (String "-" (String c EmptyString)) with
      | Some AHelp => help_chain rest
      | _ => Err (ignored_explicit AHelp x)
      end
  end.

Definition take_help (o : string) (ex : option string) : py_exc :=
  match ex with
  | None => help_exit
  | Some x =>
      match o with
      | String "-" (String "-" _) => ignored_explicit AHelp x
      | _ => match help_chain x with Ok _ => help_exit | Err e => e end
      end
  end.

(** The values stored so far (latest first), the destinations seen, and
    the extras. *)
Fixpoint consume (toks : list (string * tok)) (ns : list (dest * string)) (seen : list dest)
    (extras : list string) : result (list (dest * string) * list dest * list string) :=
  match toks with
  | [] => Ok (ns, seen, extras)
  | (s, TArg) :: rest | (s, TDashDash) :: rest | (s, TOpt None _ _) :: rest =>
      consume rest ns seen (extras ++ [s])
  | (_, TOpt (Some AHelp) o ex) :: _ => Err (take_help o ex)
  | (_, TOpt (Some (AStore d)) _ (Some v)) :: rest => consume rest ((d, v) :: ns) (d :: seen) extras
  | (_, TOpt (Some (AStore d)) _ None) :: (v, TArg) :: rest => consume rest ((d, v) :: ns) (d :: seen) extras
  | (_, TOpt (Some (AStore d)) _ None) :: _ => Err (arg_error (AStore d) "expected one argument")
  end.

Definition dest_eqb (a b : dest) : bool :=
  match a, b with
  | DConfigPath, DConfigPath | DConfigName, DConfigName | DTemplatePath, DTemplatePath
  | DTemplateName, DTemplateName | DDagPath, DDagPath | DDagName, DDagName => true
  | _, _ => false
  end.

Definition value_of (ns : list (dest * string)) (d : dest) : string :=
  match List.find (fun '(d', _) => dest_eqb d' d) ns with
  | Some (_, v) => v
  | None => EmptyString
  end.

Definition namespace_of (ns : list (dest * string)) : args :=
  mkArgs (value_of ns DConfigPath) (value_of ns DConfigName) (value_of ns DTemplatePath)
         (value_of ns DTemplateName) (value_of ns DDagPath) (value_of ns DDagName).

Definition missing (seen : list dest) : list dest :=
  List.filter (fun d => negb (existsb (dest_eqb d) seen)) all_dests.

Definition required_error (m : list dest) : py_exc :=
  SystemExit 2 ("the following arguments are required: "
                ++ join ", " (map (fun d => action_name (AStore d)) m)).

Definition unrecognized_error (extras : list string) : py_exc :=
  SystemExit 2 ("unrecognized arguments: " ++ join " " extras).

(** [__get_args__(input_args)], that is [parser.parse_args(input_args)]:
    [parse_known_args] reports the required options never seen, then
    [parse_args] the extras. *)
Definition get_args (input_args : list string) : result args :=
  toks <- classify input_args ;;
  r <- consume toks [] [] [] ;;
  let '(ns, seen, extras) := r in
  match missing seen with
  | (_ :: _) as m => Err (required_error m)
  | [] =>
      match extras with
      | [] => Ok (namespace_of ns)
      | _ => Err (unrecognized_error extras)
      end
  end.

(** ** Command lines made of options with values and stray arguments *)

Inductive spelling : Type := Short | Long.

Definition spell (sp : spelling) (d : dest) : string :=
  match sp with Short => short_opt d | Long => long_opt d end.

Inductive item : Type :=
  | IOpt (sp : spelling) (d : dest) (v : string)
  | IExtra (x : string).

Definition item_args (it : item) : list string :=
  match it with IOpt sp d v => [spell sp d; v] | IExtra x => [x] end.

Definition command_line (its : list item) : list string := flat_map item_args its.

(** An argument [_parse_optional] reads as a plain one, other than [--]. *)
Definition plain_arg (s : string) : bool :=
  negb (String.eqb s "--") && match parse_optional s with Ok TArg => true | _ => false end.

Definition item_plain (it : item) : bool :=
  match it with IOpt _ _ v => plain_arg v | IExtra x => plain_arg x end.

Definition item_toks (it : item) : list (string * tok) :=
  match it with
  | IOpt sp d v => [(spell sp d, TOpt (Some (AStore d)) (spell sp d) None); (v, TArg)]
  | IExtra x => [(x, TArg)]
  end.

Definition stored (its : list item) : list (dest * string) :=
  flat_map (fun it => match it with IOpt _ d v => [(d, v)] | IExtra _ => [] end) its.

Definition extras_of (its : list item) : list string :=
  flat_map (fun it => match it with IExtra x => [x] | IOpt _ _ _ => [] end) its.

Lemma parse_optional_spell (sp : spelling) (d : dest) :
  parse_optional (spell sp d) = Ok (TOpt (Some (AStore d)) (spell sp d) None).
Proof. destruct sp, d; vm_compute; reflexivity. Qed.

Lemma spell_not_dashdash (sp : spelling) (d : dest) : String.eqb (spell sp d) "--" = false.
Proof. destruct sp, d; reflexivity. Qed.

Lemma classify_plain (s : string) (rest : list string) :
  plain_arg s = true ->
  classify (s :: rest) = (ts <- classify rest ;; Ok ((s, TArg) :: ts)).
Proof.
  unfold plain_arg. intros H. apply andb_true_iff in H as [Hd Hp].
  apply negb_true_iff in Hd. simpl. rewrite Hd.
  destruct (parse_optional s) as [[]|]; try discriminate. reflexivity.
Qed.

Lemma classify_spell (sp : spelling) (d : dest) (rest : list string) :
  classify (spell sp d :: rest) =
  (ts <- classify rest ;; Ok ((spell sp d, TOpt (Some (AStore d)) (spell sp d) None) :: ts)).
Proof. simpl. now rewrite spell_not_dashdash, parse_optional_spell. Qed.

Lemma classify_command_line (its : list item) (rest : list string) :
  forallb item_plain its = true ->
  classify (command_line its ++ rest)%list = (ts <- classify rest ;; Ok (flat_map item_toks its ++ ts)%list).
Proof.
  unfold command_line.
  induction its as [|[sp d v|x] its IH]; cbn [flat_map item_args item_plain forallb app]; intros H.
  - destruct (classify rest); reflexivity.
  - apply andb_true_iff in H as [Hv H].
    rewrite classify_spell, classify_plain, IH by assumption.
    destruct (classify rest); reflexivity.
  - apply andb_true_iff in H as [Hx H].
    rewrite classify_plain, IH by assumption.
    destruct (classify rest); reflexivity.
Qed.

Lemma consume_items (its : list item) (more : list (string * tok)) ns seen ex :
  consume (flat_map item_toks its ++ more)%list ns seen ex =
  consume more (rev (stored its) ++ ns)%list (rev (map fst (stored its)) ++ seen)%list
    (ex ++ extras_of its)%list.
Proof.
  revert ns seen ex. induction its as [|[sp d v|x] its IH]; intros ns seen ex; simpl.
  - now rewrite app_nil_r.
  - rewrite IH. now rewrite <- !app_assoc.
  - rewrite IH. now rewrite <- app_assoc.
Qed.

Lemma existsb_rev {A} (f : A -> bool) (l : list A) : existsb f (rev l) = existsb f l.
Proof.
  induction l as [|x l IH]; simpl; [reflexivity|].
  rewrite existsb_app, IH. simpl. now rewrite orb_false_r, orb_comm.
Qed.

Lemma missing_rev (l : list dest) : missing (rev l) = missing l.
Proof. unfold missing, all_dests. simpl. now rewrite !existsb_rev. Qed.

(** (C22) [get_args] on every command line made of options with plain
    values and stray arguments, in any order and either spelling: when
    options are missing it exits with status 2 naming exactly those, in
    the order they were declared, before any complaint about stray
    arguments; otherwise stray arguments make it exit with status 2
    listing them in order; otherwise each field of the namespace holds
    the value of the last occurrence of its option. *)
Theorem get_args_command_line (its : list item) :
  forallb item_plain its = true ->
  get_args (command_line its) =
  match missing (map fst (stored its)) with
  | (_ :: _) as m => Err (required_error m)
  | [] =>
      match extras_of its with
      | [] => Ok (namespace_of (rev (stored its)))
      | xs => Err (unrecognized_error xs)
      end
  end.
Proof.
  intros H. unfold get_args.
  pose proof (classify_command_line its [] H) as Hc. rewrite app_nil_r in Hc.
  rewrite Hc. cbn [result_bind classify]. rewrite app_nil_r.
  pose proof (consume_items its [] [] [] []) as Hk. rewrite app_nil_r in Hk.
  rewrite Hk. cbn [consume result_bind app]. rewrite !app_nil_r, missing_rev.
  destruct (missing _), (extras_of its); reflexivity.
Qed.

(** [-h] first exits with status 0, whatever follows, once the rest
    classifies without an ambiguous option. *)
Theorem get_args_help (rest : list string) (ts : list (string * tok)) :
  classify rest = Ok ts -> get_args ("-h" :: rest) = Err (SystemExit 0 EmptyString).
Proof. intros Hr. unfold get_args. simpl. now rewrite Hr. Qed.

(** An option at the end of the command line, with no value, exits
    with status 2: "expected one argument". *)
Theorem get_args_missing_value (its : list item) (sp : spelling) (d : dest) :
  forallb item_plain its = true ->
  get_args (command_line its ++ [spell sp d])%list = Err (arg_error (AStore d) "expected one argument").
Proof.
  intros H. unfold get_args. rewrite classify_command_line by exact H.
  rewrite classify_spell. cbn [classify result_bind]. rewrite consume_items. reflexivity.
Qed.

(** ** argparse only exits

    Every error [get_args] returns is the [SystemExit] of [parser.exit]:
    status 0 after the help, status 2 from [parser.error]. *)

Definition argparse_exit (e : py_exc) : Prop := e = help_exit \/ exists msg, e = SystemExit 2 msg.

Lemma arg_error_exit (a : action) (msg : string) : argparse_exit (arg_error a msg).
Proof. right. eexists. reflexivity. Qed.

Lemma parse_optional_err (s : string) (e : py_exc) : parse_optional s = Err e -> argparse_exit e.
Proof.
  unfold parse_optional. repeat case_match; intros Hp; try discriminate;
    injection Hp as <-; right; eexists; reflexivity.
Qed.

Lemma classify_err (argv : list string) (e : py_exc) : classify argv = Err e -> argparse_exit e.
Proof.
  induction argv as [|s rest IH]; cbn [classify]; [discriminate|].
  destruct (String.eqb s "--"); [discriminate|].
  destruct (parse_optional s) eqn:Hp; cbn [result_bind]; [|intros [= <-]; eapply parse_optional_err, Hp].
  destruct (classify rest); cbn [result_bind]; [discriminate | intros [= <-]; now apply IH].
Qed.

Lemma help_chain_err (x : string) (e : py_exc) : help_chain x = Err e -> argparse_exit e.
Proof.
  induction x as [|c rest IH]; cbn [help_chain]; [discriminate|].
  case_match; try (intros [= <-]; apply arg_error_exit).
  case_match; [exact IH | intros [= <-]; apply arg_error_exit].
Qed.

Lemma take_help_exit (o : string) (ex : option string) : argparse_exit (take_help o ex).
Proof.
  unfold take_help. destruct ex as [x|]; [|now left].
  repeat case_match; first [now left | apply arg_error_exit | eapply help_chain_err; eassumption].
Qed.

Lemma consume_err (toks : list (string * tok)) ns seen extras (e : py_exc) :
  consume toks ns seen extras = Err e -> argparse_exit e.
Proof.
  remember (List.length toks) as n eqn:Hn. assert (Hle : (List.length toks <= n)%nat) by lia. clear Hn.
  revert toks ns seen extras Hle. induction n as [|n IH]; intros toks ns seen extras Hle.
  - destruct toks; [discriminate | cbn in Hle; lia].
  - destruct toks as [|[s t] toks]; cbn [consume]; [discriminate|]. cbn in Hle.
    destruct t as [| |[[|d]|] o [v|]]; cbv beta iota; try (apply IH; lia); try (intros He; apply Err_inj in He; rewrite <- He; apply take_help_exit).
    destruct toks as [|[w [| |a' o' ex']] toks]; cbn in Hle; cbv beta iota;
      try (intros He; apply Err_inj in He; rewrite <- He; apply arg_error_exit); apply IH; lia.
Qed.

Lemma get_args_err_exit (input_args : list string) (e : py_exc) :
  get_args input_args = Err e -> argparse_exit e.
Proof.
  unfold get_args. destruct (classify input_args) as [toks|e'] eqn:Hc; cbn [result_bind];
    [|intros [= <-]; eapply classify_err, Hc].
  destruct (consume toks [] [] []) as [[[ns seen] extras]|e'] eqn:Hk; cbn [result_bind];
    [|intros [= <-]; eapply consume_err, Hk].
  destruct (missing seen); [|intros [= <-]; right; eexists; reflexivity].
  destruct extras; [discriminate | intros [= <-]; right; eexists; reflexivity].
Qed.

End Cli.

(** ** The command lines of src/tests/test_dag_generator.py *)

Module CliScenario.
Import Cli.

(** The arguments of [test_main_generates_output_dag_file_...] after the
    program name. *)
Definition full_items : list item :=
  [IOpt Short DConfigPath "./tests/data"; IOpt Short DConfigName "dag_properties.yml";
   IOpt Short DTemplatePath "./tests/data"; IOpt Short DTemplateName "sample_dag_template.py.j2";
   IOpt Short DDagPath "./tests/data/output"; IOpt Short DDagName "test_dag.py"].

(** The case [template_path_missing]: a stray template name, and neither
    template option. *)
Definition template_path_missing_items : list item :=
  [IOpt Short DConfigPath "./tests/data"; IOpt Short DConfigName "dag_properties.yml";
   IExtra "sample_dag_template.py.j2";
   IOpt Short DDagPath "./tests/data/output"; IOpt Short DDagName "test_dag.py"].

(** The three outcomes on the command lines of the tests: a repeated
    option keeps its last value, two options are missing, one argument
    is stray. *)
Lemma get_args_command_line_witness :
  get_args (command_line (full_items ++ [IOpt Long DDagName "final.py"])) =
    Ok (mkArgs "./tests/data" "dag_properties.yml" "./tests/data" "sample_dag_template.py.j2"
               "./tests/data/output" "final.py") /\
  get_args (command_line template_path_missing_items) =
    Err (required_error [DTemplatePath; DTemplateName]) /\
  get_args (command_line (full_items ++ [IExtra "extra"])) = Err (unrecognized_error ["extra"]).
Proof.
  split; [|split]; (rewrite get_args_command_line; [vm_compute; reflexivity | vm_compute; reflexivity]).
Defined.

Lemma get_args_help_witness :
  get_args ("-h" :: command_line full_items) = Err (SystemExit 0 EmptyString).
Proof.
  apply (get_args_help _ (flat_map item_toks full_items)). vm_compute. reflexivity.
Defined.

Lemma get_args_missing_value_witness :
  get_args (command_line full_items ++ ["-dag_path"])%list =
  Err (arg_error (AStore DDagPath) "expected one argument").
Proof. apply (get_args_missing_value full_items Short DDagPath). vm_compute. reflexivity. Defined.

End CliScenario.
