(* ===== verification/Pipeline.v ===== *)
(** * [main] (src/airflowdaggenerator/airflowdaggenerator.py, lines 79-99)

    [main] parses [sys.argv[1:]] with [__get_args__], prints a line,
    calls [generate_dag], prints a second line, calls [validate_dag] and
    prints a last line.  An exception of any of the three calls leaves
    [main] at once: the file system keeps what [generate_dag] did, and
    standard output keeps the lines printed so far.

    - [world] is the state [main] acts on: the file system and the lines
      written to standard output, in order;
    - [main] is the function itself, by explicit state passing;
    - [Machine] cuts the same run into the steps of the source (parse,
      configuration, template, open, render and write, validate) as a
      deterministic step function; [Reachable] states, by induction on
      the steps taken from the start, what the file system and standard
      output hold at each point between two calls that can raise. *)

From S2P Require Import Prelude PyStr FileSystem Yaml YamlFlat Engine Jinja Generator Validator Cli.
Local Open Scope string_scope.
Local Open Scope dag_scope.

Module Pipeline.
Import Generator Validator Cli.

Record world := mkWorld {
  w_fs : fs_state;
  w_out : list string
}.

(** [print(line)] *)
Definition print (w : world) (line : string) : world :=
  mkWorld (w_fs w) (w_out w ++ [line]).

Definition prints (w : world) (lines : list string) : world :=
  mkWorld (w_fs w) (w_out w ++ lines).

Definition set_fs (w : world) (fs : fs_state) : world := mkWorld fs (w_out w).

Definition start_msg : string := "Starting the Airflow DAG file Generation".

(** ["...under '{0}'".format(runtime_args.output_dag_path)] *)
Definition generated_msg (output_dag_path : string) : string :=
  "Successfully Generated the Airflow DAG Python file under '" ++ output_dag_path ++ "'".

Definition validated_msg : string := "Successfully Validated the generated Airflow DAG Python file".

(** [sys.argv[1:]] *)
Definition argv_tail (argv : list string) : list string := tl argv.

Section Main.
Context `{YamlLoader} `{TemplateEngine} `{DagBagLoader}.

Definition main (argv : list string) (w : world) : world * result unit :=
  match get_args (argv_tail argv) with
  | Err e => (w, Err e)
  | Ok runtime_args =>
      let w1 := print w start_msg in
      let '(fs2, r) := generate_dag (w_fs w1)
                         (input_config_yaml_path runtime_args)
                         (input_config_yaml_file_name runtime_args)
                         (input_template_path runtime_args)
                         (input_template_file_name runtime_args)
                         (output_dag_path runtime_args)
                         (output_dag_file_name runtime_args) in
      let w2 := set_fs w1 fs2 in
      match r with
      | Err e => (w2, Err e)
      | Ok _ =>
          let w3 := print w2 (generated_msg (output_dag_path runtime_args)) in
          let '(lines, r') := validate_dag (w_fs w3) (output_dag_path runtime_args) in
          let w4 := prints w3 lines in
          match r' with
          | Err e => (w4, Err e)
          | Ok _ => (print w4 validated_msg, Ok tt)
          end
      end
  end.

(** [generate_dag] on the parsed arguments. *)
Definition gen_of (fs : fs_state) (a : args) : fs_state * result unit :=
  generate_dag fs (input_config_yaml_path a) (input_config_yaml_file_name a)
    (input_template_path a) (input_template_file_name a) (output_dag_path a) (output_dag_file_name a).

End Main.

(** ** The exits of [main] *)

Section MainProperties.
Context `{YamlLoader} `{TemplateEngine} `{DagBagLoader}.
Variables (argv : list string) (w : world).

Lemma main_parsed (a : args) :
  get_args (argv_tail argv) = Ok a ->
  main argv w =
  let '(fs2, r) := gen_of (w_fs w) a in
  match r with
  | Err e => (mkWorld fs2 (w_out w ++ [start_msg]), Err e)
  | Ok _ =>
      let '(lines, r') := validate_dag fs2 (output_dag_path a) in
      let w4 := mkWorld fs2 (w_out w ++ [start_msg; generated_msg (output_dag_path a)] ++ lines) in
      match r' with Err e => (w4, Err e) | Ok _ => (print w4 validated_msg, Ok tt) end
  end.
Proof.
  intros Ha. unfold main, gen_of. rewrite Ha. cbn [w_fs print].
  destruct (generate_dag _ _ _ _ _ _ _) as [fs2 [[]|e]]; [|reflexivity].
  cbn [w_fs set_fs prints print w_out]. destruct (validate_dag fs2 _) as [lines r'].
  unfold prints, print, set_fs. cbn [w_fs w_out]. now rewrite <- !app_assoc.
Qed.

(** (C24) When the command line does not parse, [main] leaves through
    argparse's [SystemExit] before printing or touching a file. *)
Theorem main_args_error (e : py_exc) :
  get_args (argv_tail argv) = Err e -> main argv w = (w, Err e).
Proof. intros He. unfold main. now rewrite He. Qed.

(** (C25) When [generate_dag] raises, [main] propagates its exception
    after the first line only, with the file system [generate_dag] left. *)
Theorem main_generate_error (a : args) (fs' : fs_state) (e : py_exc) :
  get_args (argv_tail argv) = Ok a -> gen_of (w_fs w) a = (fs', Err e) ->
  main argv w = (mkWorld fs' (w_out w ++ [start_msg]), Err e).
Proof. intros Ha Hg. rewrite (main_parsed a Ha), Hg. reflexivity. Qed.

(** (C26) When the output folder has import errors after generation,
    [main] prints the two progress lines and the error line, and raises
    the [AssertionError]; the generated file stays on disk. *)
Theorem main_validation_error (a : args) (fs' : fs_state) :
  get_args (argv_tail argv) = Ok a -> gen_of (w_fs w) a = (fs', Ok tt) ->
  import_errors fs' (output_dag_path a) <> [] ->
  let msg := format_errors (import_errors fs' (output_dag_path a)) in
  main argv w = (mkWorld fs' (w_out w ++ [start_msg; generated_msg (output_dag_path a); msg]),
                 Err (AssertionError msg)).
Proof.
  intros Ha Hg Herr. rewrite (main_parsed a Ha), Hg. cbv zeta.
  now rewrite (validate_dag_errors fs' _ Herr).
Qed.

Lemma main_ok_parts :
  snd (main argv w) = Ok tt ->
  exists a fs', get_args (argv_tail argv) = Ok a /\ gen_of (w_fs w) a = (fs', Ok tt) /\
    import_errors fs' (output_dag_path a) = [] /\
    main argv w = (mkWorld fs' (w_out w ++ [start_msg; generated_msg (output_dag_path a); validated_msg]),
                   Ok tt).
Proof.
  destruct (get_args (argv_tail argv)) as [a|e] eqn:Ha; [|unfold main; rewrite Ha; discriminate].
  intros Hok. rewrite (main_parsed a Ha) in Hok. unfold validate_dag in Hok.
  destruct (gen_of (w_fs w) a) as [fs' [[]|e]] eqn:Hg; [|discriminate].
  destruct (import_errors fs' _) eqn:Hi; [|discriminate].
  exists a, fs'. repeat split; auto. rewrite (main_parsed a Ha), Hg.
  unfold validate_dag, print. rewrite Hi. cbn. now rewrite ?app_nil_r, <- ?app_assoc.
Qed.

(** (C27) [main] returns normally exactly when the arguments parse,
    [generate_dag] returns and the output folder has no import error; it
    has then printed its three lines and nothing else. *)
Theorem main_ok_iff :
  snd (main argv w) = Ok tt <->
  exists a fs', get_args (argv_tail argv) = Ok a /\ gen_of (w_fs w) a = (fs', Ok tt) /\
    import_errors fs' (output_dag_path a) = [] /\
    main argv w = (mkWorld fs' (w_out w ++ [start_msg; generated_msg (output_dag_path a); validated_msg]),
                   Ok tt).
Proof.
  split; [apply main_ok_parts|].
  intros (a & fs' & _ & _ & _ & ->). reflexivity.
Qed.

(** (C28) End to end: when [main] returns normally, the output file
    [output_dag_path/output_dag_file_name] holds the rendering of the
    configuration file with the template named on the command line, no
    other file has changed, and the [DagBag] of the output folder reports
    no import error in that final file system. *)
Theorem main_ok_output (w' : world) :
  main argv w = (w', Ok tt) ->
  exists a config t text,
    get_args (argv_tail argv) = Ok a /\
    load_config (w_fs w) (sep_join (input_config_yaml_path a) (input_config_yaml_file_name a)) = Ok config /\
    config <> YNone /\
    get_template (w_fs w) (input_template_path a) (input_template_file_name a) = Ok t /\
    template_render t config = Ok text /\
    w_fs w' = mkFS (<[sep_join (output_dag_path a) (output_dag_file_name a) := text]> (fs_files (w_fs w)))
                   (fs_dirs (w_fs w)) /\
    import_errors (w_fs w') (output_dag_path a) = [].
Proof.
  intros Hm. destruct main_ok_parts as (a & fs' & Ha & Hg & Hi & Hm'); [now rewrite Hm|].
  rewrite Hm in Hm'. injection Hm' as ->.
  pose proof (generate_dag_spec (w_fs w) (input_config_yaml_path a) (input_config_yaml_file_name a)
    (input_template_path a) (input_template_file_name a) (output_dag_path a) (output_dag_file_name a)) as S.
  unfold gen_of in Hg. rewrite Hg in S.
  inversion S; subst. exists a, config, t, text. now repeat split.
Qed.

End MainProperties.

(** ** [main] step by step

    The states of one run of [main], one per point between two calls of
    the source that can raise: after [__get_args__] and the first
    [print] (line 90), after [yaml.load] and the [None] check (33-35),
    after [get_template] (39), after [open(.., "w")] (42), after [write]
    and the second [print] (43, 97), and the two ends.  [step] performs
    the code between two such points. *)

Section Machine.
Context `{YamlLoader} `{TemplateEngine} `{DagBagLoader}.

Inductive mstate : Type :=
  | MStart (argv : list string)
  | MStarted (a : args)
  | MConfig (a : args) (config : yvalue)
  | MTemplate (a : args) (config : yvalue) (t : tmpl)
  | MOpened (a : args) (config : yvalue) (t : tmpl)
  | MWritten (a : args)
  | MDone
  | MFailed (e : py_exc).

(** [output_dag_path + os.path.sep + output_dag_file_name] *)
Definition out_of (a : args) : string := sep_join (output_dag_path a) (output_dag_file_name a).

Definition config_of (a : args) : string :=
  sep_join (input_config_yaml_path a) (input_config_yaml_file_name a).

Definition step (m : mstate) (w : world) : mstate * world :=
  match m with
  | MStart argv =>
      match get_args (argv_tail argv) with
      | Err e => (MFailed e, w)
      | Ok a => (MStarted a, print w start_msg)
      end
  | MStarted a =>
      if negb (endswith (output_dag_file_name a) ".py") then (MFailed (ValueError invalid_name_msg), w)
      else match load_config (w_fs w) (config_of a) with
      | Err e => (MFailed e, w)
      | Ok YNone => (MFailed (ValueError invalid_config_msg), w)
      | Ok config => (MConfig a config, w)
      end
  | MConfig a config =>
      match get_template (w_fs w) (input_template_path a) (input_template_file_name a) with
      | Err e => (MFailed e, w)
      | Ok t => (MTemplate a config t, w)
      end
  | MTemplate a config t =>
      match fs_open_write (w_fs w) (out_of a) with
      | Err e => (MFailed e, w)
      | Ok fs1 => (MOpened a config t, set_fs w fs1)
      end
  | MOpened a config t =>
      match template_render t config with
      | Err e => (MFailed e, w)
      | Ok text =>
          (MWritten a, print (set_fs w (fs_write (w_fs w) (out_of a) text))
                             (generated_msg (output_dag_path a)))
      end
  | MWritten a =>
      let '(lines, r) := validate_dag (w_fs w) (output_dag_path a) in
      match r with
      | Err e => (MFailed e, prints w lines)
      | Ok _ => (MDone, print (prints w lines) validated_msg)
      end
  | MDone | MFailed _ => (m, w)
  end.

Fixpoint run (n : nat) (m : mstate) (w : world) : mstate * world :=
  match n with
  | O => (m, w)
  | S n' => let '(m', w') := step m w in run n' m' w'
  end.

Definition final (m : mstate) : bool :=
  match m with MDone | MFailed _ => true | _ => false end.

End Machine.

(** ** Properties of the machine *)

Section MachineProperties.
Context `{YamlLoader} `{TemplateEngine} `{DagBagLoader}.

Lemma step_final (m : mstate) (w : world) : final m = true -> step m w = (m, w).
Proof. destruct m; easy. Qed.

Lemma run_final_stays (n : nat) (m : mstate) (w : world) : final m = true -> run n m w = (m, w).
Proof. intros Hf. induction n; [reflexivity|]. cbn [run]. now rewrite step_final. Qed.

End MachineProperties.

(** ** States reachable from the start, and what holds in each *)

Section Reachable.
Context `{YamlLoader} `{TemplateEngine} `{DagBagLoader}.
Variables (argv : list string) (w0 : world).

Inductive reachable : mstate -> world -> Prop :=
  | RStart : reachable (MStart argv) w0
  | RStep (m : mstate) (w : world) :
      reachable m w -> final m = false -> reachable (fst (step m w)) (snd (step m w)).

(** The arguments parsed, the output name checked and the configuration
    loaded from the initial file system. *)
Definition loaded (a : args) (c : yvalue) : Prop :=
  get_args (argv_tail argv) = Ok a /\ endswith (output_dag_file_name a) ".py" = true /\
  load_config (w_fs w0) (config_of a) = Ok c /\ c <> YNone.

Definition with_file (p text : string) : fs_state :=
  mkFS (<[p := text]> (fs_files (w_fs w0))) (fs_dirs (w_fs w0)).

Definition inv (m : mstate) (w : world) : Prop :=
  match m with
  | MStart argv' => argv' = argv /\ w = w0
  | MStarted a => get_args (argv_tail argv) = Ok a /\ w = print w0 start_msg
  | MConfig a c => loaded a c /\ w = print w0 start_msg
  | MTemplate a c t =>
      loaded a c /\ get_template (w_fs w0) (input_template_path a) (input_template_file_name a) = Ok t /\
      w = print w0 start_msg
  | MOpened a c t =>
      loaded a c /\ get_template (w_fs w0) (input_template_path a) (input_template_file_name a) = Ok t /\
      w = mkWorld (with_file (out_of a) EmptyString) (w_out w0 ++ [start_msg])
  | MWritten a =>
      exists c t text, loaded a c /\
        get_template (w_fs w0) (input_template_path a) (input_template_file_name a) = Ok t /\
        template_render t c = Ok text /\
        w = mkWorld (with_file (out_of a) text) (w_out w0 ++ [start_msg; generated_msg (output_dag_path a)])
  | MDone =>
      exists a text, get_args (argv_tail argv) = Ok a /\ w_fs w = with_file (out_of a) text /\
        import_errors (w_fs w) (output_dag_path a) = [] /\
        w_out w = (w_out w0 ++ [start_msg; generated_msg (output_dag_path a); validated_msg])%list
  | MFailed _ => fs_dirs (w_fs w) = fs_dirs (w_fs w0) /\ w_out w0 `prefix_of` w_out w
  end.

Lemma reachable_run (n : nat) (m : mstate) (w : world) :
  reachable m w -> reachable (fst (run n m w)) (snd (run n m w)).
Proof.
  revert m w. induction n as [|n IH]; intros m w Hr; [exact Hr|].
  destruct (final m) eqn:Hf; [now rewrite run_final_stays|].
  cbn [run]. pose proof (RStep m w Hr Hf) as Hs. destruct (step m w). now apply IH.
Qed.

Lemma prefix_app_r (l k : list string) : l `prefix_of` (l ++ k)%list.
Proof. now exists k. Qed.

#[local] Hint Resolve prefix_app_r : dag.

Lemma inv_failed (w : world) (e : py_exc) (k : list string) :
  fs_dirs (w_fs w) = fs_dirs (w_fs w0) -> w_out w = (w_out w0 ++ k)%list -> inv (MFailed e) w.
Proof. intros Hd Ho. split; [exact Hd | rewrite Ho; apply prefix_app_r]. Qed.

Lemma validate_dag_ok (fs : fs_state) (d : string) (lines : list string) :
  validate_dag fs d = (lines, Ok tt) -> import_errors fs d = [] /\ lines = [].
Proof. unfold validate_dag. destruct (import_errors fs d); [|discriminate]. now injection 1. Qed.

(** (C29) In every state reachable from the start of [main], what the
    run has done so far is exactly what the source has done at that
    point: the configuration and the template were read from the initial
    file system, the output file is untouched before [open], empty
    between [open] and [write], and holds the whole rendering when
    validation starts; standard output has the lines printed so far; a
    successful run ends with the output folder free of import errors. *)
Theorem reachable_inv (m : mstate) (w : world) : reachable m w -> inv m w.
Proof.
  induction 1 as [|m w Hr IH Hf]; [now split|].
  destruct m as [argv'|a|a c|a c t|a c t|a| |e]; try discriminate; cbn [inv] in IH; cbn [step].
  - destruct IH as [-> ->]. destruct (get_args _) eqn:Ha; [now split|].
    now apply (inv_failed _ _ []); rewrite ?app_nil_r.
  - destruct IH as [Ha ->]. cbn [w_fs print].
    destruct (endswith _ _) eqn:He; cbn [negb]; [|now apply (inv_failed _ _ [start_msg])].
    destruct (load_config _ _) as [[]|e] eqn:Hc;
      try (now apply (inv_failed _ _ [start_msg])); (split; [|reflexivity]); now repeat split.
  - destruct IH as [Hl ->]. cbn [w_fs print].
    destruct (get_template _ _ _) eqn:Ht; [exact (conj Hl (conj Ht eq_refl))|now apply (inv_failed _ _ [start_msg])].
  - destruct IH as (Hl & Ht & ->). cbn [w_fs print].
    destruct (fs_open_write _ _) as [fs1|e] eqn:Ho; [|now apply (inv_failed _ _ [start_msg])].
    apply fs_open_write_ok in Ho as (-> & _ & _). exact (conj Hl (conj Ht eq_refl)).
  - destruct IH as (Hl & Ht & ->). cbn [w_fs].
    destruct (template_render t c) as [text|e] eqn:Hrend; [|now apply (inv_failed _ _ [start_msg])].
    exists c, t, text. refine (conj Hl (conj Ht (conj Hrend _))). unfold print, set_fs, with_file. cbn [w_fs w_out].
    now rewrite fs_write_after_open, <- app_assoc.
  - destruct IH as (c & t & text & (Ha & _) & _ & _ & ->). cbn [w_fs w_out].
    destruct (validate_dag _ _) as [lines [[]|e]] eqn:Hv.
    + apply validate_dag_ok in Hv as [Hi ->]. exists a, text. cbn. rewrite app_nil_r, <- app_assoc. auto.
    + apply (inv_failed _ _ ([start_msg; generated_msg (output_dag_path a)] ++ lines)); [reflexivity|].
      cbn. now rewrite <- app_assoc.
Qed.

End Reachable.

End Pipeline.

(** ** [main] on the fixtures

    The command line of the tests, on the file system of
    [GeneratorScenario], with the [DagBag] of [ValidatorScenario]. *)

Module PipelineScenario.
Import Pipeline Generator Validator Cli GeneratorScenario.
#[local] Existing Instances FlatYaml.flat_loader Jinja.jinja_engine.
Definition dagbag : DagBagLoader := AirflowDagBag ValidatorScenario.dags_home ValidatorScenario.scenario_load.
#[local] Existing Instance dagbag | 0.

Definition sample_items (dag_name : string) : list item :=
  [IOpt Short DConfigPath "tests/data"; IOpt Long DConfigName "dag_properties.yml";
   IOpt Short DTemplatePath "tests/data"; IOpt Short DTemplateName "sample_dag_template.py.j2";
   IOpt Short DDagPath "tests/output"; IOpt Long DDagName dag_name].

Definition sample_argv (dag_name : string) : list string :=
  "airflowdaggenerator" :: command_line (sample_items dag_name).

Definition sample_args (dag_name : string) : args :=
  mkArgs "tests/data" "dag_properties.yml" "tests/data" "sample_dag_template.py.j2" "tests/output" dag_name.

Definition w0 : world := mkWorld sample_fs [].

(** The output folder also holds a module that fails to import. *)
Definition broken_fs : fs_state :=
  mkFS (<["tests/output/broken.py" := ValidatorScenario.broken_dag]> (fs_files sample_fs)) (fs_dirs sample_fs).

Definition generated_world : world :=
  mkWorld (mkFS (<[out_path := sample_rendered]> (fs_files sample_fs)) (fs_dirs sample_fs))
          [start_msg; generated_msg "tests/output"; validated_msg].

Lemma main_args_error_witness :
  main ["airflowdaggenerator"] w0 = (w0, Err (required_error all_dests)).
Proof. apply main_args_error. vm_compute. reflexivity. Defined.

Lemma main_generate_error_witness :
  main (sample_argv "test_dag.txt") w0 = (mkWorld sample_fs [start_msg], Err (ValueError invalid_name_msg)).
Proof.
  apply (main_generate_error (sample_argv "test_dag.txt") w0 (sample_args "test_dag.txt"));
    vm_compute; reflexivity.
Defined.

Lemma main_validation_error_witness :
  let fs' := mkFS (<[out_path := sample_rendered]> (fs_files broken_fs)) (fs_dirs broken_fs) in
  let msg := format_errors (import_errors fs' "tests/output") in
  main (sample_argv "test_dag.py") (mkWorld broken_fs []) =
  (mkWorld fs' [start_msg; generated_msg "tests/output"; msg], Err (AssertionError msg)).
Proof.
  intros fs' msg.
  apply (main_validation_error (sample_argv "test_dag.py") (mkWorld broken_fs []) (sample_args "test_dag.py") fs');
    [vm_compute; reflexivity | vm_compute; reflexivity | vm_compute; discriminate].
Defined.

Lemma main_ok_iff_witness :
  exists a fs', get_args (argv_tail (sample_argv "test_dag.py")) = Ok a /\ gen_of (w_fs w0) a = (fs', Ok tt) /\
    import_errors fs' (output_dag_path a) = [] /\
    main (sample_argv "test_dag.py") w0 =
    (mkWorld fs' (w_out w0 ++ [start_msg; generated_msg (output_dag_path a); validated_msg]), Ok tt).
Proof. apply main_ok_iff. vm_compute. reflexivity. Defined.

Lemma main_ok_output_witness :
  exists a config t text,
    get_args (argv_tail (sample_argv "test_dag.py")) = Ok a /\
    load_config (w_fs w0) (sep_join (input_config_yaml_path a) (input_config_yaml_file_name a)) = Ok config /\
    config <> YNone /\
    get_template (w_fs w0) (input_template_path a) (input_template_file_name a) = Ok t /\
    template_render t config = Ok text /\
    w_fs generated_world =
      mkFS (<[sep_join (output_dag_path a) (output_dag_file_name a) := text]> (fs_files (w_fs w0)))
           (fs_dirs (w_fs w0)) /\
    import_errors (w_fs generated_world) (output_dag_path a) = [].
Proof. apply (main_ok_output (sample_argv "test_dag.py") w0 generated_world). vm_compute. reflexivity. Defined.

(** Five steps from the start, the machine is about to validate; the
    invariant describes the file it will validate. *)
Lemma reachable_inv_witness :
  fst (run 5 (MStart (sample_argv "test_dag.py")) w0) = MWritten (sample_args "test_dag.py") /\
  inv (sample_argv "test_dag.py") w0 (fst (run 5 (MStart (sample_argv "test_dag.py")) w0))
      (snd (run 5 (MStart (sample_argv "test_dag.py")) w0)).
Proof.
  split; [reflexivity|].
  apply reachable_inv, reachable_run, RStart.
Defined.

End PipelineScenario.
