(* ===== verification/Tests.v ===== *)
(** * The test suite (src/tests/conftest.py, src/tests/test_dag_generator.py)

    The fixtures of conftest.py and the test functions of
    test_dag_generator.py, run against the models of [generate_dag],
    [validate_dag] and [main].  A test gives a [test_result] as pytest
    reports it: passed, failed (an assertion, a [pytest.raises] that saw
    no exception, or an exception the test did not expect), or an error
    while setting up its fixtures.

    - [here] is [os.path.dirname(os.path.abspath(__file__))], the tests
      directory, a variable of the section;
    - [fixtures] is the registry that conftest.py builds: the functions
      decorated with [@pytest.fixture].  The backslashes at the end of
      lines 55-57 join line 58 to the [return] of line 55, so that
      fixture returns ["..." @ pytest.fixture], which raises [TypeError],
      and the function of line 59 is not decorated: it is no fixture;
    - [output_dag_path] is the yield fixture of lines 33-43: it creates
      [here/output] when nothing exists there, and removes the whole tree
      after the test ([shutil.rmtree(.., ignore_errors=True)]);
    - the test data files are not part of the sources: the theorems say
      under which contents of the file system each test passes. *)

From S2P Require Import Prelude PyStr FileSystem Yaml YamlFlat Engine Jinja Generator Validator Cli Pipeline.
Local Open Scope string_scope.
Local Open Scope dag_scope.

Module Tests.
Import Generator Validator Cli Pipeline.

(** ** The [os.path], [os] and [shutil] calls of the tests *)

(** [os.path.isfile(p)] *)
Definition isfile (fs : fs_state) (p : string) : bool :=
  match fs_files fs !! p with Some _ => true | None => false end.

(** [os.path.exists(p)] *)
Definition path_exists (fs : fs_state) (p : string) : bool :=
  isfile fs p || bool_decide (p ∈ fs_dirs fs).

(** [os.mkdir(p)] on a path where nothing exists. *)
Definition mkdir (fs : fs_state) (p : string) : result fs_state :=
  if dir_exists fs (dirname p) then Ok (mkFS (fs_files fs) ({[p]} ∪ fs_dirs fs))
  else Err (FileNotFoundError p).

(** [p] itself or a path below it. *)
Definition in_tree (p q : string) : bool := String.eqb q p || String.prefix (p ++ os_sep) q.

(** [shutil.rmtree(p, ignore_errors=True)]: a directory goes with
    everything below it; on anything else the error is ignored. *)
Definition rmtree (fs : fs_state) (p : string) : fs_state :=
  if bool_decide (p ∈ fs_dirs fs) then
    mkFS (filter (fun kv => in_tree p kv.1 = false) (fs_files fs))
         (filter (fun q => in_tree p q = false) (fs_dirs fs))
  else fs.

(** ** Outcomes *)

(** The classes [pytest.raises] is given. *)
Inductive exc_class : Type :=
  | CFileNotFoundError | CValueError | CTemplateNotFound | CAssertionError | CSystemExit.

(** [isinstance(e, C)] *)
Definition isinstance (e : py_exc) (c : exc_class) : bool :=
  match e, c with
  | FileNotFoundError _, CFileNotFoundError | ValueError _, CValueError
  | TemplateNotFound _, CTemplateNotFound | AssertionError _, CAssertionError
  | SystemExit _ _, CSystemExit => true
  | _, _ => false
  end.

(** [str(e)]: the message; for an [OSError] its errno and the [repr]
    of the path; for [SystemExit] the exit status (the message went to
    standard error). *)
Definition exc_str (e : py_exc) : string :=
  match e with
  | AssertionError msg | ValueError msg | TypeError msg | YAMLError msg
  | TemplateSyntaxError msg | UndefinedError msg => msg
  | SystemExit code _ => str_of_nat code
  | FileNotFoundError p => "[Errno 2] No such file or directory: " ++ repr_str p
  | IsADirectoryError p => "[Errno 21] Is a directory: " ++ repr_str p
  | TemplateNotFound name => name
  end.

Inductive test_result : Type :=
  | Passed
  | AssertFailed
  | DidNotRaise
  | Raised (e : py_exc)
  | FixtureError (e : py_exc)
  | FixtureNotFound (name : string).

(** [with pytest.raises(C) as info: body], then [check info.value]. *)
Definition raises (c : exc_class) (r : result unit) (check : py_exc -> bool) : test_result :=
  match r with
  | Ok _ => DidNotRaise
  | Err e => if isinstance e c then (if check e then Passed else AssertFailed) else Raised e
  end.

(** [assert cond] after a body that may raise. *)
Definition asserting (r : result unit) (cond : bool) : test_result :=
  match r with
  | Err e => Raised e
  | Ok _ => if cond then Passed else AssertFailed
  end.

(** Two statements in sequence inside one [with] block. *)
Definition seq (r : fs_state * result unit) (k : fs_state -> fs_state * result unit) : fs_state * result unit :=
  match r with
  | (fs, Err e) => (fs, Err e)
  | (fs, Ok _) => k fs
  end.

Section Suite.
Context `{YamlLoader} `{TemplateEngine} `{DagBagLoader}.
Variable here : string.

(** ** conftest.py *)

Inductive fixture_value : Type :=
  | FStr (v : string)
  | FRaises (e : py_exc).

Definition cyclic_type_error : py_exc :=
  TypeError "unsupported operand type(s) for @: 'str' and 'function'".

Definition fixtures : list (string * fixture_value) :=
  [("input_config_yaml_path", FStr (here ++ "/data"));
   ("input_config_yaml_file_name", FStr "dag_properties.yml");
   ("input_template_path", FStr (here ++ "/data"));
   ("input_template_file_name", FStr "sample_dag_template.py.j2");
   ("output_dag_file_name", FStr "test_dag.py");
   ("input_template_having_cyclic_task_dependency_file_name", FRaises cyclic_type_error);
   ("input_template_having_invalid_task_file_name", FStr "dag_template_having_invalid_task.py.j2");
   ("input_template_having_typos_file_name", FStr "dag_template_having_typos.py.j2")].

Fixpoint lookup_fixture (name : string) (l : list (string * fixture_value)) : option fixture_value :=
  match l with
  | [] => None
  | (n, v) :: rest => if String.eqb n name then Some v else lookup_fixture name rest
  end.

(** A test that requests the fixture [name]. *)
Definition request (name : string) (fs : fs_state) (k : string -> fs_state * test_result)
    : fs_state * test_result :=
  match lookup_fixture name fixtures with
  | None => (fs, FixtureNotFound name)
  | Some (FRaises e) => (fs, FixtureError e)
  | Some (FStr v) => k v
  end.

Definition dag_path : string := here ++ os_sep ++ "output".

(** Lines 39-40: [if not os.path.exists(dag_path): os.mkdir(dag_path)] *)
Definition setup_output (fs : fs_state) : result fs_state :=
  if path_exists fs dag_path then Ok fs else mkdir fs dag_path.

(** The [output_dag_path] fixture around a test body: set up, [yield],
    tear down (line 43) whatever the body did. *)
Definition with_output_dag_path (fs : fs_state) (body : fs_state -> string -> fs_state * test_result)
    : fs_state * test_result :=
  match setup_output fs with
  | Err e => (fs, FixtureError e)
  | Ok fs1 => let '(fs2, r) := body fs1 dag_path in (rmtree fs2 dag_path, r)
  end.

(** ** test_dag_generator.py *)

(** [validate_dag(output_dag_path)] as a statement: its printed lines
    are captured by pytest. *)
Definition validate_stmt (dp : string) (fs : fs_state) : fs_state * result unit :=
  (fs, snd (validate_dag fs dp)).

Definition expect (c : exc_class) (check : py_exc -> bool) (run : fs_state * result unit)
    : fs_state * test_result :=
  (fst run, raises c (snd run) check).

Definition any_exc (_ : py_exc) : bool := true.

(** Lines 11-16 *)
Definition test_config_yaml_not_present (fs : fs_state) : fs_state * test_result :=
  request "input_template_path" fs (fun tp =>
  request "input_template_file_name" fs (fun tn =>
  with_output_dag_path fs (fun fs1 dp =>
  request "output_dag_file_name" fs1 (fun dn =>
  expect CFileNotFoundError any_exc (generate_dag fs1 "" "test.yml" tp tn dp dn))))).

(** Lines 19-26 *)
Definition test_config_yaml_is_not_yml (fs : fs_state) : fs_state * test_result :=
  request "input_config_yaml_path" fs (fun cp =>
  request "input_template_path" fs (fun tp =>
  request "input_template_file_name" fs (fun tn =>
  with_output_dag_path fs (fun fs1 dp =>
  request "output_dag_file_name" fs1 (fun dn =>
  expect CValueError any_exc (generate_dag fs1 cp "test.txt" tp tn dp dn)))))).

(** Lines 29-36 *)
Definition test_template_not_present (fs : fs_state) : fs_state * test_result :=
  request "input_config_yaml_path" fs (fun cp =>
  request "input_config_yaml_file_name" fs (fun cn =>
  request "input_template_file_name" fs (fun tn =>
  with_output_dag_path fs (fun fs1 dp =>
  request "output_dag_file_name" fs1 (fun dn =>
  expect CTemplateNotFound any_exc (generate_dag fs1 cp cn "." tn dp dn)))))).

(** Lines 39-46 *)
Definition test_output_not_py (fs : fs_state) : fs_state * test_result :=
  request "input_config_yaml_path" fs (fun cp =>
  request "input_config_yaml_file_name" fs (fun cn =>
  request "input_template_file_name" fs (fun tn =>
  with_output_dag_path fs (fun fs1 dp =>
  expect CValueError any_exc (generate_dag fs1 cp cn "." tn dp "test.txt"))))).

(** Lines 49-58 *)
Definition test_outputs_dag_file (fs : fs_state) : fs_state * test_result :=
  request "input_config_yaml_path" fs (fun cp =>
  request "input_config_yaml_file_name" fs (fun cn =>
  request "input_template_path" fs (fun tp =>
  request "input_template_file_name" fs (fun tn =>
  with_output_dag_path fs (fun fs1 dp =>
  request "output_dag_file_name" fs1 (fun dn =>
  let '(fs2, r) := generate_dag fs1 cp cn tp tn dp dn in
  let out := dp ++ os_sep ++ dn in
  (fs2, asserting r (path_exists fs2 out && isfile fs2 out)))))))).

(** The four tests of lines 61-119: generate from the template of the
    fixture [tmpl_fixture], validate, expect an [AssertionError] whose
    text passes [check]. *)
Definition test_validate_raises (tmpl_fixture : string) (check : py_exc -> bool) (fs : fs_state)
    : fs_state * test_result :=
  request "input_config_yaml_path" fs (fun cp =>
  request "input_config_yaml_file_name" fs (fun cn =>
  request "input_template_path" fs (fun tp =>
  request tmpl_fixture fs (fun tn =>
  with_output_dag_path fs (fun fs1 dp =>
  request "output_dag_file_name" fs1 (fun dn =>
  expect CAssertionError check (seq (generate_dag fs1 cp cn tp tn dp dn) (validate_stmt dp)))))))).

Definition test_has_cycle : fs_state -> fs_state * test_result :=
  test_validate_raises "input_template_having_cyclic_task_dependency_file_name" any_exc.

Definition test_has_invalid_arguments : fs_state -> fs_state * test_result :=
  test_validate_raises "input_template_having_invalid_arguments_file_name"
    (fun e => contains "__init__() got an unexpected keyword argument 'dag_ids'" (exc_str e)).

Definition test_has_invalid_tasks : fs_state -> fs_state * test_result :=
  test_validate_raises "input_template_having_invalid_task_file_name"
    (fun e => contains "name 'echo_task' is not defined" (exc_str e)).

Definition typo_message : string :=
  "The key () has to be made of alphanumeric characters, dashes, dots and underscores exclusively".

Definition test_has_typos : fs_state -> fs_state * test_result :=
  test_validate_raises "input_template_having_typos_file_name" (fun e => contains typo_message (exc_str e)).

(** Lines 122-130 *)
Definition test_valid_dag (fs : fs_state) : fs_state * test_result :=
  request "input_config_yaml_path" fs (fun cp =>
  request "input_config_yaml_file_name" fs (fun cn =>
  request "input_template_path" fs (fun tp =>
  request "input_template_file_name" fs (fun tn =>
  with_output_dag_path fs (fun fs1 dp =>
  request "output_dag_file_name" fs1 (fun dn =>
  let '(fs2, r) := seq (generate_dag fs1 cp cn tp tn dp dn) (validate_stmt dp) in
  (fs2, asserting r true))))))).

(** The parameters of lines 133-170. *)
Definition required_params : list (list string) :=
  [[];
   ["airflowdaggenerator"; "-config_yml_file_name"; "dag_properties.yml";
    "-template_path"; "./tests/data"; "-template_file_name"; "sample_dag_template.py.j2";
    "-dag_path"; "./tests/data/output"; "-dag_file_name"; "test_dag.py"];
   ["airflowdaggenerator"; "-config_yml_path"; "./tests/data";
    "-template_path"; "./tests/data"; "-template_file_name"; "sample_dag_template.py.j2";
    "-dag_path"; "./tests/data/output"; "-dag_file_name"; "test_dag.py"];
   ["airflowdaggenerator"; "-config_yml_path"; "./tests/data";
    "-config_yml_file_name"; "dag_properties.yml"; "sample_dag_template.py.j2";
    "-dag_path"; "./tests/data/output"; "-dag_file_name"; "test_dag.py"];
   ["airflowdaggenerator"; "-config_yml_path"; "./tests/data";
    "-config_yml_file_name"; "dag_properties.yml"; "-template_path"; "./tests/data";
    "-dag_path"; "./tests/data/output"; "-dag_file_name"; "test_dag.py"];
   ["airflowdaggenerator"; "-config_yml_path"; "./tests/data";
    "-config_yml_file_name"; "dag_properties.yml"; "-template_path"; "./tests/data";
    "-template_file_name"; "sample_dag_template.py.j2"; "-dag_file_name"; "test_dag.py"];
   ["airflowdaggenerator"; "-config_yml_path"; "./tests/data";
    "-config_yml_file_name"; "dag_properties.yml"; "-template_path"; "./tests/data";
    "-template_file_name"; "sample_dag_template.py.j2"; "-dag_path"; "./tests/data/output"]].

(** Lines 171-174, with [sys.argv] patched to [input_args]. *)
Definition test_main_required (input_args : list string) (fs : fs_state) : fs_state * test_result :=
  let '(w, r) := main input_args (mkWorld fs []) in
  (w_fs w, raises CSystemExit r any_exc).

(** Lines 177-192 *)
Definition test_main_generates (fs : fs_state) : fs_state * test_result :=
  request "input_config_yaml_path" fs (fun cp =>
  request "input_config_yaml_file_name" fs (fun cn =>
  request "input_template_path" fs (fun tp =>
  request "input_template_file_name" fs (fun tn =>
  with_output_dag_path fs (fun fs1 dp =>
  request "output_dag_file_name" fs1 (fun dn =>
  let '(w, r) := main ["prog"; "-config_yml_path"; cp; "-config_yml_file_name"; cn;
                       "-template_path"; tp; "-template_file_name"; tn;
                       "-dag_path"; dp; "-dag_file_name"; dn] (mkWorld fs1 []) in
  let out := dp ++ os_sep ++ dn in
  (w_fs w, asserting r (path_exists (w_fs w) out && isfile (w_fs w) out)))))))).

End Suite.

(** ** Properties of the suite *)

Section SuiteProperties.
Context `{YamlLoader} `{TemplateEngine} `{DagBagLoader}.
Variable here : string.

Lemma setup_output_ok (fs : fs_state) :
  isfile fs (dag_path here) = false -> dir_exists fs (dirname (dag_path here)) = true ->
  setup_output here fs = Ok (mkFS (fs_files fs) ({[dag_path here]} ∪ fs_dirs fs)).
Proof.
  intros Hf Hd. unfold setup_output, path_exists. rewrite Hf. cbn [orb].
  case_bool_decide as Hin; [|unfold mkdir; now rewrite Hd].
  destruct fs as [files dirs]; cbn in *. do 2 f_equal. apply leibniz_equiv. set_solver.
Qed.

Lemma rmtree_clears (fs : fs_state) (p q : string) :
  p ∈ fs_dirs fs -> in_tree p q = true ->
  fs_files (rmtree fs p) !! q = None /\ q ∉ fs_dirs (rmtree fs p).
Proof.
  intros Hp Hq. unfold rmtree. rewrite bool_decide_true by exact Hp. cbn [fs_files fs_dirs]. split.
  - apply map_lookup_filter_None. right. intros x _. cbn. congruence.
  - rewrite elem_of_filter. intros [Hn _]. congruence.
Qed.

Lemma generate_dag_dirs (fs : fs_state) (cd cn td tn od on : string) :
  fs_dirs (fst (generate_dag fs cd cn td tn od on)) = fs_dirs fs.
Proof.
  pose proof (generate_dag_spec fs cd cn td tn od on) as S.
  destruct (generate_dag fs cd cn td tn od on). now inversion S.
Qed.

(** The fixture removes the output folder and everything in it, when the
    test body keeps the folder. *)
Lemma with_output_cleans (fs : fs_state) (body : fs_state -> string -> fs_state * test_result) (q : string) :
  isfile fs (dag_path here) = false -> dir_exists fs (dirname (dag_path here)) = true ->
  (forall fs1, fs_dirs (fst (body fs1 (dag_path here))) = fs_dirs fs1) ->
  in_tree (dag_path here) q = true ->
  fs_files (fst (with_output_dag_path here fs body)) !! q = None /\
  q ∉ fs_dirs (fst (with_output_dag_path here fs body)).
Proof.
  intros Hf Hd Hb Hq. unfold with_output_dag_path. rewrite setup_output_ok by assumption.
  specialize (Hb (mkFS (fs_files fs) ({[dag_path here]} ∪ fs_dirs fs))).
  destruct (body _ _) as [fs2 r]. cbn in Hb |- *. apply rmtree_clears; [|exact Hq].
  rewrite Hb. set_solver.
Qed.

Lemma data_not_output (rest : string) : (here ++ "/data") ++ rest <> dag_path here.
Proof.
  unfold dag_path, os_sep. rewrite <- string_app_assoc. intros E.
  apply string_app_inv_l in E. rewrite !string_app_cons, string_app_nil_l in E. discriminate E.
Qed.

Lemma with_output_ok (fs : fs_state) (body : fs_state -> string -> fs_state * test_result) :
  isfile fs (dag_path here) = false -> dir_exists fs (dirname (dag_path here)) = true ->
  with_output_dag_path here fs body =
  let '(fs2, r) := body (mkFS (fs_files fs) ({[dag_path here]} ∪ fs_dirs fs)) (dag_path here) in
  (rmtree fs2 (dag_path here), r).
Proof. intros Hf Hd. unfold with_output_dag_path. now rewrite setup_output_ok. Qed.

(** (C30) The test that a non-YAML configuration name raises
    [ValueError] fails when the data folder has no [test.txt]: opening
    it raises [FileNotFoundError], which is not a [ValueError]. *)
Theorem test_config_yaml_is_not_yml_fails (fs : fs_state) :
  isfile fs (dag_path here) = false -> dir_exists fs (dirname (dag_path here)) = true ->
  fs_files fs !! sep_join (here ++ "/data") "test.txt" = None ->
  sep_join (here ++ "/data") "test.txt" ∉ fs_dirs fs ->
  snd (test_config_yaml_is_not_yml here fs) =
  Raised (FileNotFoundError (sep_join (here ++ "/data") "test.txt")).
Proof.
  intros Hf Hd Hc Hcd. unfold test_config_yaml_is_not_yml.
  cbn -[with_output_dag_path generate_dag]. rewrite with_output_ok by assumption.
  unfold generate_dag. cbn -[load_config get_template fs_open_write template_render fs_write sep_join].
  assert (Hn : sep_join (here ++ "/data") "test.txt" ∉ {[dag_path here]} ∪ fs_dirs fs).
  { pose proof (data_not_output ("/" ++ "test.txt")). unfold sep_join in *. set_solver. }
  unfold load_config. rewrite fs_read_missing by assumption. reflexivity.
Qed.

(** (C31) The test of a valid DAG passes exactly when [generate_dag]
    returns on the fixtures, in the file system with the output folder
    created, and the [DagBag] of that folder then reports no import
    error. *)
Theorem test_valid_dag_passes_iff (fs : fs_state) :
  isfile fs (dag_path here) = false -> dir_exists fs (dirname (dag_path here)) = true ->
  snd (test_valid_dag here fs) = Passed <->
  exists fs2,
    generate_dag (mkFS (fs_files fs) ({[dag_path here]} ∪ fs_dirs fs)) (here ++ "/data") "dag_properties.yml"
      (here ++ "/data") "sample_dag_template.py.j2" (dag_path here) "test_dag.py" = (fs2, Ok tt) /\
    import_errors fs2 (dag_path here) = [].
Proof.
  intros Hf Hd. unfold test_valid_dag. cbn -[with_output_dag_path generate_dag validate_stmt].
  rewrite with_output_ok by assumption.
  destruct (generate_dag _ _ _ _ _ _ _) as [fs2 [[]|e]]; cbn -[validate_dag];
    [|split; [discriminate | intros (? & ? & _); discriminate]].
  unfold validate_dag. destruct (import_errors fs2 _) eqn:Hi; cbn.
  - split; [eauto | reflexivity].
  - split; [discriminate | intros (? & [= <-] & Hn); congruence].
Qed.

(** Each of the seven command lines of the parametrized test makes
    [main] exit through argparse's [SystemExit]; the test passes for every
    file system, loader, engine and [DagBag]. *)
Theorem test_main_required_passes (fs : fs_state) :
  Forall (fun input_args => snd (test_main_required input_args fs) = Passed) required_params.
Proof. repeat constructor; unfold test_main_required, main; vm_compute; reflexivity. Qed.

(** The output-folder fixture leaves nothing behind: after the
    valid-DAG test, whatever [generate_dag] and the [DagBag] did, no file
    and no directory is left at or below [here/output]. *)
Theorem test_valid_dag_cleans_up (fs : fs_state) (q : string) :
  isfile fs (dag_path here) = false -> dir_exists fs (dirname (dag_path here)) = true ->
  in_tree (dag_path here) q = true ->
  fs_files (fst (test_valid_dag here fs)) !! q = None /\ q ∉ fs_dirs (fst (test_valid_dag here fs)).
Proof.
  intros Hf Hd Hq. unfold test_valid_dag. cbn -[with_output_dag_path generate_dag validate_stmt].
  apply with_output_cleans; [exact Hf | exact Hd | | exact Hq].
  intros fs1. pose proof (generate_dag_dirs fs1 (here ++ "/data") "dag_properties.yml" (here ++ "/data")
    "sample_dag_template.py.j2" (dag_path here) "test_dag.py") as Hg.
  destruct (generate_dag _ _ _ _ _ _ _) as [fs2 [[]|e]]; exact Hg.
Qed.

End SuiteProperties.
End Tests.

(** ** The suite on a checkout at [/repo]

    The data folder holds the configuration and the template of
    [GeneratorScenario]; the [DagBag] is that of [ValidatorScenario]. *)

Module TestsScenario.
Import Tests Generator Validator GeneratorScenario.
#[local] Existing Instances FlatYaml.flat_loader Jinja.jinja_engine.
Definition dagbag : DagBagLoader := AirflowDagBag ValidatorScenario.dags_home ValidatorScenario.scenario_load.
#[local] Existing Instance dagbag | 0.

Definition here : string := "/repo/tests".

Definition suite_fs : fs_state :=
  mkFS (<["/repo/tests/data/dag_properties.yml" := sample_config]>
          (<["/repo/tests/data/sample_dag_template.py.j2" := sample_template]> ∅))
       {[ "/repo"; "/repo/tests"; "/repo/tests/data" ]}.

Lemma test_config_yaml_is_not_yml_fails_witness :
  snd (test_config_yaml_is_not_yml here suite_fs) =
  Raised (FileNotFoundError "/repo/tests/data/test.txt").
Proof.
  apply (test_config_yaml_is_not_yml_fails here suite_fs);
    [vm_compute; reflexivity .. | apply (bool_decide_unpack _); vm_compute; exact I].
Defined.

Lemma test_valid_dag_passes_iff_witness : snd (test_valid_dag here suite_fs) = Passed.
Proof.
  apply (test_valid_dag_passes_iff here suite_fs); [vm_compute; reflexivity .. |].
  eexists. split; [vm_compute; reflexivity | vm_compute; reflexivity].
Defined.

Lemma test_valid_dag_cleans_up_witness :
  fs_files (fst (test_valid_dag here suite_fs)) !! "/repo/tests/output/test_dag.py" = None /\
  "/repo/tests/output/test_dag.py" ∉ fs_dirs (fst (test_valid_dag here suite_fs)).
Proof. apply test_valid_dag_cleans_up; vm_compute; reflexivity. Defined.

End TestsScenario.
