(* ===== verification/Setup.v ===== *)
(** * Packaging (src/setup.py)

    [setup_py] runs the module: it reads [README.rst] (line 3, which
    raises [FileNotFoundError] when the file is missing) and builds the
    keyword arguments of [setup()] (lines 17-47).  Two of them have
    behaviour:

    - the requirement strings (lines 9-15 and [python_requires], line
      45) are PEP 440 version specifiers: [parse_requirement] reads a
      name and comma-separated clauses, [cmp_release] compares release
      segments with zero padding, [satisfies] checks every clause;
    - the [console_scripts] entry point (lines 28-30) becomes the
      installed [airflowdaggenerator] command: [parse_entry_point] reads
      [name = module:attr], [run_installed] resolves a command name to
      [main], and [console_script] is the wrapper setuptools writes,
      [sys.exit(main())], whose exit status is 0 when [main] returns,
      the code of a [SystemExit], and 1 for any other exception.

    Pre-releases, local versions, wildcards and [~=] are outside the
    specifiers parsed here; none occurs in the file. *)

From S2P Require Import Prelude PyStr FileSystem Yaml YamlFlat Engine Jinja Generator Validator Cli Pipeline.
Local Open Scope string_scope.
Local Open Scope dag_scope.

Module Setup.
Import Generator Validator Cli Pipeline.

(** ** Splitting ([str.strip] is [PyStr.strip_ws]) *)

Fixpoint split_char (c : ascii) (s cur : string) : list string :=
  match s with
  | EmptyString => [cur]
  | String d rest =>
      if Ascii.eqb d c then cur :: split_char c rest EmptyString
      else split_char c rest (cur ++ String d EmptyString)
  end.

Definition is_digit (c : ascii) : bool := (48 <=? nat_of_ascii c)%nat && (nat_of_ascii c <=? 57)%nat.

Fixpoint number_go (s : string) (acc : nat) : option nat :=
  match s with
  | EmptyString => Some acc
  | String c rest => if is_digit c then number_go rest (10 * acc + (nat_of_ascii c - 48)) else None
  end.

Definition parse_number (s : string) : option nat :=
  match s with EmptyString => None | _ => number_go s 0 end.

Fixpoint traverse {A B} (f : A -> option B) (l : list A) : option (list B) :=
  match l with
  | [] => Some []
  | x :: rest => match f x, traverse f rest with Some y, Some ys => Some (y :: ys) | _, _ => None end
  end.

(** ["2.10.1"] is [[2; 10; 1]]. *)
Definition parse_release (s : string) : option (list nat) := traverse parse_number (split_char "." s EmptyString).

(** Release segments compared after padding the shorter with zeros. *)
Fixpoint cmp_release (a b : list nat) : comparison :=
  match a with
  | [] => if forallb (Nat.eqb 0) b then Eq else Lt
  | x :: a' =>
      match b with
      | [] => if forallb (Nat.eqb 0) a then Eq else Gt
      | y :: b' => match Nat.compare x y with Eq => cmp_release a' b' | c => c end
      end
  end.

(** ** Specifiers *)

Inductive cmp_op : Type := OpLt | OpLe | OpGt | OpGe | OpEq | OpNe.

Definition op_holds (o : cmp_op) (c : comparison) : bool :=
  match o, c with
  | OpLt, Lt | OpLe, (Lt | Eq) | OpGt, Gt | OpGe, (Gt | Eq) | OpEq, Eq | OpNe, (Lt | Gt) => true
  | _, _ => false
  end.

Record clause := mkClause { c_op : cmp_op; c_version : list nat }.

Definition parse_clause (raw : string) : option clause :=
  let mk o v := option_map (mkClause o) (parse_release (strip_ws v)) in
  match strip_ws raw with
  | String "<" (String "=" v) => mk OpLe v
  | String ">" (String "=" v) => mk OpGe v
  | String "=" (String "=" v) => mk OpEq v
  | String "!" (String "=" v) => mk OpNe v
  | String "<" v => mk OpLt v
  | String ">" v => mk OpGt v
  | _ => None
  end.

Definition parse_specifiers (s : string) : option (list clause) :=
  traverse parse_clause (split_char "," s EmptyString).

Record requirement := mkReq { req_name : string; req_clauses : list clause }.

Definition is_name_char (c : ascii) : bool :=
  let n := nat_of_ascii c in
  ((65 <=? n)%nat && (n <=? 90)%nat) || ((97 <=? n)%nat && (n <=? 122)%nat) || is_digit c
  || Ascii.eqb c "-"%char || Ascii.eqb c "_"%char || Ascii.eqb c "."%char.

(** The project name, and what follows it. *)
Fixpoint split_name (s : string) : string * string :=
  match s with
  | String c rest => if is_name_char c then let '(n, r) := split_name rest in (String c n, r) else (EmptyString, s)
  | EmptyString => (EmptyString, EmptyString)
  end.

Definition parse_requirement (s : string) : option requirement :=
  let '(name, rest) := split_name s in
  match name, strip_ws rest with
  | EmptyString, _ => None
  | _, EmptyString => Some (mkReq name [])
  | _, r => option_map (mkReq name) (parse_specifiers r)
  end.

Definition satisfies (v : list nat) (cs : list clause) : bool :=
  forallb (fun c => op_holds (c_op c) (cmp_release v (c_version c))) cs.

(** [v] is a release a specifier string admits. *)
Definition admits (spec : string) (v : list nat) : bool :=
  match parse_specifiers spec with Some cs => satisfies v cs | None => false end.

Definition requirement_admits (req : string) (v : list nat) : bool :=
  match parse_requirement req with Some r => satisfies v (req_clauses r) | None => false end.

(** ** [setup()] *)

Definition jinja2_requirement : string := "jinja2<2.11.0,>=2.10.1".

Definition requirements : list string := ["apache-airflow"; "psycopg2"; "PyYAML"; jinja2_requirement].

Definition test_requirements : list string := ["pytest"; "pytest-pep8"; "pytest-cov"].

Definition python_requires_spec : string := ">=3.6, <4".

Definition console_entry : string := "airflowdaggenerator = airflowdaggenerator.airflowdaggenerator:main".

Definition classifiers : list string :=
  ["Development Status :: 3 - Alpha"; "Intended Audience :: Developers";
   "Natural Language :: English"; "Programming Language :: Python :: 3";
   "Programming Language :: Python :: 3.6"; "Programming Language :: Python :: 3.7";
   "Programming Language :: Python :: 3.8"; "Operating System :: OS Independent"].

Record setup_kwargs := mkSetup {
  pkg_name : string;
  version : string;
  description : string;
  long_description : string;
  author : string;
  author_email : string;
  url : string;
  packages : list string;
  entry_points : list (string * list string);
  install_requires : list string;
  license : string;
  zip_safe : bool;
  keywords : string;
  pkg_classifiers : list string;
  python_requires : string;
  tests_require : list string
}.

(** Running setup.py: read the README, then call [setup(...)]. *)
Definition setup_py (fs : fs_state) : result setup_kwargs :=
  readme <- fs_read fs "README.rst" ;;
  Ok {| pkg_name := "airflowdaggenerator";
        version := "0.0.2";
        description := "Dynamically generates and validates Python Airflow DAG file based on a Jinja2 Template and a YAML "
                       ++ "configuration file to encourage code re-usability";
        long_description := readme;
        author := "Felix K Jose";
        author_email := "felixkjose@gmail.com";
        url := "https://github.com/FelixKJose/AirflowDAGGenerator";
        packages := ["airflowdaggenerator"];
        entry_points := [("console_scripts", [console_entry])];
        install_requires := requirements;
        license := "Apache-2.0 License";
        zip_safe := false;
        keywords := "airflow, dynamic, dag, generator, jinja2";
        pkg_classifiers := classifiers;
        python_requires := python_requires_spec;
        tests_require := test_requirements |}.

(** ** The [console_scripts] entry point *)

(** [name = module:attr] *)
Definition parse_entry_point (s : string) : option (string * string * string) :=
  match split_char "=" s EmptyString with
  | [n; target] =>
      match split_char ":" (strip_ws target) EmptyString with
      | [m; a] =>
          let n' := strip_ws n in let m' := strip_ws m in let a' := strip_ws a in
          if String.eqb n' EmptyString || String.eqb m' EmptyString || String.eqb a' EmptyString then None
          else Some (n', m', a')
      | _ => None
      end
  | _ => None
  end.

Fixpoint group (k : string) (l : list (string * list string)) : list string :=
  match l with
  | [] => []
  | (k', v) :: rest => if String.eqb k k' then v ++ group k rest else group k rest
  end.

(** The module and attribute the command [cmd] runs. *)
Definition resolve_script (kw : setup_kwargs) (cmd : string) : option (string * string) :=
  let fix go (l : list string) :=
    match l with
    | [] => None
    | e :: rest =>
        match parse_entry_point e with
        | Some (n, m, a) => if String.eqb n cmd then Some (m, a) else go rest
        | None => go rest
        end
    end in
  go (group "console_scripts" (entry_points kw)).

(** The status [sys.exit(main())] leaves: [main] returns [None]. *)
Definition exit_status (r : result unit) : nat :=
  match r with
  | Ok _ => 0
  | Err (SystemExit code _) => code
  | Err _ => 1
  end.

Section Installed.
Context `{YamlLoader} `{TemplateEngine} `{DagBagLoader}.

(** The wrapper script: [sys.exit(main())] with [sys.argv] as given. *)
Definition console_script (argv : list string) (w : world) : world * nat :=
  let '(w', r) := main argv w in (w', exit_status r).

(** Running the installed command [cmd] with arguments [args]: the
    entry point must name [main] of the package module, the only entry
    the package has. *)
Definition run_installed (kw : setup_kwargs) (cmd : string) (args : list string) (w : world)
    : option (world * nat) :=
  match resolve_script kw cmd with
  | Some (m, a) =>
      if String.eqb m "airflowdaggenerator.airflowdaggenerator" && String.eqb a "main"
      then Some (console_script (cmd :: args) w) else None
  | None => None
  end.

End Installed.

(** ** The versions setup.py admits *)

Lemma jinja2_requirement_clauses :
  parse_requirement jinja2_requirement = Some (mkReq "jinja2" [mkClause OpLt [2; 11; 0]; mkClause OpGe [2; 10; 1]]).
Proof. reflexivity. Qed.

Lemma python_requires_clauses :
  parse_specifiers python_requires_spec = Some [mkClause OpGe [3; 6]; mkClause OpLt [4]].
Proof. reflexivity. Qed.

Lemma cmp_release_cons (x y : nat) (a b : list nat) :
  cmp_release (x :: a) (y :: b) = match Nat.compare x y with Eq => cmp_release a b | c => c end.
Proof. reflexivity. Qed.

(** Against the empty release, padding gives [Eq] or [Gt], never [Lt]. *)
Lemma cmp_release_nil_r (a : list nat) : cmp_release a [] <> Lt.
Proof. destruct a; cbn; [discriminate|]. now destruct (_ && _). Qed.

(** Case analysis on the comparisons of the first release segments. *)
Local Ltac release_cases :=
  repeat (rewrite ?cmp_release_cons;
          match goal with
          | |- context [Nat.compare ?x ?y] => destruct (Nat.compare_spec x y); subst
          | |- context [cmp_release ?a []] =>
              let E := fresh "E" in
              destruct (cmp_release a []) eqn:E; [|exfalso; exact (cmp_release_nil_r a E)|]
          end); cbn.

(** (C32) The releases setup.py admits: every Jinja2 it installs is a
    2.10 release from 2.10.1 on, the version whose lexer and [Undefined]
    the [Jinja] model follows, and every Python is a 3 release from 3.6
    on; no other release satisfies the specifiers. *)
Theorem admitted_releases (v : list nat) :
  (requirement_admits jinja2_requirement v = true <-> exists x rest, v = 2 :: 10 :: x :: rest /\ 1 <= x) /\
  (admits python_requires_spec v = true <-> exists x rest, v = 3 :: x :: rest /\ 6 <= x).
Proof.
  unfold requirement_admits, admits. rewrite jinja2_requirement_clauses, python_requires_clauses.
  cbn [req_clauses satisfies forallb c_op c_version]. split.
  - destruct v as [|a [|b [|c rest]]]; release_cases;
      split; try discriminate; try (intros (x & r & Hv & Hx); simplify_eq; lia);
      intros _; (exfalso; lia) || (do 2 eexists; split; [reflexivity | lia]).
  - destruct v as [|a [|b rest]]; release_cases;
      split; try discriminate; try (intros (x & r & Hv & Hx); simplify_eq; lia);
      intros _; (exfalso; lia) || (do 2 eexists; split; [reflexivity | lia]).
Qed.

(** ** The installed command *)

Section InstalledProperties.
Context `{YamlLoader} `{TemplateEngine} `{DagBagLoader}.

Lemma setup_py_entry_points (fs : fs_state) (kw : setup_kwargs) :
  setup_py fs = Ok kw -> entry_points kw = [("console_scripts", [console_entry])].
Proof.
  unfold setup_py. destruct (fs_read fs "README.rst"); cbn [result_bind]; [|discriminate].
  now intros [= <-].
Qed.

Lemma exit_status_argparse (e : py_exc) :
  argparse_exit e -> exit_status (Err e) = 0 \/ exit_status (Err e) = 2.
Proof. intros [-> | [m ->]]; cbn; auto. Qed.

(** (C33) The command [airflowdaggenerator] that installing the package
    creates runs [main] on the command line: its entry point resolves to
    [airflowdaggenerator.airflowdaggenerator:main], it leaves the world
    [main] leaves, and it exits with status 0 when [main] returns, 0 or 2
    when the arguments do not parse (help or a usage error), and 1 when
    the generated DAG fails validation. *)
Theorem installed_command_status (fs : fs_state) (kw : setup_kwargs) (argv : list string) (w : world) :
  setup_py fs = Ok kw ->
  run_installed kw "airflowdaggenerator" argv w = Some (console_script ("airflowdaggenerator" :: argv) w) /\
  fst (console_script ("airflowdaggenerator" :: argv) w) = fst (main ("airflowdaggenerator" :: argv) w) /\
  (snd (main ("airflowdaggenerator" :: argv) w) = Ok tt ->
     snd (console_script ("airflowdaggenerator" :: argv) w) = 0) /\
  (forall e, get_args argv = Err e ->
     snd (console_script ("airflowdaggenerator" :: argv) w) = 0 \/
     snd (console_script ("airflowdaggenerator" :: argv) w) = 2) /\
  (forall a fs', get_args argv = Ok a -> gen_of (w_fs w) a = (fs', Ok tt) ->
     import_errors fs' (output_dag_path a) <> [] ->
     snd (console_script ("airflowdaggenerator" :: argv) w) = 1).
Proof.
  intros Hs. split; [unfold run_installed, resolve_script; now rewrite (setup_py_entry_points _ _ Hs)|].
  unfold console_script. split; [now destruct (main _ _)|].
  split; [destruct (main _ _) as [w' r]; cbn; now intros ->|]. split.
  - intros e He. unfold main. cbn [argv_tail tl]. rewrite He. cbn.
    now apply exit_status_argparse, (get_args_err_exit argv).
  - intros a fs' Ha Hg Hne. rewrite (main_parsed ("airflowdaggenerator" :: argv) w a Ha), Hg. cbn zeta.
    now rewrite (validate_dag_errors fs' _ Hne).
Qed.

End InstalledProperties.

End Setup.

(** ** Installing from a checkout and running the command on the fixtures *)

Module SetupScenario.
Import Setup Pipeline Cli PipelineScenario.
#[local] Existing Instances FlatYaml.flat_loader Jinja.jinja_engine.
#[local] Existing Instance PipelineScenario.dagbag | 0.

Definition checkout_fs : fs_state :=
  mkFS (<["README.rst" := "Airflow DAG Generator"]> ∅) ∅.

Lemma admitted_releases_witness :
  requirement_admits jinja2_requirement [2; 10; 3] = true /\
  requirement_admits jinja2_requirement [2; 11] = false /\
  admits python_requires_spec [3; 8; 5] = true /\
  admits python_requires_spec [4; 0] = false.
Proof.
  split; [apply (admitted_releases [2; 10; 3]); do 2 eexists; split; [reflexivity | lia]|].
  split; [apply Bool.not_true_iff_false; intros Hv;
          apply (admitted_releases [2; 11]) in Hv as (x & r & Hv & _); discriminate Hv|].
  split; [apply (admitted_releases [3; 8; 5]); do 2 eexists; split; [reflexivity | lia]|].
  apply Bool.not_true_iff_false; intros Hv.
  apply (admitted_releases [4; 0]) in Hv as (x & r & Hv & _); discriminate Hv.
Defined.

Lemma installed_command_status_witness :
  exists kw, setup_py checkout_fs = Ok kw /\
    run_installed kw "airflowdaggenerator" (command_line (sample_items "test_dag.py")) w0 =
      Some (console_script (sample_argv "test_dag.py") w0) /\
    snd (console_script (sample_argv "test_dag.py") w0) = 0.
Proof.
  eexists. split; [reflexivity|].
  destruct (installed_command_status checkout_fs _ (command_line (sample_items "test_dag.py")) w0 eq_refl)
    as (Hrun & _ & Hok & _).
  split; [exact Hrun | apply Hok; vm_compute; reflexivity].
Defined.

End SetupScenario.
