(* ===== verification/Composed.v ===== *)
(** * [generate_dag] with the concrete loader and engine

    [Generator] proves [generate_dag] for every [YamlLoader] and
    [TemplateEngine], and [Jinja] proves what the template language of
    line 38 does on its own.  This file composes the two with the
    instances [FlatYaml.flat_loader] and [Jinja.jinja_engine]: a template
    file holding an [if] block on lines of its own (with or without
    [else]) and a configuration whose keys are strings gives an output
    file that holds the branch the configuration
    selects between the text around the block, with no trace of the tag
    lines.  Section [LineTemplate] does the same for every template
    written as a [JinjaLines] tree, with blocks nested to any depth: the
    output file holds the rendering of the tree's nodes.
    [ComposedScenario] runs both on checkouts with a [catchup]
    configuration. *)

From S2P Require Import Prelude PyStr FileSystem Yaml YamlFlat Engine JinjaLexer Jinja JinjaLines Generator.
Local Open Scope string_scope.
Local Open Scope dag_scope.

Module Composed.
Import JinjaLexer Jinja Generator.
#[local] Existing Instances FlatYaml.flat_loader Jinja.jinja_engine.

Section IfTemplate.
Variables (fs : fs_state) (cd cn td tn od on : string).

(** Generation end to end, with PyYAML's loader on a configuration
    mapping and Jinja2 with the options of line 38: when the template file
    is an [if] block whose tags stand alone on their lines, written with
    [\n] line ends and no final newline, [generate_dag] writes to the
    output file the text before the block, the branch that the value of
    the condition's key in the configuration selects, and the text after
    the block, and changes nothing else. *)
Theorem generate_dag_if_template (kvs : list (yvalue * yvalue)) (pieces : list string)
    (a ws c t ws' b : string) (else_ : option (string * string)) :
  endswith on ".py" = true -> load_config fs (sep_join cd cn) = Ok (YMap kvs) -> str_keys kvs = true ->
  split_template_path tn = Ok pieces ->
  fs_files fs !! path_join td pieces = Some (if_template a ws c t else_ ws' b) ->
  lf_only (if_template a ws c t else_ ws' b) = true ->
  last_char (if_template a ws c t else_ ws' b) <> Some newline ->
  plain a = true -> plain t = true -> plain b = true ->
  all_blank ws = true -> all_blank ws' = true -> plain_name c = true -> else_ok else_ = true ->
  ends_line a || String.eqb a EmptyString = true -> ends_line t || String.eqb t EmptyString = true ->
  sep_join od on ∉ fs_dirs fs -> dir_exists fs (dirname (sep_join od on)) = true ->
  generate_dag fs cd cn td tn od on
  = (mkFS (<[sep_join od on :=
              a ++ (if truthy (dict_get (fold_left (fun d '(k, v) => dict_set d k v) kvs []) (YStr c))
                    then t else else_body else_) ++ b]> (fs_files fs)) (fs_dirs fs), Ok tt).
Proof.
  intros Hext Hcfg Hkeys Hsplit Hfile Hlf Hlast Ha Ht Hb Hw Hw' Hc He Hla Hlt Hd Hpar.
  pose proof (if_lines_render (fold_left (fun d '(k, v) => dict_set d k v) kvs []) a ws c t ws' b else_
                Ha Ht Hb Hw Hw' Hc He Hla Hlt) as Hr.
  apply result_bind_Ok_inv in Hr as (tm & Hp & Hrender).
  apply (@generate_dag_writes FlatYaml.flat_loader jinja_engine fs cd cn td tn od on (YMap kvs) tm);
    try assumption; [discriminate| |now rewrite template_render_map, Hkeys].
  unfold get_template, get_source. rewrite Hsplit. cbn [result_bind]. rewrite Hfile. cbn [result_bind].
  cbn [compile jinja_engine]. unfold jinja_compile. now rewrite preprocess_lf_only.
Qed.

End IfTemplate.

Section LineTemplate.
Import JinjaLines.
Variables (fs : fs_state) (cd cn td tn od on : string).

(** (C17) Generation end to end for every line-structured template: when
    the template file is the source of a tree of text, substitutions and
    [if]/[else] and [for] blocks nested to any depth, with its tags alone
    on blank-indented lines, LF line ends and no final newline, and the
    tree's nodes render against the configuration mapping, [generate_dag]
    writes exactly that rendering to the output file and changes nothing
    else: no text of the tag lines reaches the DAG file. *)
Theorem generate_dag_line_template (kvs : list (yvalue * yvalue)) (parts : list string)
    (l : list item) (out : string) :
  endswith on ".py" = true -> load_config fs (sep_join cd cn) = Ok (YMap kvs) -> str_keys kvs = true ->
  split_template_path tn = Ok parts ->
  fs_files fs !! path_join td parts = Some (template_source l) ->
  forallb names_ok l = true -> layout_ok LStart (flat_map pieces l) = true ->
  lf_only (template_source l) = true -> last_char (template_source l) <> Some newline ->
  jinja_render (flat_map item_nodes l) (fold_left (fun d '(k, v) => dict_set d k v) kvs []) = Ok out ->
  sep_join od on ∉ fs_dirs fs -> dir_exists fs (dirname (sep_join od on)) = true ->
  generate_dag fs cd cn td tn od on = (mkFS (<[sep_join od on := out]> (fs_files fs)) (fs_dirs fs), Ok tt).
Proof.
  intros Hext Hcfg Hkeys Hsplit Hfile Hn Hl Hlf Hlast Hr Hd Hpar.
  apply (@generate_dag_writes FlatYaml.flat_loader jinja_engine fs cd cn td tn od on (YMap kvs)
           (flat_map item_nodes l)); try assumption; [discriminate| |now rewrite template_render_map, Hkeys].
  unfold get_template, get_source. rewrite Hsplit. cbn [result_bind]. rewrite Hfile. cbn [result_bind].
  cbn [compile jinja_engine]. unfold jinja_compile. rewrite preprocess_lf_only by assumption.
  now apply parse_items.
Qed.

End LineTemplate.
End Composed.

(** * A checkout whose template switches on [catchup] *)

Module ComposedScenario.
Import JinjaLexer Jinja Generator Composed JinjaScenario.
#[local] Existing Instances FlatYaml.flat_loader Jinja.jinja_engine.

Definition catchup_template : string :=
  if_template header indent "catchup" (line "dag.catchup = True") (Some (indent, line "dag.catchup = False"))
              indent footer.

Definition checkout_fs : fs_state :=
  mkFS (<["tests/data/dag_properties.yml" := line "catchup: no"]>
          (<["tests/data/catchup_template.py.j2" := catchup_template]> ∅))
       {[ "tests"; "tests/data"; "tests/output" ]}.

(** [catchup: no] loads as [False]: the file holds the [else] line. *)
Lemma generate_dag_if_template_witness :
  generate_dag checkout_fs "tests/data" "dag_properties.yml" "tests/data" "catchup_template.py.j2"
               "tests/output" "test_dag.py"
  = (mkFS (<["tests/output/test_dag.py" := line "dag = DAG('etl')" ++ line "dag.catchup = False" ++ "dag.cli()"]>
            (fs_files checkout_fs)) (fs_dirs checkout_fs), Ok tt).
Proof.
  rewrite (generate_dag_if_template checkout_fs "tests/data" "dag_properties.yml" "tests/data"
             "catchup_template.py.j2" "tests/output" "test_dag.py" [(YStr "catchup", YBool false)]
             ["catchup_template.py.j2"] header indent "catchup" (line "dag.catchup = True") indent footer
             (Some (indent, line "dag.catchup = False")));
    first [ reflexivity | vm_compute; congruence | apply (bool_decide_unpack _); vm_compute; exact I ].
Defined.

(** A template that switches on [catchup] and loops over [tasks]; the
    flat loader reads [tasks: ab] as a string, over which the loop runs
    character by character, as Python iterates a [str]. *)
Definition line_tree : list JinjaLines.item :=
  [JinjaLines.IText (line "dag = DAG('etl')");
   JinjaLines.IIf "" "catchup" [JinjaLines.IText (line "dag.catchup = True")]
     (Some ("", [JinjaLines.IText (line "dag.catchup = False")])) "";
   JinjaLines.IFor "" "t" "tasks"
     [JinjaLines.IText "op('"; JinjaLines.IVar "t"; JinjaLines.IText (line "')")] "";
   JinjaLines.IText footer].

Definition tree_fs : fs_state :=
  mkFS (<["tests/data/dag_properties.yml" := line "catchup: yes" ++ line "tasks: ab"]>
          (<["tests/data/tree_template.py.j2" := JinjaLines.template_source line_tree]> ∅))
       {[ "tests"; "tests/data"; "tests/output" ]}.

(** [catchup: yes] selects the first branch; the loop writes one line per
    character of [ab]. *)
Lemma generate_dag_line_template_witness :
  generate_dag tree_fs "tests/data" "dag_properties.yml" "tests/data" "tree_template.py.j2"
               "tests/output" "test_dag.py"
  = (mkFS (<["tests/output/test_dag.py" := line "dag = DAG('etl')" ++ line "dag.catchup = True"
                                           ++ line "op('a')" ++ line "op('b')" ++ "dag.cli()"]>
            (fs_files tree_fs)) (fs_dirs tree_fs), Ok tt).
Proof.
  rewrite (generate_dag_line_template tree_fs "tests/data" "dag_properties.yml" "tests/data"
             "tree_template.py.j2" "tests/output" "test_dag.py"
             [(YStr "catchup", YBool true); (YStr "tasks", YStr "ab")] ["tree_template.py.j2"] line_tree
             (line "dag = DAG('etl')" ++ line "dag.catchup = True" ++ line "op('a')" ++ line "op('b')"
              ++ "dag.cli()"));
    first [ reflexivity | vm_compute; congruence | apply (bool_decide_unpack _); vm_compute; exact I ].
Defined.

End ComposedScenario.
